(** * EU climate target analysis: the pandas pipeline, embedded and verified

    The repository is a batch pipeline over pandas tables:
    [src/data_cleaning.py], [src/feature_engineering.py], [src/merge_data.py]
    and [src/calculations.py], driven by [run_pipeline.py].

    The embedding follows the code statement by statement.
    - A cell is a Python value of a column: a [str], a float64 (with [nan]
      as numpy's missing marker), an [Int64] integer, or [pd.NA]/[None].
      Floats are the kernel's binary64 numbers, so rounding, [inf] and [nan]
      are those of the machine; integers are mathematical integers, and the
      arithmetic of an int64 column wraps around as numpy's does.  A [str]
      is held in UTF-8, one [ascii] per byte.
    - A [Series] is a list of cells, a [DataFrame] a list of labelled
      series (column order is insertion order, as in pandas).
    - DataFrames are objects of a heap: every pipeline function receives a
      reference, starts by [df.copy()] and writes to the copy.  The monad
      [Py] threads the heap and the raised exception.
    - The labels of a table are taken to be distinct, as they are in the
      files the pipeline reads: [df[c]] is the first column labelled [c].
      [clean_emissions_raw] can itself make two labels equal (by stripping
      them, or by adding the column geo to a table that has one) before it
      uses a Series method on [df[c]]: there the model follows the code,
      which holds a DataFrame and raises.  The statements on the cleaned
      tables take the stripped labels to be distinct.
    - The text/number conversions of pandas ([pd.to_numeric] on a [str],
      [str] of a float), the order in which numpy adds up the float64
      values of a row (it differs between versions) and [DataFrame.merge]
      on key columns are the parameter [Pandas] of the development: the
      theorems hold for every instance, the examples run on the instance
      [example_pandas]. *)

From Stdlib Require Import ZArith Floats Ascii.
From stdpp Require Import base list strings pretty.

Set Default Proof Using "Type".
Local Open Scope Z_scope.

(** ** Cells *)

Inductive cell :=
| VStr (s : string)      (* a Python str *)
| VFloat (x : float)     (* float64; nan marks a missing value *)
| VInt (n : Z)           (* an integer of an int64/Int64 column *)
| VNA.                   (* pd.NA of a nullable column, None of an object column *)

Definition Series := list cell.

(** [pd.isna] *)
Definition isna (v : cell) : bool :=
  match v with
  | VNA => true
  | VFloat x => PrimFloat.is_nan x
  | _ => false
  end.

Definition notna (v : cell) : bool := negb (isna v).

(** The float64 value of an integer (round to nearest even). *)
Definition Z2F (n : Z) : float := SF2Prim (binary_normalize prec emax n 0 false).

(** The integer a finite float64 denotes, when it denotes one: Python's
    [int(x)] for an integral [x], of any size. *)
Definition F2Z (x : float) : option Z :=
  match Prim2SF x with
  | S754_zero _ => Some 0
  | S754_finite s m e =>
      let m' := if s then Z.neg m else Z.pos m in
      if 0 <=? e then Some (m' * 2 ^ e)
      else if (Z.pos m mod 2 ^ (- e)) =? 0 then Some (m' / 2 ^ (- e))
      else None
  | _ => None
  end.

(** The range of int64, and the value two's-complement arithmetic leaves
    of an integer outside of it. *)
Definition int64_min : Z := - 2 ^ 63.
Definition int64_max : Z := 2 ^ 63 - 1.

Definition wrap64 (n : Z) : Z := (n + 2 ^ 63) mod 2 ^ 64 - 2 ^ 63.

(** A float64 whose integer part is an int64. *)
Definition fits_int64 (x : float) : bool :=
  PrimFloat.leb (Z2F int64_min) x && PrimFloat.ltb x (Z2F (2 ^ 63)).

(** An infinity of either sign. *)
Definition is_inf (x : float) : bool :=
  match Prim2SF x with S754_infinity _ => true | _ => false end.

(** The number a numeric cell holds, as numpy reads it in float64
    arithmetic; a [str] has none. *)
Definition cell_float (v : cell) : option float :=
  match v with
  | VFloat x => Some x
  | VInt n => Some (Z2F n)
  | VNA => Some PrimFloat.nan
  | VStr _ => None
  end.

(** ** Exceptions and the heap monad *)

Inductive exn :=
| ValueError (msg : string)
| KeyError (label : string)
| TypeError (msg : string)
| OverflowError (msg : string)
| AttributeError (msg : string)
| InvalidRef.            (* a reference to no object: never reached from a valid one *)

Inductive outcome (A : Type) :=
| Ok (a : A)
| Raise (e : exn).
Arguments Ok {A} a.
Arguments Raise {A} e.

Definition DataFrame := list (string * Series).
Definition ref := nat.
Definition heap := list DataFrame.

Definition Py (A : Type) : Type := heap → outcome A * heap.

#[global] Instance Py_ret : MRet Py := λ A a h, (Ok a, h).
#[global] Instance Py_bind : MBind Py := λ A B k m h,
  match m h with
  | (Ok a, h') => k a h'
  | (Raise e, h') => (Raise e, h')
  end.

Definition raise {A} (e : exn) : Py A := λ h, (Raise e, h).

Definition lift {A} (r : outcome A) : Py A := λ h, (r, h).

(** ** DataFrame primitives *)

Definition labels (t : DataFrame) : list string := t.*1.

Fixpoint getcol (c : string) (t : DataFrame) : option Series :=
  match t with
  | [] => None
  | (c', v) :: t' => if decide (c' = c) then Some v else getcol c t'
  end.

(** [t[c] = v]: replaces the column if the label exists, appends it otherwise. *)
Fixpoint setcol (c : string) (v : Series) (t : DataFrame) : DataFrame :=
  match t with
  | [] => [(c, v)]
  | (c', v') :: t' => if decide (c' = c) then (c, v) :: t' else (c', v') :: setcol c v t'
  end.

Definition df_new (t : DataFrame) : Py ref := λ h, (Ok (length h), h ++ [t]).

Definition df_read (r : ref) : Py DataFrame := λ h,
  match h !! r with
  | Some t => (Ok t, h)
  | None => (Raise InvalidRef, h)
  end.

Definition df_write (r : ref) (t : DataFrame) : Py unit := λ h, (Ok (), <[r := t]> h).

(** [df.copy()] *)
Definition df_copy (r : ref) : Py ref := t ← df_read r; df_new t.

(** [df.columns] *)
Definition df_columns (r : ref) : Py (list string) := t ← df_read r; mret (labels t).

(** [df[c]] *)
Definition df_getitem (r : ref) (c : string) : Py Series :=
  t ← df_read r;
  match getcol c t with
  | Some v => mret v
  | None => raise (KeyError c)
  end.

(** [df[c] = v] *)
Definition df_setitem (r : ref) (c : string) (v : Series) : Py unit :=
  t ← df_read r; df_write r (setcol c v t).

(** [df.columns = names] *)
Definition df_set_columns (r : ref) (names : list string) : Py unit :=
  t ← df_read r;
  if decide (length names = length t)
  then df_write r (zip names t.*2)
  else raise (ValueError ("Length mismatch: Expected axis has " +:+ pretty (length t)
                          +:+ " elements, new values have " +:+ pretty (length names)
                          +:+ " elements")).

(** Running a stage on a table: the table is the only object of the heap,
    and the result is the table the returned reference points to. *)
Definition exec (f : ref → Py ref) (t : DataFrame) : outcome DataFrame :=
  match f 0%nat [t] with
  | (Ok r, h) => match h !! r with Some t' => Ok t' | None => Raise InvalidRef end
  | (Raise e, _) => Raise e
  end.

Definition exec2 (f : ref → ref → Py ref) (t1 t2 : DataFrame) : outcome DataFrame :=
  match f 0%nat 1%nat [t1; t2] with
  | (Ok r, h) => match h !! r with Some t' => Ok t' | None => Raise InvalidRef end
  | (Raise e, _) => Raise e
  end.

(** ** Text and numbers: the conversions pandas performs

    [parse_number] is what [pd.to_numeric] reads from a [str] cell
    ([None]: not a number, coerced to [nan] under [errors="coerce"]): the
    decimal digits of an int64 that is not negative are read as that
    integer.  [float_repr] is [str] of a float.  [sum_order n] is the
    order in which numpy adds up the [n] float64 values of a row, a tree
    of additions over their positions: it depends on the version and on
    the layout of the block, and the development does not fix it.
    [pd_merge] is [DataFrame.merge] on a list of key labels, which the
    pipeline calls and this development does not look into. *)

Inductive number := NInt (n : Z) | NFloat (x : float).

Inductive join_how := Inner | Left | Right | Outer.

Inductive sum_tree := Leaf (i : nat) | Node (l r : sum_tree).

Class Pandas := {
  parse_number : string → option number;
  float_repr : float → string;
  sum_order : nat → sum_tree;
  pd_merge : join_how → list string → DataFrame → DataFrame → outcome DataFrame;
  parse_number_digits (n : Z) :
    0 ≤ n ≤ int64_max → parse_number (pretty n) = Some (NInt n)
}.

(** ** Series and DataFrame operations of pandas *)

Section pandas.
Context `{Pandas}.

(** One cell of [pd.to_numeric(..., errors="coerce")]. *)
Definition coerce_cell (v : cell) : cell :=
  match v with
  | VStr s =>
      match parse_number s with
      | Some (NInt n) => VInt n
      | Some (NFloat x) => VFloat x
      | None => VFloat PrimFloat.nan
      end
  | VNA => VFloat PrimFloat.nan
  | _ => v
  end.

Definition is_int_cell (v : cell) : bool :=
  match v with VInt _ => true | _ => false end.

Definition to_float_cell (v : cell) : cell :=
  match v with VInt n => VFloat (Z2F n) | _ => v end.

(** [pd.to_numeric(s, errors="coerce")]: an all-integer column stays int64,
    any other becomes float64. *)
Definition to_numeric (s : Series) : Series :=
  let s' := coerce_cell <$> s in
  if forallb is_int_cell s' then s' else to_float_cell <$> s'.

(** [.astype("Int64")] of a float64 column, as pandas' [IntegerArray]
    builds it.  The missing values are masked; a column of missing values
    only is done.  Otherwise the value at [np.nanargmax(values)] is taken:
    the first of the largest values, [nan] counting as [-inf], so that it
    is [nan] when nothing but [-inf] follows a first [nan]. *)
Definition nanargmax (xs : list float) : option float :=
  snd <$> foldl (λ acc x,
    let k := if PrimFloat.is_nan x then PrimFloat.neg_infinity else x in
    match acc with
    | Some (kb, vb) => if PrimFloat.ltb kb k then Some (k, x) else Some (kb, vb)
    | None => Some (k, x)
    end) None xs.

(** What pandas says when it refuses the cast of an array of dtype [dtype]. *)
Definition cast_refused (dtype : string) : string :=
  "cannot safely cast non-equivalent " +:+ dtype +:+ " to int64".

(** That value is passed to [int], which raises on [nan] and on an
    infinity.  When it is no integer, the column is cast as an array of
    Python objects: numpy passes every value that is not masked to [int],
    which raises an OverflowError on an infinity and on an integer that is
    no int64, and pandas then refuses the cast, the values not being those
    it got. *)
Definition int_of_object (x : float) : option exn :=
  if PrimFloat.is_nan x then None
  else if is_inf x then Some (OverflowError "cannot convert float infinity to integer")
  else if fits_int64 x then None
  else Some (OverflowError "Python int too large to convert to C long").

Fixpoint first_overflow (xs : list float) : option exn :=
  match xs with
  | [] => None
  | x :: xs' =>
      match int_of_object x with
      | Some e => Some e
      | None => first_overflow xs'
      end
  end.

Definition cast_objects (xs : list float) : exn :=
  default (TypeError (cast_refused "object")) (first_overflow xs).

(** When it is an integer, the column is cast as it is, and the cast is
    refused unless every value that is not masked is an integer of
    int64. *)
Definition is_integral (x : float) : bool := bool_decide (is_Some (F2Z x)).

Definition castable (x : float) : bool :=
  PrimFloat.is_nan x || (is_integral x && fits_int64 x).

Definition cast_float (x : float) : cell :=
  if PrimFloat.is_nan x then VNA else VInt (default 0 (F2Z x)).

Definition cast_float64 (xs : list float) : outcome Series :=
  if forallb PrimFloat.is_nan xs then Ok (cast_float <$> xs)
  else
    let m := default PrimFloat.nan (nanargmax xs) in
    if PrimFloat.is_nan m then Raise (ValueError "cannot convert float NaN to integer")
    else if is_inf m then
      Raise (OverflowError "cannot convert float infinity to integer")
    else if is_integral m then
      if forallb castable xs then Ok (cast_float <$> xs)
      else Raise (TypeError (cast_refused "float64"))
    else Raise (cast_objects xs).

(** [.astype("Int64")] of a numeric column: an int64 column is taken as it
    is, any other is a float64 column. *)
Definition astype_Int64 (s : Series) : outcome Series :=
  if forallb is_int_cell s then Ok s
  else match mapM cell_float s with
       | Some xs => cast_float64 xs
       | None => Raise (TypeError "object cannot be converted to an IntegerDtype")
       end.

(** [.astype(str)] of one cell. *)
Definition astype_str (v : cell) : string :=
  match v with
  | VStr s => s
  | VInt n => pretty n
  | VFloat x => float_repr x
  | VNA => "None"
  end.

(** Elementwise [a op b] of two numeric cells: [pd.NA] wins, integers stay
    integers under [int_op] (which wraps around), everything else is
    float64 arithmetic; a [str] operand is a TypeError. *)
Definition cell_arith (int_op : option (Z → Z → Z)) (float_op : float → float → float)
    (a b : cell) : outcome cell :=
  match a, b with
  | VStr _, _ | _, VStr _ => Raise (TypeError "unsupported operand type(s)")
  | VNA, _ | _, VNA => Ok VNA
  | VInt m, VInt n =>
      match int_op with
      | Some f => Ok (VInt (wrap64 (f m n)))
      | None => Ok (VFloat (float_op (Z2F m) (Z2F n)))
      end
  | VInt m, VFloat y => Ok (VFloat (float_op (Z2F m) y))
  | VFloat x, VInt n => Ok (VFloat (float_op x (Z2F n)))
  | VFloat x, VFloat y => Ok (VFloat (float_op x y))
  end.

Definition cell_truediv : cell → cell → outcome cell := cell_arith None PrimFloat.div.
Definition cell_sub : cell → cell → outcome cell := cell_arith (Some Z.sub) PrimFloat.sub.

Fixpoint series_zip (op : cell → cell → outcome cell) (a b : Series) : outcome Series :=
  match a, b with
  | x :: a', y :: b' =>
      match op x y with
      | Ok v => match series_zip op a' b' with Ok r => Ok (v :: r) | Raise e => Raise e end
      | Raise e => Raise e
      end
  | _, _ => Ok []
  end.

(** Rows kept by a boolean mask: [s[mask]]. *)
Fixpoint take_mask {A} (mask : list bool) (s : list A) : list A :=
  match mask, s with
  | m :: mask', x :: s' => if m then x :: take_mask mask' s' else take_mask mask' s'
  | _, _ => []
  end.

(** [df[mask]] *)
Definition df_mask (mask : list bool) (t : DataFrame) : DataFrame :=
  prod_map id (take_mask mask) <$> t.

(** [df.drop(columns=cs)] *)
Definition df_drop (cs : list string) (t : DataFrame) : DataFrame :=
  filter (λ p, p.1 ∉ cs) t.

(** [df[cs]] for a list of labels: KeyError on the first absent one. *)
Fixpoint df_select (cs : list string) (t : DataFrame) : outcome DataFrame :=
  match cs with
  | [] => Ok []
  | c :: cs' =>
      match getcol c t with
      | None => Raise (KeyError c)
      | Some v => match df_select cs' t with Ok r => Ok ((c, v) :: r) | Raise e => Raise e end
      end
  end.

(** Number of rows. *)
Definition nrows (t : DataFrame) : nat :=
  match t with [] => 0%nat | (_, v) :: _ => length v end.

(** [[str(y) for y in range(year_start, year_end + 1)]] *)
Definition year_labels (year_start year_end : Z) : list string :=
  pretty <$> seqZ year_start (year_end + 1 - year_start).

(** [[c for c in years if c in df.columns]] *)
Definition present (years : list string) (t : DataFrame) : list string :=
  filter (λ c, c ∈ labels t) years.

(** [str.strip()]: the characters Python counts as whitespace removed at
    both ends.  These are U+0009 to U+000D, U+001C to U+0020, U+0085,
    U+00A0, U+1680, U+2000 to U+200A, U+2028, U+2029, U+202F, U+205F and
    U+3000; in UTF-8 they take one, two or three bytes. *)
Definition is_space1 (a : ascii) : bool :=
  let n := N_of_ascii a in
  ((9 <=? n) && (n <=? 13) || (28 <=? n) && (n <=? 32))%N.

Definition is_space2 (a b : ascii) : bool :=
  let '(m, n) := (N_of_ascii a, N_of_ascii b) in
  ((m =? 194) && ((n =? 133) || (n =? 160)))%N.

Definition is_space3 (a b c : ascii) : bool :=
  let '(l, m, n) := (N_of_ascii a, N_of_ascii b, N_of_ascii c) in
  ((l =? 225) && (m =? 154) && (n =? 128)
   || (l =? 226) && (m =? 128)
      && ((128 <=? n) && (n <=? 138) || (n =? 168) || (n =? 169) || (n =? 175))
   || (l =? 226) && (m =? 129) && (n =? 159)
   || (l =? 227) && (m =? 128) && (n =? 128))%N.

Fixpoint lstrip (s : string) : string :=
  match s with
  | String a s1 =>
      if is_space1 a then lstrip s1
      else match s1 with
           | String b s2 =>
               if is_space2 a b then lstrip s2
               else match s2 with
                    | String c s3 => if is_space3 a b c then lstrip s3 else s
                    | EmptyString => s
                    end
           | EmptyString => s
           end
  | EmptyString => EmptyString
  end.

(** The same from the right, on the reversed bytes. *)
Fixpoint lstrip_rev (s : string) : string :=
  match s with
  | String a s1 =>
      if is_space1 a then lstrip_rev s1
      else match s1 with
           | String b s2 =>
               if is_space2 b a then lstrip_rev s2
               else match s2 with
                    | String c s3 => if is_space3 c b a then lstrip_rev s3 else s
                    | EmptyString => s
                    end
           | EmptyString => s
           end
  | EmptyString => EmptyString
  end.

Definition rstrip (s : string) : string := String.rev (lstrip_rev (String.rev s)).

Definition strip (s : string) : string := rstrip (lstrip s).

(** How often a label occurs in a list. *)
Definition occurrences (c : string) (cs : list string) : nat :=
  length (filter (λ x, x = c) cs).

(** [str.isdigit()] on ASCII text. *)
Definition is_digit (a : ascii) : bool :=
  let n := Ascii.nat_of_ascii a in (48 <=? n)%nat && (n <=? 57)%nat.

Definition isdigit (s : string) : bool :=
  match s with
  | EmptyString => false
  | _ => forallb is_digit (String.list_ascii_of_string s)
  end.

(** [np.rint]: the nearest integer, ties to even. *)
Definition rint (x : float) : float :=
  let big := 4503599627370496%float in
  if PrimFloat.ltb (PrimFloat.abs x) big then
    let r := PrimFloat.sub (PrimFloat.add (PrimFloat.abs x) big) big in
    if PrimFloat.ltb x 0 then PrimFloat.opp r
    else if PrimFloat.eqb x 0 then x else r
  else x.

(** [np.round(x, decimals)]: multiply, [rint], divide. *)
Definition np_round (decimals : Z) (x : float) : float :=
  if decimals =? 0 then rint x
  else PrimFloat.div (rint (PrimFloat.mul x (Z2F (10 ^ decimals)))) (Z2F (10 ^ decimals)).

(** [Series.round(decimals)] *)
Definition round_cell (decimals : Z) (v : cell) : cell :=
  match v with VFloat x => VFloat (np_round decimals x) | _ => v end.

End pandas.

(** ** src/feature_engineering.py *)

Section feature_engineering.
Context `{Pandas}.

(** [for x in xs: body(x)] *)
Fixpoint for_each {A} (xs : list A) (body : A → Py unit) : Py unit :=
  match xs with
  | [] => mret ()
  | x :: xs' => body x;; for_each xs' body
  end.

(** [[s[0] for s in cols], [s[1] for s in cols], ...]: the rows of a list of
    columns of [n] rows. *)
Definition rows_of (n : nat) (cols : list Series) : list (list cell) :=
  (λ i, omap (λ s : Series, s !! i) cols) <$> seq 0 n.

(** [values.sum()] of numpy on float64 values: the additions of
    [sum_order], 0.0 for no value. *)
Fixpoint sum_in (o : sum_tree) (xs : list float) : float :=
  match o with
  | Leaf i => default 0%float (xs !! i)
  | Node l r => PrimFloat.add (sum_in l xs) (sum_in r xs)
  end.

Definition np_sum (xs : list float) : float :=
  match xs with
  | [] => 0%float
  | _ => sum_in (sum_order (length xs)) xs
  end.

(** One row of [DataFrame.sum(axis=1)] over numeric columns: missing values
    are filled with 0 and the row is added up in float64 by numpy. *)
Definition fill_zero (x : float) : float := if PrimFloat.is_nan x then 0%float else x.

Definition nansum (row : list cell) : float :=
  np_sum (fill_zero <$> omap cell_float row).

(** The same over int64 columns: the sum of the integers, which wraps
    around. *)
Definition row_total (row : list cell) : Z :=
  foldl (λ acc v, match v with VInt n => acc + n | _ => acc end) 0 row.

Definition int_sum (row : list cell) : Z := wrap64 (row_total row).

(** [df.sum(axis=1)] of the numeric columns [cols]: int64 when every column
    is, float64 otherwise. *)
Definition sum_axis1 (n : nat) (cols : list Series) : Series :=
  if forallb (forallb is_int_cell) cols
  then (λ row, VInt (int_sum row)) <$> rows_of n cols
  else (λ row, VFloat (nansum row)) <$> rows_of n cols.

Definition add_total_emissions (df : ref) (year_start year_end : Z) (out_col : string)
    : Py ref :=
  out ← df_copy df;
  let years := year_labels year_start year_end in
  t ← df_read out;
  let available := present years t in
  if decide (available = []) then
    raise (ValueError "No year columns found to compute total emissions.")
  else
    for_each available (λ c, v ← df_getitem out c; df_setitem out c (to_numeric v));;
    t ← df_read out;
    sel ← lift (df_select available t);
    df_setitem out out_col (sum_axis1 (nrows t) sel.*2);;
    mret out.

(** [df.dropna(subset=cs)]: the rows with no missing cell in the columns [cs]. *)
Definition dropna_mask (n : nat) (cols : list Series) : list bool :=
  forallb notna <$> rows_of n cols.

Definition add_difference_between_years (df : ref) (year_a year_b : Z) (out_col : string)
    : Py ref :=
  out ← df_copy df;
  let a := pretty year_a in
  let b := pretty year_b in
  cols ← df_columns out;
  if decide (a ∉ cols ∨ b ∉ cols) then
    raise (ValueError ("Expected year columns " +:+ a +:+ " and " +:+ b +:+ "."))
  else
    va ← df_getitem out a; df_setitem out a (to_numeric va);;
    vb ← df_getitem out b; df_setitem out b (to_numeric vb);;
    t ← df_read out;
    sel ← lift (df_select [a; b] t);
    out ← df_new (df_mask (dropna_mask (nrows t) sel.*2) t);
    vb ← df_getitem out b;
    va ← df_getitem out a;
    d ← lift (series_zip cell_sub vb va);
    df_setitem out out_col d;;
    mret out.

(** [df.melt(id_vars, value_vars, var_name, value_name)] *)
Definition melt (id_vars value_vars : list string) (var_name value_name : string)
    (t : DataFrame) : outcome DataFrame :=
  if decide (value_name ∈ labels t) then
    Raise (ValueError "value_name cannot match an element in the DataFrame columns.")
  else
    match df_select id_vars t, df_select value_vars t with
    | Raise e, _ | _, Raise e => Raise e
    | Ok ids, Ok vals =>
        let n := nrows t in
        Ok ((prod_map id (λ v : Series, mjoin (replicate (length vals) v)) <$> ids)
            ++ [(var_name, mjoin ((λ c, replicate n (VStr c)) <$> value_vars));
                (value_name, mjoin vals.*2)])
    end.

Definition wide_to_long_years (df : ref) (id_cols : list string)
    (year_start year_end : Z) (value_name var_name : string) : Py ref :=
  let years := year_labels year_start year_end in
  t ← df_read df;
  let year_cols := present years t in
  out ← df_copy df;
  t ← df_read out;
  m ← lift (melt id_cols year_cols var_name value_name t);
  out_long ← df_new m;
  v ← df_getitem out_long var_name;
  v' ← lift (astype_Int64 (to_numeric v));
  df_setitem out_long var_name v';;
  w ← df_getitem out_long value_name;
  df_setitem out_long value_name (to_numeric w);;
  mret out_long.

(** [map_sector_main(code)]; the argument is any Python value of the column. *)
Definition map_sector_main (code : cell) : string :=
  match code with
  | VStr code =>
      if String.prefix "CRF1" code then "Energia"
      else if String.prefix "CRF2" code then "Processos Industriais"
      else if String.prefix "CRF3" code then "Agricultura"
      else if String.prefix "CRF4" code then "Uso do Solo e Florestas (LULUCF)"
      else if String.prefix "CRF5" code then "Resíduos"
      else if String.prefix "CRF6" code then "Outros"
      else if String.prefix "TOTX" code then "Memo"
      else "Outro"
  | _ => "Outro"
  end.

Definition add_sector_main (df : ref) (src_col out_col : string) : Py ref :=
  out ← df_copy df;
  cols ← df_columns out;
  if decide (src_col ∉ cols) then
    raise (ValueError ("Expected column '" +:+ src_col +:+ "'."))
  else
    v ← df_getitem out src_col;
    df_setitem out out_col ((λ c, VStr (map_sector_main c)) <$> v);;
    mret out.

Definition add_emissions_per_capita (df : ref)
    (emissions_col population_col out_col : string) : Py ref :=
  out ← df_copy df;
  e ← df_getitem out emissions_col;
  p ← df_getitem out population_col;
  q ← lift (series_zip cell_truediv e p);
  df_setitem out out_col q;;
  mret out.

(** The labels an [Optional[Iterable[str]]] argument makes the loop visit:
    [if cols:] skips [None] and the empty list. *)
Definition truthy (cs : option (list string)) : list string := default [] cs.

Definition apply_rounding (df : ref) (round_5_cols percent_cols : option (list string))
    : Py ref :=
  out ← df_copy df;
  for_each (truthy round_5_cols) (λ c,
    cols ← df_columns out;
    if decide (c ∈ cols) then
      v ← df_getitem out c; df_setitem out c (round_cell 5 <$> to_numeric v)
    else mret ());;
  for_each (truthy percent_cols) (λ c,
    cols ← df_columns out;
    if decide (c ∈ cols) then
      v ← df_getitem out c; df_setitem out c (round_cell 0 <$> to_numeric v)
    else mret ());;
  mret out.

End feature_engineering.

(** ** src/merge_data.py *)

Section merge_data.
Context `{Pandas}.

(** [df.rename(columns={old: new})] *)
Definition df_rename (old new : string) (t : DataFrame) : DataFrame :=
  prod_map (λ c, if decide (c = old) then new else c) id <$> t.

Definition population_wide_to_long (df_population_wide : ref) (country_col : string)
    (year_start year_end : Z) (out_country_col out_year_col out_value_col : string)
    : Py ref :=
  df ← df_copy df_population_wide;
  let years := year_labels year_start year_end in
  t ← df_read df;
  let year_cols := present years t in
  m ← lift (melt [country_col] year_cols out_year_col out_value_col t);
  long_df ← df_new m;
  v ← df_getitem long_df out_year_col;
  v' ← lift (astype_Int64 (to_numeric v));
  df_setitem long_df out_year_col v';;
  w ← df_getitem long_df out_value_col;
  w' ← lift (astype_Int64 (to_numeric w));
  df_setitem long_df out_value_col w';;
  t ← df_read long_df;
  long_df ← df_new (df_rename country_col out_country_col t);
  mret long_df.

Definition merge_emissions_population_long (emissions_long population_long : ref)
    (how : join_how) (country_col year_col : string) : Py ref :=
  em ← df_copy emissions_long;
  pop ← df_copy population_long;
  ecols ← df_columns em;
  if decide (country_col ∉ ecols ∨ year_col ∉ ecols) then
    raise (ValueError ("Emissions must contain '" +:+ country_col +:+ "' and '"
                       +:+ year_col +:+ "'."))
  else
    pcols ← df_columns pop;
    if decide (country_col ∉ pcols ∨ year_col ∉ pcols) then
      raise (ValueError ("Population must contain '" +:+ country_col +:+ "' and '"
                         +:+ year_col +:+ "'."))
    else
      e ← df_read em;
      p ← df_read pop;
      m ← lift (pd_merge how [country_col; year_col] e p);
      merged ← df_new m;
      mret merged.

End merge_data.

(** ** src/data_cleaning.py *)

Definition DEFAULT_COUNTRY_MAP : list (string * string) :=
  [ ("AT", "Austria"); ("BE", "Belgium"); ("BG", "Bulgaria"); ("CY", "Cyprus");
    ("CZ", "Czech Republic"); ("DE", "Germany"); ("DK", "Denmark"); ("EE", "Estonia");
    ("EL", "Greece"); ("ES", "Spain"); ("FI", "Finland"); ("FR", "France");
    ("HR", "Croatia"); ("HU", "Hungary"); ("IE", "Ireland"); ("IT", "Italy");
    ("LT", "Lithuania"); ("LU", "Luxembourg"); ("LV", "Latvia"); ("MT", "Malta");
    ("NL", "Netherlands"); ("PL", "Poland"); ("PT", "Portugal"); ("RO", "Romania");
    ("SE", "Sweden"); ("SI", "Slovenia"); ("SK", "Slovakia"); ("NO", "Norway");
    ("IS", "Iceland"); ("EU27_2020", "European Union (EU27)") ].

Definition DEFAULT_EU_COUNTRIES : list string :=
  [ "Austria"; "Belgium"; "Bulgaria"; "Cyprus"; "Czech Republic"; "Germany";
    "Denmark"; "Estonia"; "Greece"; "Spain"; "Finland"; "France"; "Croatia";
    "Hungary"; "Ireland"; "Italy"; "Lithuania"; "Luxembourg"; "Latvia"; "Malta";
    "Netherlands"; "Poland"; "Portugal"; "Romania"; "Sweden"; "Slovenia";
    "Slovakia"; "Iceland"; "Norway" ].

Section data_cleaning.
Context `{Pandas}.

(** [for x in xs: v = body(v, x)]: a loop that rebinds a variable. *)
Fixpoint for_rebind {A V} (xs : list A) (v : V) (body : V → A → Py V) : Py V :=
  match xs with
  | [] => mret v
  | x :: xs' => v' ← body v x; for_rebind xs' v' body
  end.

(** [s.split(",")] *)
Fixpoint split_on (sep : ascii) (s : string) : list string :=
  match s with
  | EmptyString => [EmptyString]
  | String a s' =>
      if decide (a = sep) then EmptyString :: split_on sep s'
      else match split_on sep s' with
           | f :: fs => String a f :: fs
           | [] => [String a EmptyString]
           end
  end.

(** [series.str.split(sep, expand=True)]: as many columns as the longest
    row has fields, shorter rows padded with [None]. *)
Definition str_split_expand (sep : ascii) (ks : list string) : DataFrame :=
  let fs := split_on sep <$> ks in
  let width := foldr Nat.max 0%nat (length <$> fs) in
  (λ j, (pretty j, (λ f : list string, from_option VStr VNA (f !! j)) <$> fs))
    <$> seq 0 width.

(** [dict.get] on the key of a cell, as [Series.map(dict)] does: [nan] for
    a key the dict does not hold. *)
Fixpoint dict_get (d : list (string * string)) (k : string) : option string :=
  match d with
  | [] => None
  | (k', v) :: d' => if decide (k' = k) then Some v else dict_get d' k
  end.

Definition map_dict (d : list (string * string)) (v : cell) : cell :=
  match v with
  | VStr k => from_option VStr (VFloat PrimFloat.nan) (dict_get d k)
  | _ => VFloat PrimFloat.nan
  end.

(** [cell != s] for a [str] [s] *)
Definition cell_ne_str (s : string) (v : cell) : bool :=
  match v with VStr k => bool_decide (k ≠ s) | _ => true end.

(** [cell in ss] of [Series.isin] *)
Definition cell_isin (ss : list string) (v : cell) : bool :=
  match v with VStr k => bool_decide (k ∈ ss) | _ => false end.

Definition key_col : string := "freq,unit,airpol,src_crf,geo\TIME_PERIOD".

(** [df[c]] where the code goes on with a method of a Series ([.str],
    [.map(dict)]): when the label [c] is on several columns [df[c]] is a
    DataFrame, and the method raises [e]. *)
Definition df_getitem_series (r : ref) (c : string) (e : exn) : Py Series :=
  cols ← df_columns r;
  if decide (1 < occurrences c cols)%nat then raise e else df_getitem r c.

Definition clean_emissions_raw (df_raw : ref) (country_map : list (string * string))
    (drop_eu_total : bool) : Py ref :=
  df ← df_copy df_raw;
  cols ← df_columns df;
  if decide (key_col ∉ cols) then
    raise (ValueError ("Expected column '" +:+ key_col +:+ "' in emissions raw dataframe."))
  else
    df_set_columns df (strip <$> cols);;
    k ← df_getitem_series df key_col
          (AttributeError "'DataFrame' object has no attribute 'str'");
    parts ← df_new (str_split_expand "," (astype_str <$> k));
    df_set_columns parts ["freq"; "unit"; "airpol"; "src_crf"; "geo"];;
    t ← df_read df;
    p ← df_read parts;
    df ← df_new (df_drop [key_col] t ++ p);
    geo ← df_getitem_series df "geo" (TypeError "the first argument must be callable");
    df_setitem df "country" (map_dict country_map <$> geo);;
    if drop_eu_total then
      geo ← df_getitem df "geo";
      t ← df_read df;
      df ← df_new (df_mask (cell_ne_str "EU27_2020" <$> geo) t);
      mret df
    else mret df.

Definition clean_population_raw (df_raw : ref) (eu_countries : list string) : Py ref :=
  df ← df_copy df_raw;
  cols ← df_columns df;
  df_set_columns df (strip <$> cols);;
  cols ← df_columns df;
  if decide ("Country Name" ∉ cols) then
    raise (ValueError "Expected column 'Country Name' in population dataframe.")
  else
    names ← df_getitem df "Country Name";
    t ← df_read df;
    df ← df_new (df_mask (cell_isin eu_countries <$> names) t);
    df ← for_rebind ["Country Code"; "Indicator Name"; "Indicator Code"] df (λ df col,
      cols ← df_columns df;
      if decide (col ∈ cols) then t ← df_read df; df_new (df_drop [col] t)
      else mret df);
    let years := year_labels 1990 2023 in
    t ← df_read df;
    let keep_cols := "Country Name" :: present years t in
    sel ← lift (df_select keep_cols t);
    df ← df_new sel;
    cols ← df_columns df;
    let year_cols := filter (λ c, isdigit c) cols in
    t ← df_read df;
    sel ← lift (df_select year_cols t);
    conv ← lift (foldr (λ '(c, v) acc,
                   match astype_Int64 (to_numeric v), acc with
                   | Ok v', Ok r => Ok ((c, v') :: r)
                   | Raise e, _ | _, Raise e => Raise e
                   end) (Ok []) sel);
    for_each conv (λ '(c, v), df_setitem df c v);;
    mret df.

End data_cleaning.

(** ** src/calculations.py *)

Section calculations.
Context `{Pandas}.

(** [cell == y] for an integer [y]: the mask of [df[year_col] == y]
    ([pd.NA] and text compare false). *)
Definition cell_eq_int (y : Z) (v : cell) : bool :=
  match v with
  | VInt n => n =? y
  | VFloat x => PrimFloat.eqb x (Z2F y)
  | _ => false
  end.

(** Equality of two group keys; a missing key equals nothing. *)
Definition key_eqb (a b : cell) : bool :=
  match a, b with
  | VStr s, VStr s' => bool_decide (s = s')
  | VInt m, VInt n => m =? n
  | VFloat x, VFloat y => PrimFloat.eqb x y
  | VInt m, VFloat y => PrimFloat.eqb (Z2F m) y
  | VFloat x, VInt n => PrimFloat.eqb x (Z2F n)
  | _, _ => false
  end.

(** The distinct keys of a column, missing ones dropped ([dropna=True]). *)
Fixpoint group_keys (g : Series) : Series :=
  match g with
  | [] => []
  | k :: g' =>
      let ks := group_keys g' in
      if notna k && negb (existsb (key_eqb k) ks) then k :: ks else ks
  end.

(** One step of the compensated sum of pandas' [group_sum]. *)
Definition kahan_step (acc : float * float) (x : float) : float * float :=
  let '(sumx, comp) := acc in
  let y := PrimFloat.sub x comp in
  let t := PrimFloat.add sumx y in
  let comp' := PrimFloat.sub (PrimFloat.sub t sumx) y in
  (t, if PrimFloat.is_nan comp' then 0%float else comp').

(** The sum of one group: missing values skipped, 0 for none left. *)
Definition group_sum (xs : list float) : float :=
  (foldl kahan_step (0%float, 0%float) (filter (λ x, negb (PrimFloat.is_nan x)) xs)).1.

(** The values a sum adds up, in float64 (an int64 column is read in
    float64, which is exact below 2^53); a [str] cell is a TypeError. *)
Fixpoint floats_of (s : Series) : outcome (list float) :=
  match s with
  | [] => Ok []
  | v :: s' =>
      match cell_float v, floats_of s' with
      | Some x, Ok r => Ok (x :: r)
      | None, _ => Raise (TypeError "unsupported operand type(s)")
      | _, Raise e => Raise e
      end
  end.

(** An index-labelled series: what [groupby(...)[...].sum()] returns. *)
Definition ISeries := list (cell * float).

(** [g.groupby(...)[e].sum()] for the key column [g] and the value column [e]. *)
Definition groupby_sum (g e : Series) : outcome ISeries :=
  match floats_of e with
  | Raise err => Raise err
  | Ok xs =>
      Ok ((λ k, (k, group_sum (take_mask (key_eqb k <$> g) xs))) <$> group_keys g)
  end.

(** [df[df[year_col] == y].groupby(group_col)[emissions_col].sum()] *)
Definition sum_by_group_at (out : ref) (year_col : string) (y : Z)
    (group_col emissions_col : string) : Py ISeries :=
  years ← df_getitem out year_col;
  t ← df_read out;
  let sel := df_mask (cell_eq_int y <$> years) t in
  g ← lift (from_option Ok (Raise (KeyError group_col)) (getcol group_col sel));
  e ← lift (from_option Ok (Raise (KeyError emissions_col)) (getcol emissions_col sel));
  lift (groupby_sum g e).

(** The value an indexed series holds at a key, [nan] when the key is not
    in its index. *)
Fixpoint iseries_at (s : ISeries) (k : cell) : float :=
  match s with
  | [] => PrimFloat.nan
  | (k', x) :: s' => if key_eqb k' k then x else iseries_at s' k
  end.

(** The index of [pd.concat([a, b], axis=1)]: the union of the two. *)
Definition union_index (a b : ISeries) : Series :=
  a.*1 ++ filter (λ k, negb (existsb (key_eqb k) a.*1)) b.*1.

(** [pd.concat([a.rename(na), b.rename(nb)], axis=1)]: the index and the
    frame of the two aligned columns. *)
Definition concat_axis1 (na nb : string) (a b : ISeries) : Series * DataFrame :=
  let idx := union_index a b in
  (idx, [(na, (λ k, VFloat (iseries_at a k)) <$> idx);
         (nb, (λ k, VFloat (iseries_at b k)) <$> idx)]).

(** Position of a key in an index. *)
Fixpoint index_of (idx : Series) (k : cell) : option nat :=
  match idx with
  | [] => None
  | k' :: idx' => if key_eqb k' k then Some 0%nat else S <$> index_of idx' k
  end.

(** [left.merge(right, left_on=c, right_index=True, how="left")] for a
    right frame with the unique index [idx]: every left row once, in order,
    with the right row of its key or [nan]; a label both sides carry gets
    the suffixes [_x] and [_y]. *)
Definition merge_left_on_index (left : DataFrame) (c : string) (idx : Series)
    (right : DataFrame) : outcome DataFrame :=
  match getcol c left with
  | None => Raise (KeyError c)
  | Some keys =>
      let both := filter (λ l, l ∈ labels right) (labels left) in
      let lname l := if decide (l ∈ both) then l +:+ "_x" else l in
      let rname l := if decide (l ∈ both) then l +:+ "_y" else l in
      let pick (v : Series) k :=
        match index_of idx k with
        | Some j => default (VFloat PrimFloat.nan) (v !! j)
        | None => VFloat PrimFloat.nan
        end in
      Ok ((prod_map lname id <$> left)
          ++ (prod_map rname (λ v, pick v <$> keys) <$> right))
  end.

Definition series_mul_float (x : float) (s : Series) : Series :=
  (λ v, match v with
        | VFloat y => VFloat (PrimFloat.mul y x)
        | VInt n => VFloat (PrimFloat.mul (Z2F n) x)
        | _ => v
        end) <$> s.

Definition add_reduction_percent_actual (df : ref) (base_year current_year : Z)
    (group_col year_col emissions_col out_col : string) : Py ref :=
  out ← df_copy df;
  base ← sum_by_group_at out year_col base_year group_col emissions_col;
  curr ← sum_by_group_at out year_col current_year group_col emissions_col;
  let '(idx, k) := concat_axis1 "base" "current" base curr in
  kpi ← df_new k;
  c ← df_getitem kpi "current";
  b ← df_getitem kpi "base";
  d ← lift (series_zip cell_sub c b);
  b ← df_getitem kpi "base";
  q ← lift (series_zip cell_truediv d b);
  df_setitem kpi out_col (series_mul_float 100 q);;
  t ← df_read out;
  k ← df_read kpi;
  sel ← lift (df_select [out_col] k);
  m ← lift (merge_left_on_index t group_col idx sel);
  out ← df_new m;
  mret out.

Definition add_target_2030_and_gap (df : ref) (target_reduction_pct : float)
    (base_year : Z) (group_col year_col emissions_col out_target_col out_gap_col : string)
    (compare_year : Z) : Py ref :=
  out ← df_copy df;
  base ← sum_by_group_at out year_col base_year group_col emissions_col;
  comp ← sum_by_group_at out year_col compare_year group_col emissions_col;
  let '(idx, k) := concat_axis1 "base" "compare" base comp in
  kpi ← df_new k;
  b ← df_getitem kpi "base";
  df_setitem kpi out_target_col
    (series_mul_float (PrimFloat.add 1 (PrimFloat.div target_reduction_pct 100)) b);;
  tg ← df_getitem kpi out_target_col;
  cm ← df_getitem kpi "compare";
  g ← lift (series_zip cell_sub tg cm);
  df_setitem kpi out_gap_col g;;
  t ← df_read out;
  k ← df_read kpi;
  sel ← lift (df_select [out_target_col; out_gap_col] k);
  m ← lift (merge_left_on_index t group_col idx sel);
  out ← df_new m;
  mret out.

End calculations.

(** ** run_pipeline.py

    The script between [pd.read_csv] of the two raw files and [to_csv] of
    the merged table: the stages in the order and with the arguments of
    the script, each bound to the variable the script binds it to. *)

Section run_pipeline.
Context `{Pandas}.

Definition id_cols : list string := ["freq"; "unit"; "airpol"; "src_crf"; "geo"; "country"].

Definition run_pipeline (em_raw pop_raw : ref) : Py ref :=
  em ← clean_emissions_raw em_raw DEFAULT_COUNTRY_MAP true;
  pop ← clean_population_raw pop_raw DEFAULT_EU_COUNTRIES;
  em ← add_total_emissions em 1990 2023 "total_emissoes";
  em ← add_difference_between_years em 1990 2023 "diferença_total";
  em_long ← wide_to_long_years em id_cols 1990 2023 "emissions" "year";
  em_long ← add_sector_main em_long "src_crf" "sector_main";
  pop_long ← population_wide_to_long pop "Country Name" 1990 2023
               "country" "year" "population";
  df ← merge_emissions_population_long em_long pop_long Inner "country" "year";
  df ← add_emissions_per_capita df "emissions" "population" "emissions_per_capita";
  df ← add_reduction_percent_actual df 1990 2023 "country" "year" "emissions"
         "redução_%_atual";
  df ← add_target_2030_and_gap df (-55) 1990 "country" "year" "emissions"
         "meta_2030" "gap_2030" 2023;
  apply_rounding df (Some ["emissions"; "emissions_per_capita"; "gap_2030"; "meta_2030"])
                 (Some ["redução_%_atual"]).

End run_pipeline.

(** ** An instance for running examples

    [read_decimal] reads a plain decimal literal: an optional minus sign,
    digits, and optionally a point followed by digits (the quotient of two
    integers that float64 holds exactly is correctly rounded, so the value
    is the one Python reads for literals of up to 15 digits).
    [write_float] is Python's [str] on [nan], the infinities, the zeros and
    the integral floats below 1e16, [left_to_right] adds a row up from
    left to right, and [inner_join] is the join the pipeline asks for
    ([how="inner"]); the examples need no more. *)

Fixpoint digits_val (acc : Z) (s : string) : option Z :=
  match s with
  | EmptyString => Some acc
  | String a s' =>
      if is_digit a then digits_val (10 * acc + (Z.of_nat (Ascii.nat_of_ascii a) - 48)) s'
      else None
  end.

Definition read_decimal (s : string) : option number :=
  let '(neg, body) :=
    match s with
    | String "-" r => (true, r)
    | _ => (false, s)
    end in
  match split_on "." body with
  | [i] =>
      if isdigit i then
        n ← digits_val 0 i; Some (NInt (if neg : bool then - n else n))
      else None
  | [i; f] =>
      if isdigit i && isdigit f then
        n ← digits_val 0 (i +:+ f);
        let x := PrimFloat.div (Z2F n) (Z2F (10 ^ Z.of_nat (String.length f))) in
        Some (NFloat (if neg : bool then PrimFloat.opp x else x))
      else None
  | _ => None
  end.

Definition write_float (x : float) : string :=
  match Prim2SF x with
  | S754_nan => "nan"
  | S754_infinity s => if s then "-inf" else "inf"
  | S754_zero s => if s then "-0.0" else "0.0"
  | S754_finite s m e =>
      match F2Z x with
      | Some n => pretty n +:+ ".0"
      | None => (if s then "-" else "") +:+ pretty (Z.pos m) +:+ "*2**" +:+ pretty e
      end
  end.

(** The cells of row [i]. *)
Definition row_at (i : nat) (t : DataFrame) : list cell :=
  (λ p, default VNA (p.2 !! i)) <$> t.

Fixpoint keys_eqb (a b : list cell) : bool :=
  match a, b with
  | [], [] => true
  | x :: a', y :: b' => key_eqb x y && keys_eqb a' b'
  | _, _ => false
  end.

Definition inner_join (on : list string) (l r : DataFrame) : outcome DataFrame :=
  match df_select on l, df_select on r with
  | Raise e, _ | _, Raise e => Raise e
  | Ok kl, Ok kr =>
      let pairs :=
        i ← seq 0 (nrows l); j ← seq 0 (nrows r);
        if keys_eqb (row_at i kl) (row_at j kr) then [(i, j)] else [] in
      let rest := df_drop on r in
      let both := filter (λ c, c ∈ labels rest) (labels (df_drop on l)) in
      Ok ((prod_map (λ c, if decide (c ∈ both) then c +:+ "_x" else c)
                    (λ v : Series, (λ p : nat * nat, default VNA (v !! p.1)) <$> pairs) <$> l)
          ++ (prod_map (λ c, if decide (c ∈ both) then c +:+ "_y" else c)
                       (λ v : Series, (λ p : nat * nat, default VNA (v !! p.2)) <$> pairs)
                <$> rest))
  end.

(** The additions of [n] values from left to right. *)
Fixpoint left_to_right (n : nat) : sum_tree :=
  match n with
  | 0%nat => Leaf 0
  | S m => match m with 0%nat => Leaf 0 | _ => Node (left_to_right m) (Leaf m) end
  end.

(** * Notions of the statements

    What the theorems below speak of: readings of the specification's
    words, example tables, and the runs of the heap monad. *)

(** ** Float64 values and numeric cells *)

(** A zero of either sign. *)
Definition is_fzero (x : float) : bool :=
  match Prim2SF x with S754_zero _ => true | _ => false end.

(** A numeric cell: anything but text. *)
Definition is_numeric (v : cell) : bool :=
  match v with VStr _ => false | _ => true end.

(** ** The priority table of the sector mapping *)

(** The priority table of the specification: prefix, category. *)
Definition sector_table : list (string * string) :=
  [ ("CRF1", "Energia"); ("CRF2", "Processos Industriais"); ("CRF3", "Agricultura");
    ("CRF4", "Uso do Solo e Florestas (LULUCF)"); ("CRF5", "Resíduos");
    ("CRF6", "Outros"); ("TOTX", "Memo") ].

(** The category of the first prefix of the table that matches, the
    generic bucket when none does. *)
Definition first_prefix_category (code : string) : string :=
  from_option snd "Outro" (find (λ p, String.prefix p.1 code) sector_table).

(** ** Error messages and the cast to Int64 *)

(** A message mentions a text when the text occurs in it. *)
Definition mentions (sub msg : string) : Prop :=
  ∃ pre post, msg = pre +:+ sub +:+ post.

(** A population table whose 1990 cell is the number 1234.5. *)
Definition pop_fraction : DataFrame :=
  [("Country Name", [VStr "Austria"]); ("1990", [VFloat 1234.5])].

(** What [.astype("Int64")] says of a float64 column whose largest value
    is no integer. *)
Definition cast_message : string := "cannot safely cast non-equivalent object to int64".


(** ** Conversion of columns and missing values *)

(** [cols] converted by [pd.to_numeric], one after the other. *)
Fixpoint to_numeric_cols `{Pandas} (cs : list string) (t : DataFrame) : outcome DataFrame :=
  match cs with
  | [] => Ok t
  | c :: cs' =>
      match getcol c t with
      | Some v => to_numeric_cols cs' (setcol c (to_numeric v) t)
      | None => Raise (KeyError c)
      end
  end.

(** A missing cell replaced by 0. *)
Definition fillna0 (v : cell) : cell := if isna v then VFloat 0 else v.

(** [s.fillna(0)] *)
Definition fillna (s : Series) : Series := fillna0 <$> s.

(** The Eurostat file marks an absent value by a colon. *)
Definition total_of_missing : DataFrame := [("1990", [VStr ":"]); ("1991", [VStr "5"])].
Definition total_of_zero : DataFrame := [("1990", [VFloat 0]); ("1991", [VStr "5"])].

(** ** The split of the composite key *)

(** The names [clean_emissions_raw] gives to the columns of the split. *)
Definition split_names : list string := ["freq"; "unit"; "airpol"; "src_crf"; "geo"].

(** Field [j] of a split key: [None] past the last field. *)
Definition field (j : nat) (f : list string) : cell := from_option VStr VNA (f !! j).

(** The number of columns of the split: the largest number of fields. *)
Definition split_width (fs : list (list string)) : nat := foldr Nat.max 0%nat (length <$> fs).

(** What pandas says when [df.columns] is given the wrong number of names. *)
Definition length_mismatch (have new : nat) : string :=
  "Length mismatch: Expected axis has " +:+ pretty have
    +:+ " elements, new values have " +:+ pretty new +:+ " elements".

(** A table all of whose keys are one field short. *)
Definition short_keys : DataFrame := [(key_col, [VStr "A,T,GHG,CRF1"]); ("1990", [VStr "7"])].

(** A table with a complete key and a key of three fields. *)
Definition mixed_keys : DataFrame :=
  [(key_col, [VStr "A,T,GHG,CRF1,AT"; VStr "A,T,GHG"]); ("1990", [VStr "7"; VStr "8"])].

(** ** Sums per country and the three indicators *)

(** [t[t[year_col] == y].groupby(group_col)[emissions_col].sum()], as a
    function of the table. *)
Definition sum_by_group (t : DataFrame) (year_col : string) (y : Z)
    (group_col emissions_col : string) : outcome ISeries :=
  match getcol year_col t with
  | None => Raise (KeyError year_col)
  | Some years =>
      let sel := df_mask (cell_eq_int y <$> years) t in
      match getcol group_col sel with
      | None => Raise (KeyError group_col)
      | Some g =>
          match getcol emissions_col sel with
          | None => Raise (KeyError emissions_col)
          | Some e => groupby_sum g e
          end
      end
  end.

(** The three formulas of the module's docstrings, in float64. *)
Definition percent_change (base current : float) : float :=
  PrimFloat.mul (PrimFloat.div (PrimFloat.sub current base) base) 100.

Definition target_level (pct base : float) : float :=
  PrimFloat.mul base (PrimFloat.add 1 (PrimFloat.div pct 100)).

Definition target_gap (pct base compare : float) : float :=
  PrimFloat.sub (target_level pct base) compare.

(** A group key that is a string or missing: the country column holds
    strings, and [nan] where the country map has no entry. *)
Definition str_or_missing (k : cell) : bool :=
  match k with
  | VStr _ => true
  | VInt _ => false
  | _ => isna k
  end.

(** The cell the left join gives to a row of key [k]. *)
Definition pick (idx v : Series) (k : cell) : cell :=
  match index_of idx k with
  | Some j => default (VFloat PrimFloat.nan) (v !! j)
  | None => VFloat PrimFloat.nan
  end.

(** The float64 values of a numeric column. *)
Definition floats (e : Series) : list float :=
  (λ v, default PrimFloat.nan (cell_float v)) <$> e.

(** The sum of the emissions of the rows of year [y] and group [k];
    [nan], the mark of an absent group, when the table has no such row. *)
Definition sum_at (years g e : Series) (y : Z) (k : cell) : float :=
  let m := cell_eq_int y <$> years in
  if existsb (key_eqb k) (take_mask m g)
  then group_sum (take_mask (key_eqb k <$> take_mask m g) (take_mask m (floats e)))
  else PrimFloat.nan.

(** A float64 column. *)
Definition is_float_cell (v : cell) : bool :=
  match v with VFloat _ => true | _ => false end.

(** The country [k] has no row of year [y]. *)
Definition no_rows_at (years g : Series) (y : Z) (k : cell) : Prop :=
  existsb (key_eqb k) (take_mask (cell_eq_int y <$> years) g) = false.

(** The tables of the examples: Xland emits 200 in 1990 and 90 in 2023,
    Yland has a row for 1990 only. *)
Definition xland : DataFrame :=
  [("country", [VStr "Xland"; VStr "Xland"]); ("year", [VInt 1990; VInt 2023]);
   ("emissions", [VFloat 200; VFloat 90])].

Definition yland : DataFrame :=
  [("country", [VStr "Yland"]); ("year", [VInt 1990]); ("emissions", [VFloat 10])].

(** ** Runs that keep the existing tables *)

(** [run_ok n h m Q]: run on the heap [h], the computation [m] leaves the
    first [n] objects as they are, frees nothing, and its result and final
    heap satisfy [Q]. *)
Definition run_ok {A} (n : nat) (h : heap) (m : Py A) (Q : A → heap → Prop) : Prop :=
  (n ≤ length h)%nat →
  take n (m h).2 = take n h ∧ (length h ≤ length (m h).2)%nat ∧
  ∀ a, (m h).1 = Ok a → Q a (m h).2.

(** The pipeline functions. *)
Inductive stage :=
| CleanEmissionsRaw (df_raw : ref) (country_map : list (string * string)) (drop_eu_total : bool)
| CleanPopulationRaw (df_raw : ref) (eu_countries : list string)
| AddTotalEmissions (df : ref) (year_start year_end : Z) (out_col : string)
| AddDifferenceBetweenYears (df : ref) (year_a year_b : Z) (out_col : string)
| WideToLongYears (df : ref) (id_cols : list string) (year_start year_end : Z)
    (value_name var_name : string)
| AddSectorMain (df : ref) (src_col out_col : string)
| PopulationWideToLong (df : ref) (country_col : string) (year_start year_end : Z)
    (out_country_col out_year_col out_value_col : string)
| MergeEmissionsPopulationLong (emissions_long population_long : ref) (how : join_how)
    (country_col year_col : string)
| AddEmissionsPerCapita (df : ref) (emissions_col population_col out_col : string)
| AddReductionPercentActual (df : ref) (base_year current_year : Z)
    (group_col year_col emissions_col out_col : string)
| AddTarget2030AndGap (df : ref) (target_reduction_pct : float) (base_year : Z)
    (group_col year_col emissions_col out_target_col out_gap_col : string) (compare_year : Z)
| ApplyRounding (df : ref) (round_5_cols percent_cols : option (list string)).

(** The call a stage stands for. *)
Definition run_stage `{Pandas} (s : stage) : Py ref :=
  match s with
  | CleanEmissionsRaw df cm drop => clean_emissions_raw df cm drop
  | CleanPopulationRaw df eu => clean_population_raw df eu
  | AddTotalEmissions df ys ye oc => add_total_emissions df ys ye oc
  | AddDifferenceBetweenYears df ya yb oc => add_difference_between_years df ya yb oc
  | WideToLongYears df ids ys ye vn xn => wide_to_long_years df ids ys ye vn xn
  | AddSectorMain df sc oc => add_sector_main df sc oc
  | PopulationWideToLong df cc ys ye occ oyc ovc =>
      population_wide_to_long df cc ys ye occ oyc ovc
  | MergeEmissionsPopulationLong em pop how cc yc =>
      merge_emissions_population_long em pop how cc yc
  | AddEmissionsPerCapita df ec pc oc => add_emissions_per_capita df ec pc oc
  | AddReductionPercentActual df by_ cy gc yc ec oc =>
      add_reduction_percent_actual df by_ cy gc yc ec oc
  | AddTarget2030AndGap df pct by_ gc yc ec otc ogc cy =>
      add_target_2030_and_gap df pct by_ gc yc ec otc ogc cy
  | ApplyRounding df r5 pc => apply_rounding df r5 pc
  end.

(** The result of a stage is a table allocated by the stage. *)
Definition fresh (h : heap) (out : ref) (h' : heap) : Prop :=
  (length h ≤ out < length h')%nat.

(** ** Wide and long tables *)




(** ** A country without a base value *)

(** Zland has a row for each of the two years, and no value for 1990. *)
Definition zland : DataFrame :=
  [("country", [VStr "Zland"; VStr "Zland"]); ("year", [VInt 1990; VInt 2023]);
   ("emissions", [VFloat PrimFloat.nan; VFloat 90])].

(** ** Rounded columns *)

(** [pd.to_numeric(s, errors="coerce").round(d)] *)
Definition round_column `{Pandas} (d : Z) (s : Series) : Series :=
  round_cell d <$> to_numeric s.

(** The columns [cs] of a table rounded one after the other, those the
    table does not have being skipped. *)
Definition round_cols `{Pandas} (d : Z) (cs : list string) (t : DataFrame) : DataFrame :=
  foldl (λ t c, match getcol c t with
                | Some v => setcol c (round_column d v) t
                | None => t
                end) t cs.

(** ** The cleaned population *)

(** [df[cols].apply(pd.to_numeric, errors="coerce").astype("Int64")] *)
Definition cast_columns `{Pandas} (sel : DataFrame) : outcome DataFrame :=
  foldr (λ '(c, v) acc,
           match astype_Int64 (to_numeric v), acc with
           | Ok v', Ok r => Ok ((c, v') :: r)
           | Raise e, _ | _, Raise e => Raise e
           end) (Ok []) sel.

(** [df[cols] = conv] *)
Definition assign_columns (conv t : DataFrame) : DataFrame :=
  foldl (λ t '(c, v), setcol c v t) t conv.

(** [df.columns = [c.strip() for c in df.columns]] *)
Definition strip_labels (t : DataFrame) : DataFrame := zip (strip <$> labels t) t.*2.



(** What [clean_population_raw] makes of a table that has 'Country Name'. *)
Definition cleaned_population `{Pandas} (eu : list string) (t : DataFrame)
    : outcome DataFrame :=
  let t1 := strip_labels t in
  match getcol "Country Name" t1 with
  | None => Raise (KeyError "Country Name")
  | Some names =>
      let t2 := df_mask (cell_isin eu <$> names) t1 in
      let t3 := df_drop ["Indicator Code"] (df_drop ["Indicator Name"]
                  (df_drop ["Country Code"] t2)) in
      match df_select ("Country Name" :: present (year_labels 1990 2023) t3) t3 with
      | Raise e => Raise e
      | Ok sel =>
          match df_select (filter (λ c, isdigit c) (labels sel)) sel with
          | Raise e => Raise e
          | Ok ysel =>
              match cast_columns ysel with
              | Raise e => Raise e
              | Ok conv => Ok (assign_columns conv sel)
              end
          end
      end
  end.

(** ** The long population table *)


(** ** Inputs at the edges of the conversions *)

(** A label padded with a no-break space (U+00A0) and a unit separator
    (U+001F), which [str.strip] removes as it removes blanks. *)
Definition padded_country_name : string :=
  String (ascii_of_N 194) (String (ascii_of_N 160) "Country Name")
    +:+ String (ascii_of_N 31) EmptyString.

(** An emissions table that has a column geo already. *)
Definition geo_twice : DataFrame :=
  [(key_col, [VStr "A,T,GHG,CRF1,AT"]); ("geo", [VStr "AT"]); ("1990", [VStr "7"])].

(** A table whose two year values add up to 2^63. *)
Definition int64_overflow : DataFrame :=
  [("1990", [VInt 9223372036854775807]); ("1991", [VInt 1])].


(** * The example instance

    [read_decimal] reads the decimal digits of an integer as that
    integer. *)

Lemma pretty_N_char_digit (d : N) :
  (d < 10)%N →
  is_digit (pretty_N_char d) = true ∧
  Z.of_nat (Ascii.nat_of_ascii (pretty_N_char d)) - 48 = Z.of_N d.
Proof.
  intros Hd.
  assert (d = 0 ∨ d = 1 ∨ d = 2 ∨ d = 3 ∨ d = 4 ∨ d = 5 ∨ d = 6 ∨ d = 7 ∨ d = 8 ∨ d = 9)%N
    as Hc by lia.
  repeat (destruct Hc as [->|Hc]; [by vm_compute|]). subst d. by vm_compute.
Qed.

Lemma pretty_N_go_digits (x : N) (s : string) :
  forallb is_digit (String.list_ascii_of_string s) = true →
  forallb is_digit (String.list_ascii_of_string (pretty_N_go x s)) = true ∧
  digits_val 0 (pretty_N_go x s) = digits_val (Z.of_N x) s ∧
  (s ≠ EmptyString → pretty_N_go x s ≠ EmptyString).
Proof.
  revert s. induction (N.lt_wf_0 x) as [x _ IH]. intros s Hs.
  destruct (decide (0 < x)%N) as [Hx|Hx].
  - rewrite pretty_N_go_step by done.
    destruct (pretty_N_char_digit (x mod 10)) as [Hd Hv]; [by apply N.mod_lt|].
    destruct (IH (x `div` 10)%N (N.div_lt x 10 Hx eq_refl)
                 (String (pretty_N_char (x `mod` 10)) s)) as (Ha & Hb & Hc).
    { cbn. by rewrite Hd. }
    split; [done|]. split; [|intros _; by apply Hc].
    rewrite Hb. cbn [digits_val]. rewrite Hd, Hv. f_equal.
    rewrite (N.div_mod x 10) at 3 by done. lia.
  - assert (x = 0%N) as -> by lia. by rewrite pretty_N_go_0.
Qed.

Lemma split_on_digits (s : string) :
  forallb is_digit (String.list_ascii_of_string s) = true → split_on "." s = [s].
Proof.
  induction s as [|a s IH]; [done|]. cbn. intros [Ha Hs]%andb_prop.
  rewrite decide_False by (intros ->; discriminate Ha). by rewrite IH.
Qed.

Lemma not_minus (a : ascii) (r : string) :
  is_digit a = true →
  match String a r with
  | String "-" r' => (true, r')
  | _ => (false, String a r)
  end = (false, String a r).
Proof.
  destruct a as [[] [] [] [] [] [] [] []]; try reflexivity; discriminate.
Qed.

Lemma read_decimal_digits (n : Z) :
  0 ≤ n ≤ int64_max → read_decimal (pretty n) = Some (NInt n).
Proof.
  intros [Hn _]. destruct n as [|p|p]; [reflexivity| |lia].
  change (pretty (Z.pos p)) with (pretty (N.pos p)).
  unfold pretty, pretty_N. rewrite decide_False by done.
  destruct (pretty_N_go_digits (N.pos p) EmptyString eq_refl) as (Ha & Hb & _).
  assert (pretty_N_go (N.pos p) EmptyString ≠ EmptyString) as Hne.
  { intros Heq. rewrite Heq in Hb. by injection Hb. }
  destruct (pretty_N_go (N.pos p) EmptyString) as [|a r] eqn:Hr; [done|].
  unfold read_decimal. rewrite not_minus by (by apply andb_prop in Ha as [? _]).
  rewrite split_on_digits by done.
  change (isdigit (String a r)) with (forallb is_digit (String.list_ascii_of_string (String a r))).
  rewrite Ha, Hb. reflexivity.
Qed.

Definition example_pandas : Pandas := {|
  parse_number := read_decimal;
  float_repr := write_float;
  sum_order := left_to_right;
  pd_merge how on l r :=
    match how with
    | Inner => inner_join on l r
    | _ => Raise (ValueError "the example instance joins with how=inner only")
    end;
  parse_number_digits := read_decimal_digits
|}.

(** * Proofs *)

(** ** Facts of float64 arithmetic

    [nan] propagates through the four operations, and a quotient by zero
    is infinite or [nan]; from the kernel's specification of the
    primitive operations. *)

Lemma is_nan_Prim2SF x : PrimFloat.is_nan x = true ↔ Prim2SF x = S754_nan.
Proof.
  unfold Prim2SF. split.
  - intros ->. reflexivity.
  - destruct (PrimFloat.is_nan x); [reflexivity|].
    destruct (is_zero x); [discriminate|].
    destruct (is_infinity x); [discriminate|].
    destruct (Z.frexp x) as [r ex].
    destruct (shr_fexp _ _ _ _ _) as [sh e'].
    destruct (shr_m sh); discriminate.
Qed.

Lemma nan_sub_l x y : PrimFloat.is_nan x = true → PrimFloat.is_nan (x - y) = true.
Proof. rewrite !is_nan_Prim2SF, sub_spec. intros ->. reflexivity. Qed.

Lemma nan_sub_r x y : PrimFloat.is_nan y = true → PrimFloat.is_nan (x - y) = true.
Proof. rewrite !is_nan_Prim2SF, sub_spec. intros ->. by destruct (Prim2SF x). Qed.

Lemma nan_div_l x y : PrimFloat.is_nan x = true → PrimFloat.is_nan (x / y) = true.
Proof. rewrite !is_nan_Prim2SF, div_spec. intros ->. reflexivity. Qed.

Lemma nan_div_r x y : PrimFloat.is_nan y = true → PrimFloat.is_nan (x / y) = true.
Proof. rewrite !is_nan_Prim2SF, div_spec. intros ->. by destruct (Prim2SF x). Qed.

Lemma nan_mul_l x y : PrimFloat.is_nan x = true → PrimFloat.is_nan (x * y) = true.
Proof. rewrite !is_nan_Prim2SF, mul_spec. intros ->. reflexivity. Qed.

Lemma div_zero_inf x y :
  is_fzero y = true → PrimFloat.is_nan x = false → is_fzero x = false →
  is_inf (x / y) = true.
Proof.
  unfold is_fzero, is_inf. rewrite div_spec. intros Hy Hx Hz.
  destruct (Prim2SF y); try discriminate.
  destruct (Prim2SF x) eqn:E; try discriminate; try reflexivity.
  apply is_nan_Prim2SF in E. congruence.
Qed.

Lemma div_zero_zero x y :
  is_fzero y = true → is_fzero x = true → PrimFloat.is_nan (x / y) = true.
Proof.
  unfold is_fzero. rewrite is_nan_Prim2SF, div_spec. intros Hy Hx.
  destruct (Prim2SF y); try discriminate.
  destruct (Prim2SF x); try discriminate. reflexivity.
Qed.

Lemma inf_not_nan x : is_inf x = true → PrimFloat.is_nan x = false.
Proof.
  unfold is_inf. destruct (PrimFloat.is_nan x) eqn:E; [|done].
  apply is_nan_Prim2SF in E. by rewrite E.
Qed.

(** ** Running the monad *)

(** Unfolds the heap operations of a stage run on a concrete heap. *)
Ltac py_unfold :=
  unfold exec, exec2, df_getitem_series, df_copy, df_columns, df_getitem, df_setitem,
    df_set_columns,
    df_read, df_new, df_write, lift, raise, mbind, Py_bind, mret, Py_ret.

Lemma getcol_setcol_eq c v t : getcol c (setcol c v t) = Some v.
Proof.
  induction t as [|[c' v'] t IH]; simpl.
  - by rewrite decide_True.
  - destruct (decide (c' = c)) as [->|Hne]; simpl.
    + by rewrite decide_True.
    + by rewrite decide_False.
Qed.

Lemma getcol_setcol_ne c c' v t : c ≠ c' → getcol c' (setcol c v t) = getcol c' t.
Proof.
  intros Hne. induction t as [|[c1 v1] t IH]; simpl.
  - by rewrite decide_False.
  - destruct (decide (c1 = c)) as [->|Hne1]; simpl.
    + by rewrite !decide_False.
    + destruct (decide (c1 = c')); [done|apply IH].
Qed.

Lemma getcol_Some_elem c t v : getcol c t = Some v → c ∈ labels t.
Proof.
  induction t as [|[c' v'] t IH]; simpl; [done|].
  destruct (decide (c' = c)) as [->|Hne].
  - intros _. apply list_elem_of_here.
  - intros Hg. apply list_elem_of_further. by apply IH.
Qed.

Lemma getcol_None_notin c t : getcol c t = None ↔ c ∉ labels t.
Proof.
  induction t as [|[c' v'] t IH]; simpl.
  - split; [intros _; apply not_elem_of_nil | done].
  - destruct (decide (c' = c)) as [->|Hne].
    + split; [done|]. intros Hn. exfalso. apply Hn, list_elem_of_here.
    + rewrite IH, not_elem_of_cons. split; [intros Hn; split; [congruence|done]|].
      by intros [_ Hn].
Qed.

Lemma elem_labels_getcol c t : c ∈ labels t → ∃ v, getcol c t = Some v.
Proof.
  intros Hin. destruct (getcol c t) as [v|] eqn:E; [eauto|].
  apply getcol_None_notin in E. done.
Qed.

Lemma setcol_fresh c v t : c ∉ labels t → setcol c v t = t ++ [(c, v)].
Proof.
  induction t as [|[c' v'] t IH]; simpl; [done|].
  rewrite not_elem_of_cons. intros [Hne Hnin].
  rewrite decide_False by done. by rewrite IH.
Qed.

Lemma series_zip_lookup op a b q i x y :
  series_zip op a b = Ok q → a !! i = Some x → b !! i = Some y →
  ∃ r, q !! i = Some r ∧ op x y = Ok r.
Proof.
  revert b q i. induction a as [|x0 a IH]; intros [|y0 b] q i Hz Ha Hb; try done.
  simpl in Hz. destruct (op x0 y0) as [v|] eqn:Hop; [|done].
  destruct (series_zip op a b) as [r|] eqn:Hr; [|done].
  injection Hz as <-. destruct i as [|i]; simpl in *.
  - injection Ha as ->. injection Hb as ->. eauto.
  - eapply IH; eauto.
Qed.

Lemma series_zip_total op a b :
  (∀ x y, x ∈ a → y ∈ b → ∃ r, op x y = Ok r) → ∃ q, series_zip op a b = Ok q.
Proof.
  revert b. induction a as [|x a IH]; intros [|y b] Hop; simpl; eauto.
  destruct (Hop x y) as [r ->]; [apply list_elem_of_here..|].
  destruct (IH b) as [q ->]; [|eauto].
  intros x' y' Hx Hy. apply Hop; by apply list_elem_of_further.
Qed.

Lemma series_zip_length op a b q :
  series_zip op a b = Ok q → length q = min (length a) (length b).
Proof.
  revert b q. induction a as [|x a IH]; intros [|y b] q Hz; simpl in *;
    try (injection Hz as <-; done).
  destruct (op x y); [|done]. destruct (series_zip op a b) eqn:E; [|done].
  injection Hz as <-. simpl. f_equal. by apply IH.
Qed.

Lemma forallb_elem {A} (f : A → bool) l x : forallb f l = true → x ∈ l → f x = true.
Proof.
  intros Hf Hx. apply list_elem_of_In in Hx.
  rewrite forallb_forall in Hf. by apply Hf.
Qed.

Lemma cell_arith_numeric io fo a b :
  is_numeric a = true → is_numeric b = true → ∃ r, cell_arith io fo a b = Ok r.
Proof. destruct a, b, io; simpl; try done; eauto. Qed.

(** ** Sector mapping (feature_engineering.py) *)

(** C6. [map_sector_main] returns, for a [str], the category of the first
    prefix among CRF1, CRF2, CRF3, CRF4, CRF5, CRF6, TOTX (in this order)
    that the code starts with, and "Outro" for any other string and for any
    non-string; "CRF1.A" gives "Energia", "TOTXMEMO" gives "Memo", [None]
    gives "Outro"; [add_sector_main] applies it to every cell of the source
    column. *)
Theorem map_sector_main_priority :
  (∀ code : cell,
     map_sector_main code =
       match code with VStr s => first_prefix_category s | _ => "Outro" end) ∧
  map_sector_main (VStr "CRF1.A") = "Energia" ∧
  map_sector_main (VStr "TOTXMEMO") = "Memo" ∧
  map_sector_main VNA = "Outro" ∧
  map_sector_main (VFloat PrimFloat.nan) = "Outro" ∧
  map_sector_main (VInt 7) = "Outro" ∧
  (∀ (t : DataFrame) (src_col out_col : string),
     exec (λ df, add_sector_main df src_col out_col) t =
       match getcol src_col t with
       | Some v => Ok (setcol out_col ((λ c, VStr (map_sector_main c)) <$> v) t)
       | None => Raise (ValueError ("Expected column '" +:+ src_col +:+ "'."))
       end).
Proof.
  repeat split; try reflexivity.
  - intros [s| | |]; try reflexivity.
    unfold map_sector_main, first_prefix_category, sector_table. cbn [find fst].
    repeat (match goal with |- context [String.prefix ?p s] =>
              destruct (String.prefix p s); [reflexivity|] end).
    reflexivity.
  - intros t src_col out_col. unfold add_sector_main. py_unfold. cbn.
    destruct (getcol src_col t) as [v|] eqn:Hg.
    + rewrite decide_False; [|intros Hn; by apply Hn, (getcol_Some_elem _ _ v)].
      cbn. rewrite Hg. reflexivity.
    + rewrite decide_True; [reflexivity|]. by apply getcol_None_notin.
Qed.

(** ** Per-capita emissions (feature_engineering.py) *)

Lemma add_emissions_per_capita_exec t ec pc oc e p q :
  getcol ec t = Some e → getcol pc t = Some p → series_zip cell_truediv e p = Ok q →
  exec (λ df, add_emissions_per_capita df ec pc oc) t = Ok (setcol oc q t).
Proof.
  intros He Hp Hq. unfold add_emissions_per_capita. py_unfold.
  cbn. rewrite He. cbn. rewrite Hp. cbn. rewrite Hq. reflexivity.
Qed.

(** What one cell of the quotient is, by the kind of its operands. *)
Lemma cell_truediv_cases a b r :
  cell_truediv a b = Ok r →
  (b = VNA → r = VNA) ∧
  (a = VNA → r = VNA) ∧
  (∀ x y, a ≠ VNA → b ≠ VNA → cell_float a = Some x → cell_float b = Some y →
     r = VFloat (x / y)).
Proof.
  destruct a, b; simpl; try done; intros [= <-]; repeat split; try done;
    intros ? ? _ _ [= <-] [= <-]; reflexivity.
Qed.

(** C3, counterexample: with emissions 100 and population 0 the result cell
    is the float [inf], which is not a missing value. *)
Lemma per_capita_by_zero_is_infinite :
  exec (λ df, add_emissions_per_capita df "emissions" "population" "emissions_per_capita")
       [("emissions", [VFloat 100]); ("population", [VInt 0])]
  = Ok [("emissions", [VFloat 100]); ("population", [VInt 0]);
        ("emissions_per_capita", [VFloat PrimFloat.infinity])]
  ∧ isna (VFloat PrimFloat.infinity) = false.
Proof. split; vm_compute; reflexivity. Qed.

(** C3, amended. On numeric columns [add_emissions_per_capita] raises
    nothing and sets [emissions_per_capita] to the elementwise float64
    quotient [emissions / population].  A missing population ([pd.NA] or
    [nan]) gives a missing result.  A population of 0 gives an infinite
    result (not a missing one) when the emissions are a non-zero number,
    and [nan] when they are 0.  E.g. 100/50 = 2.0 and 100/0 = inf. *)
Theorem add_emissions_per_capita_quotient (t : DataFrame) (ec pc oc : string)
    (e p : Series) :
  getcol ec t = Some e → getcol pc t = Some p →
  forallb is_numeric e = true → forallb is_numeric p = true →
  ∃ q, exec (λ df, add_emissions_per_capita df ec pc oc) t = Ok (setcol oc q t) ∧
    (∀ i a b, e !! i = Some a → p !! i = Some b →
       ∃ r, q !! i = Some r ∧ cell_truediv a b = Ok r ∧
         (isna b = true → isna r = true) ∧
         (∀ x y, a ≠ VNA → b ≠ VNA → cell_float a = Some x → cell_float b = Some y →
            r = VFloat (x / y) ∧
            (is_fzero y = true → PrimFloat.is_nan x = false → is_fzero x = false →
               is_inf (x / y) = true ∧ isna r = false) ∧
            (is_fzero y = true → is_fzero x = true → isna r = true))) ∧
    cell_truediv (VFloat 100) (VInt 50) = Ok (VFloat 2) ∧
    cell_truediv (VFloat 100) (VInt 0) = Ok (VFloat PrimFloat.infinity) ∧
    cell_truediv (VFloat 0) (VInt 0) = Ok (VFloat PrimFloat.nan) ∧
    cell_truediv (VFloat 100) VNA = Ok VNA.
Proof.
  intros He Hp Hne Hnp.
  destruct (series_zip_total cell_truediv e p) as [q Hq].
  { intros x y Hx Hy. unfold cell_truediv.
    apply cell_arith_numeric; [by apply (forallb_elem _ e)|by apply (forallb_elem _ p)]. }
  exists q. split; [by eapply add_emissions_per_capita_exec|].
  split; [|by vm_compute].
  intros i a b Ha Hb.
  destruct (series_zip_lookup _ _ _ _ _ _ _ Hq Ha Hb) as (r & Hr & Hop).
  exists r. split; [done|]. split; [done|].
  destruct (cell_truediv_cases _ _ _ Hop) as (HbNA & HaNA & Hnum).
  split.
  - (* a missing population *)
    destruct b as [s|y|n|]; simpl; try done.
    + intros Hy. destruct a as [s|x|m|]; simpl in Hop; try done;
        injection Hop as <-; simpl; try done; by apply nan_div_r.
    + intros _. by rewrite HbNA.
  - intros x y Ha' Hb' Hx Hy. specialize (Hnum x y Ha' Hb' Hx Hy). subst r.
    split; [done|]. split.
    + intros Hz Hn Hnz. split; [by apply div_zero_inf|].
      simpl. by apply inf_not_nan, div_zero_inf.
    + intros Hz Hz'. simpl. by apply div_zero_zero.
Qed.

(** The amended C3 statement at the table of the specification's example. *)
Lemma add_emissions_per_capita_quotient_witness :
  ∃ q, exec (λ df, add_emissions_per_capita df "emissions" "population"
                     "emissions_per_capita")
            [("emissions", [VFloat 100; VFloat 100]); ("population", [VInt 50; VInt 0])]
       = Ok (setcol "emissions_per_capita" q
               [("emissions", [VFloat 100; VFloat 100]); ("population", [VInt 50; VInt 0])]).
Proof.
  destruct (add_emissions_per_capita_quotient
              [("emissions", [VFloat 100; VFloat 100]); ("population", [VInt 50; VInt 0])]
              "emissions" "population" "emissions_per_capita"
              [VFloat 100; VFloat 100] [VInt 50; VInt 0]
              eq_refl eq_refl eq_refl eq_refl) as (q & Hq & _).
  exists q. exact Hq.
Defined.

(** ** Schema errors (data_cleaning.py, merge_data.py) *)

Lemma string_app_assoc (a b c : string) : (a +:+ b) +:+ c = a +:+ b +:+ c.
Proof.
  induction a as [|x a IH]; [done|].
  change (String x ((a +:+ b) +:+ c) = String x (a +:+ b +:+ c)). by rewrite IH.
Qed.

Lemma labels_zip (names : list string) (t : DataFrame) :
  length names = length t → labels (zip names t.*2) = names.
Proof.
  intros Hl. unfold labels. apply fst_zip. rewrite length_fmap. lia.
Qed.

Lemma for_each_assign (r : ref) (conv : DataFrame) (h : heap) (t : DataFrame) :
  h !! r = Some t →
  for_each conv (λ '(c, v), df_setitem r c v) h = (Ok (), <[r := assign_columns conv t]> h).
Proof.
  revert h t. induction conv as [|[c v] conv IH]; intros h t Hr.
  - cbn [for_each assign_columns foldl]. unfold mret, Py_ret.
    unfold heap, ref, DataFrame, Series in *. by rewrite list_insert_id.
  - cbn [for_each assign_columns foldl].
    assert (df_setitem r c v h = (Ok (), <[r := setcol c v t]> h)) as Hset.
    { unfold df_setitem, df_read, df_write, mbind, Py_bind. by rewrite Hr. }
    unfold mbind, Py_bind at 1. rewrite Hset.
    rewrite (IH _ (setcol c v t)).
    + unfold heap, ref, DataFrame, Series in *. by rewrite list_insert_insert_eq.
    + unfold heap, ref, DataFrame, Series in *.
      apply list_lookup_insert_eq. by apply lookup_lt_Some in Hr.
Qed.

Lemma df_drop_absent c t : c ∉ labels t → df_drop [c] t = t.
Proof.
  unfold df_drop, labels, DataFrame, Series. induction t as [|[c' v] t IH]; [done|].
  rewrite fmap_cons, not_elem_of_cons. intros [Hne Hc].
  rewrite filter_cons_True; [by rewrite IH|].
  cbn. by intros ->%list_elem_of_singleton.
Qed.

Section schema.
Context `{Pandas}.

Lemma clean_emissions_raw_no_key t cm drop :
  key_col ∉ labels t →
  exec (λ df, clean_emissions_raw df cm drop) t =
    Raise (ValueError ("Expected column '" +:+ key_col
                       +:+ "' in emissions raw dataframe.")).
Proof.
  intros Hk. unfold clean_emissions_raw. py_unfold. cbn.
  by rewrite decide_True.
Qed.

Lemma clean_population_raw_no_country t eu :
  "Country Name" ∉ strip <$> labels t →
  exec (λ df, clean_population_raw df eu) t =
    Raise (ValueError "Expected column 'Country Name' in population dataframe.").
Proof.
  intros Hk. unfold clean_population_raw. py_unfold. cbn.
  rewrite decide_True by (unfold labels; by rewrite !length_fmap).
  cbn. rewrite labels_zip by (unfold labels; by rewrite !length_fmap).
  by rewrite decide_True.
Qed.

Lemma merge_no_keys_emissions e p how cc yc :
  cc ∉ labels e ∨ yc ∉ labels e →
  exec2 (λ em pop, merge_emissions_population_long em pop how cc yc) e p =
    Raise (ValueError ("Emissions must contain '" +:+ cc +:+ "' and '" +:+ yc +:+ "'.")).
Proof.
  intros Hk. unfold merge_emissions_population_long. py_unfold. cbn.
  by rewrite decide_True.
Qed.

Lemma merge_no_keys_population e p how cc yc :
  cc ∈ labels e → yc ∈ labels e → cc ∉ labels p ∨ yc ∉ labels p →
  exec2 (λ em pop, merge_emissions_population_long em pop how cc yc) e p =
    Raise (ValueError ("Population must contain '" +:+ cc +:+ "' and '" +:+ yc +:+ "'.")).
Proof.
  intros Hc Hy Hk. unfold merge_emissions_population_long. py_unfold. cbn.
  rewrite decide_False by tauto. cbn.
  by rewrite decide_True.
Qed.

(** C5. A table that lacks a required column makes its stage raise a
    ValueError, whatever else the table holds, and return no table: the
    message of [clean_emissions_raw] names the composite key column and the
    emissions table, that of [clean_population_raw] names 'Country Name' and
    the population table, and that of [merge_emissions_population_long]
    names the two join keys and the deficient table (Emissions, else
    Population). *)
Theorem schema_errors_name_column_and_table :
  (∀ (t : DataFrame) cm drop, key_col ∉ labels t →
     ∃ msg, exec (λ df, clean_emissions_raw df cm drop) t = Raise (ValueError msg)
            ∧ mentions key_col msg ∧ mentions "emissions raw dataframe" msg) ∧
  (∀ (t : DataFrame) eu, "Country Name" ∉ strip <$> labels t →
     ∃ msg, exec (λ df, clean_population_raw df eu) t = Raise (ValueError msg)
            ∧ mentions "Country Name" msg ∧ mentions "population dataframe" msg) ∧
  (∀ (e p : DataFrame) how cc yc, cc ∉ labels e ∨ yc ∉ labels e →
     ∃ msg, exec2 (λ em pop, merge_emissions_population_long em pop how cc yc) e p
              = Raise (ValueError msg)
            ∧ mentions cc msg ∧ mentions yc msg ∧ mentions "Emissions" msg) ∧
  (∀ (e p : DataFrame) how cc yc,
     cc ∈ labels e → yc ∈ labels e → cc ∉ labels p ∨ yc ∉ labels p →
     ∃ msg, exec2 (λ em pop, merge_emissions_population_long em pop how cc yc) e p
              = Raise (ValueError msg)
            ∧ mentions cc msg ∧ mentions yc msg ∧ mentions "Population" msg).
Proof.
  repeat split.
  - intros t cm drop Hk. eexists. split; [by apply clean_emissions_raw_no_key|]. split.
    + by exists "Expected column '", "' in emissions raw dataframe.".
    + by exists ("Expected column '" +:+ key_col +:+ "' in "), ".".
  - intros t eu Hk. eexists. split; [by apply clean_population_raw_no_country|]. split.
    + by exists "Expected column '", "' in population dataframe.".
    + by exists "Expected column 'Country Name' in ", ".".
  - intros e p how cc yc Hk. eexists. split; [by apply merge_no_keys_emissions|].
    repeat split.
    + by exists "Emissions must contain '", ("' and '" +:+ yc +:+ "'.").
    + exists ("Emissions must contain '" +:+ cc +:+ "' and '"), "'.".
      by rewrite !string_app_assoc.
    + by exists "", (" must contain '" +:+ cc +:+ "' and '" +:+ yc +:+ "'.").
  - intros e p how cc yc Hc Hy Hk. eexists.
    split; [by apply merge_no_keys_population|]. repeat split.
    + by exists "Population must contain '", ("' and '" +:+ yc +:+ "'.").
    + exists ("Population must contain '" +:+ cc +:+ "' and '"), "'.".
      by rewrite !string_app_assoc.
    + by exists "", (" must contain '" +:+ cc +:+ "' and '" +:+ yc +:+ "'.").
Qed.

(** ** The cast to Int64 (data_cleaning.py, merge_data.py) *)

Lemma year_labels_default :
  year_labels 1990 2023 =
    ["1990"; "1991"; "1992"; "1993"; "1994"; "1995"; "1996"; "1997"; "1998"; "1999";
     "2000"; "2001"; "2002"; "2003"; "2004"; "2005"; "2006"; "2007"; "2008"; "2009";
     "2010"; "2011"; "2012"; "2013"; "2014"; "2015"; "2016"; "2017"; "2018"; "2019";
     "2020"; "2021"; "2022"; "2023"].
Proof. vm_compute. reflexivity. Qed.

Lemma coerce_cell_numeric v : is_numeric (coerce_cell v) = true.
Proof. destruct v as [s|x|n|]; simpl; try done. by destruct (parse_number s) as [[?|?]|]. Qed.

Lemma to_float_cell_numeric v : is_numeric v = true → is_numeric (to_float_cell v) = true.
Proof. by destruct v. Qed.

Lemma to_numeric_numeric s : forallb is_numeric (to_numeric s) = true.
Proof.
  unfold to_numeric. destruct (forallb is_int_cell _).
  - induction s as [|v s IH]; [done|]. cbn. by rewrite coerce_cell_numeric.
  - induction s as [|v s IH]; [done|]. cbn.
    by rewrite to_float_cell_numeric by apply coerce_cell_numeric.
Qed.









(** A label of decimal digits is read as its integer. *)
Lemma to_numeric_digits (n : Z) :
  0 ≤ n ≤ int64_max → to_numeric [VStr (pretty n)] = [VInt n].
Proof.
  intros Hn. unfold to_numeric. cbn. by rewrite parse_number_digits.
Qed.

(** What [population_wide_to_long] computes, as a function of the table. *)
Lemma population_wide_to_long_exec t cc ys ye occ oyc ovc :
  exec (λ df, population_wide_to_long df cc ys ye occ oyc ovc) t =
    match melt [cc] (present (year_labels ys ye) t) oyc ovc t with
    | Raise e => Raise e
    | Ok m =>
        match getcol oyc m with
        | None => Raise (KeyError oyc)
        | Some v =>
            match astype_Int64 (to_numeric v) with
            | Raise e => Raise e
            | Ok v' =>
                match getcol ovc (setcol oyc v' m) with
                | None => Raise (KeyError ovc)
                | Some w =>
                    match astype_Int64 (to_numeric w) with
                    | Raise e => Raise e
                    | Ok w' => Ok (df_rename cc occ (setcol ovc w' (setcol oyc v' m)))
                    end
                end
            end
        end
    end.
Proof.
  unfold population_wide_to_long. py_unfold. cbn.
  destruct (melt _ _ _ _ _) as [m|e]; [|reflexivity]. cbn.
  destruct (getcol oyc m) as [v|]; [|reflexivity]. cbn.
  destruct (astype_Int64 _) as [v'|e]; [|reflexivity]. cbn.
  destruct (getcol ovc _) as [w|]; [|reflexivity]. cbn.
  destruct (astype_Int64 _) as [w'|e]; reflexivity.
Qed.

Lemma melt_pop_fraction :
  melt ["Country Name"] (present (year_labels 1990 2023) pop_fraction)
       "year" "population" pop_fraction
  = Ok [("Country Name", [VStr "Austria"]); ("year", [VStr "1990"]);
        ("population", [VFloat 1234.5])].
Proof. vm_compute. reflexivity. Qed.

(** What [clean_population_raw] computes, as a function of the table. *)
Lemma clean_population_raw_exec eu t :
  "Country Name" ∈ strip <$> labels t →
  exec (λ df, clean_population_raw df eu) t = cleaned_population eu t.
Proof.
  intros Hin. unfold clean_population_raw, cleaned_population, strip_labels.
  set (years := year_labels 1990 2023).
  assert (length (strip <$> labels t) = length t) as Hlen
    by (unfold labels; by rewrite !length_fmap).
  assert (labels (zip (strip <$> labels t) t.*2) = strip <$> labels t) as Hlab.
  { apply labels_zip. unfold labels. by rewrite !length_fmap. }
  py_unfold. cbn -[years present].
  rewrite decide_True by done. cbn -[years present].
  rewrite Hlab. rewrite decide_False by (by intros ?).
  cbn -[years present].
  destruct (getcol "Country Name" _) as [names|]; [|reflexivity].
  cbn -[years present].
  fold (strip_labels t). set (t1 := strip_labels t).
  set (t2 := df_mask _ t1).
  repeat (py_unfold; cbn -[years present]).
  case_decide as H1.
  all: repeat (py_unfold; cbn -[years present]).
  all: case_decide as H2.
  all: repeat (py_unfold; cbn -[years present]).
  all: case_decide as H3.
  all: repeat (py_unfold; cbn -[years present]).
  all: rewrite ?(df_drop_absent "Country Code") by done.
  all: rewrite ?(df_drop_absent "Indicator Name") by done.
  all: rewrite ?(df_drop_absent "Indicator Code") by done.
  all: match goal with |- context [getcol "Country Name" ?x] => set (t3 := x) end.
  all: destruct (getcol "Country Name" t3) as [v|]; [|reflexivity].
  all: destruct (df_select (present years t3) t3) as [sel0|e]; [|reflexivity].
  all: set (sel := ("Country Name", v) :: sel0).
  all: destruct (df_select _ sel) as [ysel|e]; [|reflexivity].
  all: fold (cast_columns ysel).
  all: destruct (cast_columns ysel) as [conv|e]; [|reflexivity].
  all: match goal with |- context [for_each ?cv ?f ?h] =>
         match f with context [<[?r := _]> _] =>
           pose proof (for_each_assign r cv h sel eq_refl) as Hfe
         end end.
  all: unfold df_setitem, df_read, df_write, mbind, Py_bind in Hfe.
  all: rewrite Hfe.
  all: reflexivity.
Qed.

(** C10. There is an input, a population table whose 1990 cell is the
    number 1234.5, on which [clean_population_raw] and
    [population_wide_to_long] raise the TypeError of the cast to Int64
    instead of coercing the cell to missing; a cell of text that is not a
    number is coerced to missing, and the stage returns. *)
Theorem population_cast_refuses_fraction :
  exec (λ df, clean_population_raw df DEFAULT_EU_COUNTRIES) pop_fraction
    = Raise (TypeError cast_message) ∧
  exec (λ df, population_wide_to_long df "Country Name" 1990 2023
                "country" "year" "population") pop_fraction
    = Raise (TypeError cast_message) ∧
  (∀ s, parse_number s = None →
     exec (λ df, clean_population_raw df DEFAULT_EU_COUNTRIES)
          [("Country Name", [VStr "Austria"]); ("1990", [VStr s])]
       = Ok [("Country Name", [VStr "Austria"]); ("1990", [VNA])]).
Proof.
  split; [vm_compute; reflexivity|]. split.
  - rewrite population_wide_to_long_exec, melt_pop_fraction.
    change (getcol "year" _) with (Some [VStr (pretty 1990)]). cbv beta iota.
    rewrite to_numeric_digits by (by vm_compute).
    change (astype_Int64 [VInt 1990]) with (Ok [VInt 1990]). cbv beta iota.
    change (getcol "population" _) with (Some [VFloat 1234.5]).
    vm_compute. reflexivity.
  - intros s Hs.
    rewrite clean_population_raw_exec by (vm_compute; apply list_elem_of_here).
    unfold cleaned_population. cbv zeta.
    set (t1 := strip_labels _). vm_compute in t1. subst t1.
    set (g := getcol "Country Name" _). vm_compute in g. subst g. cbv beta iota.
    set (t3 := df_drop _ _). vm_compute in t3. subst t3.
    set (sel := df_select (_ :: _) _). vm_compute in sel. subst sel. cbv beta iota.
    set (ys := df_select _ _). vm_compute in ys. subst ys. cbv beta iota.
    unfold cast_columns. cbn [foldr].
    assert (to_numeric [VStr s] = [VFloat PrimFloat.nan]) as ->
      by (unfold to_numeric; cbn; by rewrite Hs).
    change (astype_Int64 [VFloat PrimFloat.nan]) with (Ok [VNA : cell]).
    reflexivity.
Qed.

End schema.

(** The C5 statement at a population table without a 'Country Name' column. *)
Lemma schema_errors_name_column_and_table_witness :
  ∃ msg, exec (λ df, clean_population_raw (H := example_pandas) df DEFAULT_EU_COUNTRIES)
              [("Country", [VStr "Austria"]); ("1990", [VInt 7])]
         = Raise (ValueError msg) ∧ mentions "Country Name" msg.
Proof.
  destruct (schema_errors_name_column_and_table (H := example_pandas)) as (_ & Hpop & _).
  destruct (Hpop [("Country", [VStr "Austria"]); ("1990", [VInt 7])] DEFAULT_EU_COUNTRIES)
    as (msg & Hm & Hn & _).
  - vm_compute. intros Hin.
    repeat (apply elem_of_cons in Hin as [Hin|Hin]; [discriminate|]).
    by apply elem_of_nil in Hin.
  - by exists msg.
Defined.

(** The C10 statement at a cell of text that is no number. *)
Lemma population_cast_refuses_fraction_witness :
  exec (λ df, clean_population_raw (H := example_pandas) df DEFAULT_EU_COUNTRIES)
       [("Country Name", [VStr "Austria"]); ("1990", [VStr "n/a"])]
  = Ok [("Country Name", [VStr "Austria"]); ("1990", [VNA])].
Proof.
  destruct (population_cast_refuses_fraction (H := example_pandas)) as (_ & _ & Hs).
  apply Hs. reflexivity.
Defined.

(** ** Tables: labels, selections and masks *)

Lemma labels_setcol_elem c v t : c ∈ labels t → labels (setcol c v t) = labels t.
Proof.
  unfold labels. induction t as [|[c' v'] t IH]; cbn; [by intros ?%elem_of_nil|].
  destruct (decide (c' = c)) as [->|Hne]; [done|].
  intros [?|Hin]%elem_of_cons; [congruence|]. cbn. f_equal. by apply IH.
Qed.

Lemma df_select_total cs t :
  (∀ c, c ∈ cs → c ∈ labels t) → ∃ sel, df_select cs t = Ok sel ∧ labels sel = cs.
Proof.
  induction cs as [|c cs IH]; intros Hin; cbn; [by eexists|].
  destruct (elem_labels_getcol c t) as [v ->]; [apply Hin, list_elem_of_here|].
  destruct IH as (sel & -> & Hl); [intros c' Hc'; by apply Hin, list_elem_of_further|].
  eexists. split; [done|]. unfold labels in *. cbn. by rewrite Hl.
Qed.

Lemma present_labels years t c : c ∈ present years t → c ∈ labels t.
Proof. unfold present. by intros [? _]%list_elem_of_filter. Qed.

Lemma getcol_df_mask c mask t : getcol c (df_mask mask t) = take_mask mask <$> getcol c t.
Proof.
  induction t as [|[c' v] t IH]; [done|]. cbn.
  destruct (decide (c' = c)); [done|apply IH].
Qed.

Lemma forallb_take_mask {A} (f : A → bool) mask l :
  forallb f l = true → forallb f (take_mask mask l) = true.
Proof.
  revert l. induction mask as [|m mask IH]; intros [|x l]; cbn; try done.
  intros [Hx Hl]%andb_prop. destruct m; cbn; [rewrite Hx|]; by apply IH.
Qed.

Lemma rows_of_lookup n cols i :
  (i < n)%nat → rows_of n cols !! i = Some (omap (λ s : Series, s !! i) cols).
Proof.
  intros Hi. unfold rows_of. rewrite list_lookup_fmap, lookup_seq_lt by done. done.
Qed.

(** ** Missing values under [sum(axis=1)] and [dropna] *)

Lemma is_int_cell_fillna0 v : is_int_cell (fillna0 v) = is_int_cell v.
Proof. unfold fillna0. destruct v as [s|x|n|]; cbn; try done. by destruct (PrimFloat.is_nan x). Qed.

Lemma fillna0_int v : is_int_cell v = true → fillna0 v = v.
Proof. by destruct v. Qed.

Lemma fill_zero_fillna0 `{Pandas} (row : list cell) :
  fill_zero <$> omap cell_float (fillna0 <$> row) = fill_zero <$> omap cell_float row.
Proof.
  induction row as [|v row IH]; [done|].
  assert (fill_zero <$> from_option (λ x, [x]) [] (cell_float (fillna0 v))
          = fill_zero <$> from_option (λ x, [x]) [] (cell_float v)) as Hv.
  { destruct v as [s|x|n|]; try done.
    unfold fillna0. cbn. destruct (PrimFloat.is_nan x) eqn:E; [|done].
    cbn. unfold fill_zero. by rewrite E. }
  change (fillna0 <$> v :: row) with (fillna0 v :: (fillna0 <$> row)).
  cbn [omap list_omap].
  destruct (cell_float (fillna0 v)) as [a|], (cell_float v) as [b|];
    cbn in Hv; try done.
  rewrite !fmap_cons, IH. by injection Hv as ->.
Qed.

Lemma nansum_fillna0 `{Pandas} row : nansum (fillna0 <$> row) = nansum row.
Proof. unfold nansum. by rewrite fill_zero_fillna0. Qed.

Lemma rows_of_fillna0 n (cols : list Series) :
  rows_of n (fillna <$> cols) = fillna <$> rows_of n cols.
Proof.
  unfold rows_of. rewrite <-list_fmap_compose. apply list_fmap_ext. intros _ i _. cbn.
  unfold fillna, Series in *.
  induction cols as [|s cols IH]; [done|]. cbn.
  rewrite list_lookup_fmap. destruct (s !! i); cbn; by rewrite IH.
Qed.

Lemma sum_axis1_fillna0 `{Pandas} n (cols : list Series) :
  sum_axis1 n (fillna <$> cols) = sum_axis1 n cols.
Proof.
  unfold sum_axis1.
  destruct (forallb (forallb is_int_cell) cols) eqn:E.
  - replace (fillna <$> cols) with cols; [by rewrite E|].
    induction cols as [|s cols IH]; [done|].
    apply andb_prop in E as [Hs Hc]. cbn. rewrite <-IH by done. f_equal.
    clear IH Hc. induction s as [|v s IH]; [done|].
    apply andb_prop in Hs as [Hv Hs]. unfold fillna in *. cbn. by rewrite fillna0_int, <-IH.
  - replace (forallb (forallb is_int_cell) (fillna <$> cols)) with false.
    + rewrite rows_of_fillna0, <-list_fmap_compose. apply list_fmap_ext.
      intros _ row _. cbn. unfold fillna. by rewrite nansum_fillna0.
    + rewrite <-E. clear E. induction cols as [|s cols IH]; [done|].
      cbn. rewrite <-IH. f_equal.
      induction s as [|v s IHs]; [done|]. unfold fillna in *. cbn.
      by rewrite is_int_cell_fillna0, IHs.
Qed.

(** Zeros add up to zero, in whatever order. *)
Lemma sum_in_zeros o k : sum_in o (replicate k 0%float) = 0%float.
Proof.
  induction o as [i|l IHl r IHr]; cbn.
  - destruct (replicate k 0%float !! i) as [x|] eqn:E; [|done].
    by apply lookup_replicate in E as [-> _].
  - by rewrite IHl, IHr.
Qed.

Lemma np_sum_zeros `{Pandas} k : np_sum (replicate k 0%float) = 0%float.
Proof. unfold np_sum. destruct k; [done|]. cbn [replicate]. apply (sum_in_zeros _ (S k)). Qed.

Lemma nansum_all_missing `{Pandas} row : forallb isna row = true → nansum row = 0%float.
Proof.
  intros Hrow. unfold nansum.
  replace (fill_zero <$> omap cell_float row) with (replicate (length row) 0%float);
    [apply np_sum_zeros|].
  induction row as [|v row IH]; [done|]. apply andb_prop in Hrow as [Hv Hr].
  destruct v as [s|x|n|]; try done; cbn; rewrite <-IH by done; [|done].
  cbn in Hv. unfold fill_zero. by rewrite Hv.
Qed.

Lemma dropna_mask_lookup n ca cb i x y :
  (i < n)%nat → ca !! i = Some x → cb !! i = Some y →
  dropna_mask n [ca; cb] !! i = Some (notna x && notna y).
Proof.
  intros Hi Hx Hy. unfold dropna_mask.
  rewrite list_lookup_fmap, rows_of_lookup by done. cbn. rewrite Hx, Hy. cbn.
  by rewrite andb_true_r.
Qed.

(** ** Totals and differences (feature_engineering.py) *)

Section totals.
Context `{Pandas}.

Lemma for_each_to_numeric cs t0 t1 :
  match to_numeric_cols cs t1 with
  | Ok t' =>
      for_each cs (λ c, v ← df_getitem 1%nat c; df_setitem 1%nat c (to_numeric v)) [t0; t1]
      = (Ok (), [t0; t'])
  | Raise e =>
      (for_each cs (λ c, v ← df_getitem 1%nat c; df_setitem 1%nat c (to_numeric v))
         [t0; t1]).1 = Raise e
  end.
Proof.
  revert t1. induction cs as [|c cs IH]; intros t1; [reflexivity|].
  cbn [to_numeric_cols for_each]. specialize (IH (setcol c (to_numeric (default [] (getcol c t1))) t1)).
  revert IH. py_unfold. cbn.
  destruct (getcol c t1) as [v|]; [|reflexivity]. cbn.
  destruct (to_numeric_cols cs _) as [t'|e]; [by intros ->|].
  by destruct (for_each _ _ _) as [[]].
Qed.

Lemma add_total_emissions_exec t ys ye oc :
  exec (λ df, add_total_emissions df ys ye oc) t =
    let av := present (year_labels ys ye) t in
    if decide (av = []) then
      Raise (ValueError "No year columns found to compute total emissions.")
    else
      match to_numeric_cols av t with
      | Raise e => Raise e
      | Ok t' =>
          match df_select av t' with
          | Raise e => Raise e
          | Ok sel => Ok (setcol oc (sum_axis1 (nrows t') sel.*2) t')
          end
      end.
Proof.
  unfold add_total_emissions. py_unfold. cbn.
  destruct (decide (present _ t = [])) as [He|Hne]; [reflexivity|].
  pose proof (for_each_to_numeric (present (year_labels ys ye) t) t t) as Hf.
  revert Hf. py_unfold. 
  destruct (to_numeric_cols _ t) as [t'|e].
  - intros ->. cbn. destruct (df_select _ t') as [sel|e]; reflexivity.
  - destruct (for_each _ _ _) as [[] h]; cbn; [done|]. by intros [= ->].
Qed.

Lemma add_difference_between_years_exec t ya yb oc :
  exec (λ df, add_difference_between_years df ya yb oc) t =
    let a := pretty ya in
    let b := pretty yb in
    if decide (a ∉ labels t ∨ b ∉ labels t) then
      Raise (ValueError ("Expected year columns " +:+ a +:+ " and " +:+ b +:+ "."))
    else
      match to_numeric_cols [a; b] t with
      | Raise e => Raise e
      | Ok t2 =>
          match df_select [a; b] t2 with
          | Raise e => Raise e
          | Ok sel =>
              let t3 := df_mask (dropna_mask (nrows t2) sel.*2) t2 in
              match getcol b t3 with
              | None => Raise (KeyError b)
              | Some vb =>
                  match getcol a t3 with
                  | None => Raise (KeyError a)
                  | Some va =>
                      match series_zip cell_sub vb va with
                      | Raise e => Raise e
                      | Ok d => Ok (setcol oc d t3)
                      end
                  end
              end
          end
      end.
Proof.
  unfold add_difference_between_years. py_unfold. cbn.
  destruct (decide (_ ∨ _)) as [Hk|Hk]; [reflexivity|]. cbn.
  destruct (getcol (pretty ya) t) as [va|]; [|reflexivity]. cbn.
  destruct (getcol (pretty yb) _) as [vb|]; [|reflexivity]. cbn.
  destruct (getcol (pretty ya) _) as [va'|]; [|reflexivity].
  destruct (getcol (pretty yb) _) as [vb'|]; cbn; [|reflexivity].
  destruct (getcol (pretty yb) _) as [wb|]; [|reflexivity]. cbn.
  destruct (getcol (pretty ya) _) as [wa|]; [|reflexivity]. cbn.
  destruct (series_zip _ _ _) as [d|e]; reflexivity.
Qed.

Lemma to_numeric_cols_total cs t :
  (∀ c, c ∈ cs → c ∈ labels t) →
  ∃ t', to_numeric_cols cs t = Ok t' ∧ labels t' = labels t.
Proof.
  revert t. induction cs as [|c cs IH]; intros t Hin; cbn; [by eexists|].
  destruct (elem_labels_getcol c t) as [v Hv]; [apply Hin, list_elem_of_here|].
  rewrite Hv.
  assert (labels (setcol c (to_numeric v) t) = labels t) as Hl.
  { by apply labels_setcol_elem, (getcol_Some_elem _ _ v). }
  destruct (IH (setcol c (to_numeric v) t)) as (t' & Ht' & Hl').
  - intros c' Hc'. rewrite Hl. by apply Hin, list_elem_of_further.
  - exists t'. split; [done|]. by rewrite Hl'.
Qed.

(** A cell [pd.to_numeric(..., errors="coerce")] cannot read comes out as
    [nan]. *)
Lemma to_numeric_missing (s : Series) i v :
  s !! i = Some v → coerce_cell v = VFloat PrimFloat.nan →
  to_numeric s !! i = Some (VFloat PrimFloat.nan).
Proof.
  intros Hi Hv. unfold to_numeric, Series in *.
  assert (forallb is_int_cell (coerce_cell <$> s) = false) as ->.
  { apply not_true_is_false. intros Hall.
    assert (is_int_cell (coerce_cell v) = true) as Hint.
    { apply (forallb_elem _ _ _ Hall), list_elem_of_fmap. exists v. split; [done|].
      by apply list_elem_of_lookup_2 with i. }
    by rewrite Hv in Hint. }
  by rewrite !list_lookup_fmap, Hi; cbn; rewrite Hv.
Qed.

Lemma coerce_cell_missing v :
  isna v = true ∨ (∃ k, v = VStr k ∧ parse_number k = None) →
  coerce_cell v = VFloat PrimFloat.nan.
Proof.
  intros [Hna|(k & -> & Hk)]; [|by cbn; rewrite Hk].
  destruct v as [k|x|n|]; cbn in *; try done. f_equal.
  apply is_nan_Prim2SF in Hna. rewrite <-(SF2Prim_Prim2SF x), Hna. reflexivity.
Qed.

Lemma wrap64_id z : int64_min ≤ z ≤ int64_max → wrap64 z = z.
Proof.
  unfold wrap64, int64_min, int64_max. intros Hz.
  rewrite Z.mod_small by lia. lia.
Qed.

Lemma wrap64_range z : int64_min ≤ wrap64 z ≤ int64_max.
Proof.
  unfold wrap64, int64_min, int64_max.
  pose proof (Z.mod_pos_bound (z + 2 ^ 63) (2 ^ 64)). lia.
Qed.

(** C2, amended. [pd.to_numeric(..., errors="coerce")] turns a missing or
    unparseable cell into the missing marker [nan], never into zero, and
    [add_difference_between_years] drops exactly the rows in which either
    of the two coerced year values is missing, the difference of a kept
    row being [year_b - year_a] (in float64, and in int64, which wraps
    around, when both values are integers).  [add_total_emissions],
    however, does treat a missing year value as zero: the total of a row
    is numpy's float64 sum of its year values with 0.0 in place of every
    missing one, the same total as that of the table that holds 0 there,
    and 0.0 for a row whose year values are all missing; when every year
    column is int64 no value is missing and the total is the int64 sum,
    which wraps around. *)
Theorem missing_cells_in_totals_and_differences :
  (∀ (s : Series) i v, s !! i = Some v →
     isna v = true ∨ (∃ k, v = VStr k ∧ parse_number k = None) →
     to_numeric s !! i = Some (VFloat PrimFloat.nan) ∧ isna (VFloat PrimFloat.nan) = true) ∧
  (∀ t ys ye oc, present (year_labels ys ye) t ≠ [] →
     ∃ t' sel, to_numeric_cols (present (year_labels ys ye) t) t = Ok t' ∧
       df_select (present (year_labels ys ye) t) t' = Ok sel ∧
       exec (λ df, add_total_emissions df ys ye oc) t
         = Ok (setcol oc (sum_axis1 (nrows t') sel.*2) t')) ∧
  (∀ n (cols : list Series), sum_axis1 n (fillna <$> cols) = sum_axis1 n cols) ∧
  (∀ n (cols : list Series) i, (i < n)%nat → forallb (forallb is_int_cell) cols = false →
     sum_axis1 n cols !! i
     = Some (VFloat (np_sum (fill_zero <$> omap cell_float (omap (λ s : Series, s !! i) cols))))) ∧
  (∀ n (cols : list Series) i, (i < n)%nat → forallb (forallb is_int_cell) cols = true →
     sum_axis1 n cols !! i
     = Some (VInt (wrap64 (row_total (omap (λ s : Series, s !! i) cols))))) ∧
  (∀ z, int64_min ≤ wrap64 z ≤ int64_max ∧ (int64_min ≤ z ≤ int64_max → wrap64 z = z)) ∧
  (∀ row, forallb isna row = true → nansum row = 0%float) ∧
  (∀ t ya yb oc va vb, ya ≠ yb →
     getcol (pretty ya) t = Some va → getcol (pretty yb) t = Some vb →
     let ca := to_numeric va in
     let cb := to_numeric vb in
     let t2 := setcol (pretty yb) cb (setcol (pretty ya) ca t) in
     let mask := dropna_mask (nrows t2) [ca; cb] in
     ∃ d, series_zip cell_sub (take_mask mask cb) (take_mask mask ca) = Ok d ∧
       exec (λ df, add_difference_between_years df ya yb oc) t
         = Ok (setcol oc d (df_mask mask t2)) ∧
       ∀ i x y, (i < nrows t2)%nat → ca !! i = Some x → cb !! i = Some y →
         mask !! i = Some (notna x && notna y)) ∧
  (∀ m n, cell_sub (VInt m) (VInt n) = Ok (VInt (wrap64 (m - n)))) ∧
  (∀ x y, cell_sub (VFloat x) (VFloat y) = Ok (VFloat (PrimFloat.sub x y))).
Proof.
  split; [|split; [|split; [|split; [|split; [|split; [|split; [|split; [|split]]]]]]]].
  - intros s i v Hi Hv. split; [|reflexivity].
    by apply (to_numeric_missing s i v), coerce_cell_missing.
  - intros t ys ye oc Hne. rewrite add_total_emissions_exec. cbv zeta.
    rewrite decide_False by done.
    destruct (to_numeric_cols_total (present (year_labels ys ye) t) t)
      as (t' & Ht' & Hl); [apply present_labels|].
    destruct (df_select_total (present (year_labels ys ye) t) t') as (sel & Hsel & _).
    { intros c Hc. rewrite Hl. by apply present_labels in Hc. }
    exists t', sel. by rewrite Ht', Hsel.
  - apply sum_axis1_fillna0.
  - intros n cols i Hi Hf. unfold sum_axis1. rewrite Hf.
    unfold Series in *. by rewrite list_lookup_fmap, rows_of_lookup.
  - intros n cols i Hi Hf. unfold sum_axis1. rewrite Hf.
    unfold Series in *. by rewrite list_lookup_fmap, rows_of_lookup.
  - intros z. split; [apply wrap64_range|apply wrap64_id].
  - apply nansum_all_missing.
  - intros t ya yb oc va vb Hne Ha Hb ca cb t2 mask.
    assert (pretty ya ≠ pretty yb) as Hne' by (by intros ?%(inj pretty)).
    assert (getcol (pretty yb) (setcol (pretty ya) ca t) = Some vb) as Hb1.
    { by rewrite getcol_setcol_ne. }
    assert (getcol (pretty ya) t2 = Some ca) as Ha2.
    { unfold t2. rewrite getcol_setcol_ne by done. apply getcol_setcol_eq. }
    assert (getcol (pretty yb) t2 = Some cb) as Hb2 by apply getcol_setcol_eq.
    destruct (series_zip_total cell_sub (take_mask mask cb) (take_mask mask ca)) as [d Hd].
    { intros x y Hx Hy. apply cell_arith_numeric.
      - apply (forallb_elem _ (take_mask mask cb)); [|done].
        apply forallb_take_mask, to_numeric_numeric.
      - apply (forallb_elem _ (take_mask mask ca)); [|done].
        apply forallb_take_mask, to_numeric_numeric. }
    exists d. split; [done|]. split; [|by apply dropna_mask_lookup].
    rewrite add_difference_between_years_exec. cbv zeta.
    rewrite decide_False.
    2:{ intros [Hn|Hn]; apply Hn; by eapply getcol_Some_elem. }
    cbn [to_numeric_cols]. rewrite Ha. fold ca. rewrite Hb1. fold cb. fold t2.
    cbn [df_select]. rewrite Ha2, Hb2. cbn [fmap list_fmap snd]. fold mask.
    rewrite !getcol_df_mask, Ha2, Hb2. cbn [fmap option_fmap option_map].
    by rewrite Hd.
  - done.
  - done.
Qed.

End totals.

(** C2, counterexample: the row of [total_of_missing] has no value for
    1990, and its total is 5.0, the total of the row that holds 0 there. *)
Lemma total_treats_missing_as_zero :
  exec (λ df, add_total_emissions (H := example_pandas) df 1990 2023 "total_emissoes")
       total_of_missing
    = Ok [("1990", [VFloat PrimFloat.nan]); ("1991", [VInt 5]);
          ("total_emissoes", [VFloat 5])] ∧
  exec (λ df, add_total_emissions (H := example_pandas) df 1990 2023 "total_emissoes")
       total_of_zero
    = Ok [("1990", [VFloat 0]); ("1991", [VInt 5]); ("total_emissoes", [VFloat 5])].
Proof. split; vm_compute; reflexivity. Qed.

(** The amended C2 statement at the two example tables. *)
Lemma missing_cells_in_totals_and_differences_witness :
  (to_numeric (H := example_pandas) [VStr ":"] !! 0%nat = Some (VFloat PrimFloat.nan)) ∧
  (∃ t' sel : DataFrame,
     exec (λ df, add_total_emissions (H := example_pandas) df 1990 2023 "total_emissoes")
          total_of_missing
       = Ok (setcol "total_emissoes"
               (sum_axis1 (H := example_pandas) (nrows t') sel.*2) t')) ∧
  (∃ d, exec (λ df, add_difference_between_years (H := example_pandas) df 1990 1991
                      "diferença_total") total_of_missing
          = Ok (setcol "diferença_total" d
                  (df_mask [false] [("1990", [VFloat PrimFloat.nan]); ("1991", [VInt 5])]))).
Proof.
  destruct (missing_cells_in_totals_and_differences (H := example_pandas))
    as (Hcoerce & Htotal & _ & _ & _ & _ & _ & Hdiff & _).
  split; [|split].
  - apply (Hcoerce [VStr ":"] 0%nat (VStr ":") eq_refl).
    right. exists ":". split; reflexivity.
  - destruct (Htotal total_of_missing 1990 2023 "total_emissoes") as (t' & sel & _ & _ & Hex).
    + vm_compute. discriminate.
    + by exists t', sel.
  - destruct (Hdiff total_of_missing 1990 1991 "diferença_total" [VStr ":"] [VStr "5"])
      as (d & _ & Hex & _); [lia|reflexivity|reflexivity|].
    exists d. exact Hex.
Defined.

(** ** The split of the composite key (data_cleaning.py) *)

Section split.
Context `{Pandas}.

Lemma clean_emissions_raw_exec t cm drop :
  exec (λ df, clean_emissions_raw df cm drop) t =
    if decide (key_col ∉ labels t) then
      Raise (ValueError ("Expected column '" +:+ key_col
                         +:+ "' in emissions raw dataframe."))
    else
      let t1 := zip (strip <$> labels t) t.*2 in
      if decide (1 < occurrences key_col (labels t1))%nat then
        Raise (AttributeError "'DataFrame' object has no attribute 'str'")
      else
        match getcol key_col t1 with
        | None => Raise (KeyError key_col)
        | Some k =>
            let parts := str_split_expand "," (astype_str <$> k) in
            if decide (length split_names = length parts) then
              let t2 := df_drop [key_col] t1 ++ zip split_names parts.*2 in
              if decide (1 < occurrences "geo" (labels t2))%nat then
                Raise (TypeError "the first argument must be callable")
              else
                match getcol "geo" t2 with
                | None => Raise (KeyError "geo")
                | Some geo =>
                    let t3 := setcol "country" (map_dict cm <$> geo) t2 in
                    if drop then
                      match getcol "geo" t3 with
                      | None => Raise (KeyError "geo")
                      | Some geo' => Ok (df_mask (cell_ne_str "EU27_2020" <$> geo') t3)
                      end
                    else Ok t3
                end
            else Raise (ValueError (length_mismatch (length parts) (length split_names)))
        end.
Proof.
  unfold clean_emissions_raw. py_unfold. cbn.
  destruct (decide (key_col ∉ labels t)) as [Hk|Hk]; [reflexivity|]. cbn.
  rewrite decide_True by (unfold labels; by rewrite !length_fmap). cbn.
  destruct (decide (1 < occurrences key_col _)%nat) as [Hd|Hd]; [reflexivity|]. cbn.
  destruct (getcol key_col _) as [k|]; [|reflexivity]. cbn.
  destruct (decide (5%nat = _)) as [Hw|Hw].
  - cbn. destruct (decide (1 < occurrences "geo" _)%nat) as [Hg|Hg]; [reflexivity|]. cbn.
    destruct (getcol "geo" _) as [geo|]; [|reflexivity]. cbn.
    destruct drop; [|reflexivity]. cbn.
    destruct (getcol "geo" _) as [geo'|]; reflexivity.
  - reflexivity.
Qed.

Lemma occurrences_notin c (l : list string) : c ∉ l → occurrences c l = 0%nat.
Proof.
  unfold occurrences. induction l as [|x l IH]; [done|].
  intros [Hne Hl]%not_elem_of_cons. rewrite filter_cons_False by done. by apply IH.
Qed.

Lemma occurrences_NoDup c (l : list string) : NoDup l → (occurrences c l ≤ 1)%nat.
Proof.
  unfold occurrences. induction 1 as [|x l Hx Hl IH]; [cbn; lia|].
  destruct (decide (x = c)) as [->|Hne].
  - rewrite filter_cons_True by done. cbn.
    pose proof (occurrences_notin c l Hx) as H0. unfold occurrences in H0. lia.
  - by rewrite filter_cons_False.
Qed.

Lemma occurrences_app c (l k : list string) :
  occurrences c (l ++ k) = (occurrences c l + occurrences c k)%nat.
Proof. unfold occurrences. by rewrite filter_app, length_app. Qed.

Lemma labels_df_drop cs t : labels (df_drop cs t) = filter (λ c, c ∉ cs) (labels t).
Proof.
  unfold labels, df_drop, DataFrame, Series. induction t as [|[c v] t IH]; [done|].
  rewrite fmap_cons. cbn [fst]. destruct (decide (c ∉ cs)) as [Hc|Hc].
  - rewrite !filter_cons_True by done. rewrite fmap_cons. cbn [fst]. by rewrite IH.
  - by rewrite !filter_cons_False by done.
Qed.

Lemma str_split_expand_length sep ks :
  length (str_split_expand sep ks) = split_width (split_on sep <$> ks).
Proof. unfold str_split_expand. by rewrite length_fmap, length_seq. Qed.

Lemma str_split_expand_columns sep ks :
  (str_split_expand sep ks).*2
  = (λ j, field j <$> (split_on sep <$> ks)) <$> seq 0 (split_width (split_on sep <$> ks)).
Proof. unfold str_split_expand. by rewrite <-list_fmap_compose. Qed.

Lemma key_col_stripped t :
  key_col ∈ labels t → ∃ k, getcol key_col (zip (strip <$> labels t) t.*2) = Some k.
Proof.
  intros Hk. apply elem_labels_getcol.
  rewrite labels_zip by (unfold labels; by rewrite !length_fmap).
  change key_col with (strip key_col) at 1. by apply list_elem_of_fmap_2.
Qed.

Lemma split_width_bound fs f : f ∈ fs → (length f ≤ split_width fs)%nat.
Proof.
  unfold split_width. induction fs as [|g fs IH]; [by intros ?%elem_of_nil|].
  cbn. intros [->|Hin]%elem_of_cons; [lia|]. specialize (IH Hin). lia.
Qed.

(** C4, amended.  On a table whose labels are distinct once they are
    stripped and none of which is geo: when the longest composite key of
    the table has exactly five comma-separated fields,
    [clean_emissions_raw] returns the table with the five columns freq,
    unit, airpol, src_crf, geo holding the fields of each row, and a row
    with fewer than five fields has [None] in its trailing fields, no
    exception.  When no key has five fields, or one has more (so also
    when the table has no row), the assignment of the five column names
    raises a ValueError (Length mismatch). *)
Theorem key_split_columns (t : DataFrame) (cm : list (string * string)) :
  key_col ∈ labels t →
  NoDup (strip <$> labels t) → "geo" ∉ strip <$> labels t →
  let t1 := zip (strip <$> labels t) t.*2 in
  ∃ k, getcol key_col t1 = Some k ∧
    let fs := split_on "," <$> (astype_str <$> k) in
    (split_width fs ≠ 5%nat → ∀ drop,
       exec (λ df, clean_emissions_raw df cm drop) t
         = Raise (ValueError (length_mismatch (split_width fs) 5))) ∧
    (split_width fs = 5%nat →
       let t2 := df_drop [key_col] t1 ++
                 [("freq", field 0 <$> fs); ("unit", field 1 <$> fs);
                  ("airpol", field 2 <$> fs); ("src_crf", field 3 <$> fs);
                  ("geo", field 4 <$> fs)] in
       ∃ geo, getcol "geo" t2 = Some geo ∧
         exec (λ df, clean_emissions_raw df cm false) t
           = Ok (setcol "country" (map_dict cm <$> geo) t2) ∧
         exec (λ df, clean_emissions_raw df cm true) t
           = Ok (df_mask (cell_ne_str "EU27_2020" <$> geo)
                   (setcol "country" (map_dict cm <$> geo) t2))) ∧
    (∀ f, f ∈ fs → split_width fs = 5%nat → (length f ≤ 5)%nat) ∧
    (∀ (f : list string) j x, f !! j = Some x → field j f = VStr x) ∧
    (∀ (f : list string) j, (length f ≤ j)%nat → field j f = VNA).
Proof.
  intros Hk Hnd Hgeo0 t1. destruct (key_col_stripped t Hk) as [k Hgk]. fold t1 in Hgk.
  assert (labels t1 = strip <$> labels t) as Hl1.
  { apply labels_zip. unfold labels. by rewrite !length_fmap. }
  assert (¬ (1 < occurrences key_col (labels t1))%nat) as Hone.
  { rewrite Hl1. pose proof (occurrences_NoDup key_col _ Hnd). lia. }
  exists k. split; [done|]. intros fs.
  split; [|split; [|split; [|split]]].
  - intros Hw drop. rewrite clean_emissions_raw_exec. cbv zeta. fold t1.
    rewrite decide_False by (by intros Hn). rewrite decide_False by done. rewrite Hgk.
    rewrite str_split_expand_length. fold fs.
    rewrite decide_False by (intros Hl; apply Hw; by rewrite <-Hl). done.
  - intros Hw t2.
    assert (zip split_names (str_split_expand "," (astype_str <$> k)).*2
            = [("freq", field 0 <$> fs); ("unit", field 1 <$> fs);
               ("airpol", field 2 <$> fs); ("src_crf", field 3 <$> fs);
               ("geo", field 4 <$> fs)]) as Hparts.
    { rewrite str_split_expand_columns. fold fs. rewrite Hw. reflexivity. }
    destruct (elem_labels_getcol "geo" t2) as [geo Hgeo].
    { unfold t2, labels. rewrite fmap_app. apply elem_of_app. right. cbn.
      do 4 apply list_elem_of_further. apply list_elem_of_here. }
    assert (¬ (1 < occurrences "geo" (labels t2))%nat) as Hone'.
    { unfold t2, labels. rewrite fmap_app. fold (labels (df_drop [key_col] t1)).
      rewrite occurrences_app, (occurrences_notin "geo" (labels _)).
      - vm_compute. lia.
      - rewrite labels_df_drop, Hl1. by intros [_ ?]%list_elem_of_filter. }
    exists geo. split; [done|].
    split; rewrite clean_emissions_raw_exec; cbv zeta; fold t1;
      (rewrite decide_False by (by intros Hn)); (rewrite decide_False by done);
      rewrite Hgk;
      rewrite str_split_expand_length; fold fs;
      (rewrite decide_True by (by rewrite Hw)); rewrite Hparts; fold t2;
      (rewrite decide_False by done); rewrite Hgeo;
      [done|].
    rewrite getcol_setcol_ne by done. by rewrite Hgeo.
  - intros f Hf Hw. rewrite <-Hw. by apply split_width_bound.
  - intros f j x Hj. unfold field. by rewrite Hj.
  - intros f j Hj. unfold field. by rewrite lookup_ge_None_2.
Qed.

End split.

(** C4, counterexample: the only key of [short_keys] has four fields, and
    [clean_emissions_raw] raises instead of leaving the fifth field missing. *)
Lemma short_keys_raise :
  exec (λ df, clean_emissions_raw (H := example_pandas) df DEFAULT_COUNTRY_MAP true)
       short_keys
  = Raise (ValueError
             "Length mismatch: Expected axis has 4 elements, new values have 5 elements").
Proof. vm_compute. reflexivity. Qed.

(** The amended C4 statement at [mixed_keys]: the short row is padded. *)
Lemma key_split_columns_witness :
  exec (λ df, clean_emissions_raw (H := example_pandas) df DEFAULT_COUNTRY_MAP false)
       mixed_keys
  = Ok [("1990", [VStr "7"; VStr "8"]);
        ("freq", [VStr "A"; VStr "A"]); ("unit", [VStr "T"; VStr "T"]);
        ("airpol", [VStr "GHG"; VStr "GHG"]); ("src_crf", [VStr "CRF1"; VNA]);
        ("geo", [VStr "AT"; VNA]);
        ("country", [VStr "Austria"; VFloat PrimFloat.nan])].
Proof.
  destruct (key_split_columns (H := example_pandas) mixed_keys DEFAULT_COUNTRY_MAP)
    as (k & Hk & _ & Hgood & _).
  { apply list_elem_of_here. }
  { apply (bool_decide_unpack _). vm_compute. exact I. }
  { apply (bool_decide_unpack _). vm_compute. exact I. }
  injection Hk as <-.
  destruct Hgood as (geo & Hgeo & Hfalse & _); [reflexivity|].
  injection Hgeo as <-. exact Hfalse.
Defined.

(** ** The indicators (calculations.py) *)

Lemma getcol_here c v t : getcol c ((c, v) :: t) = Some v.
Proof. cbn. by rewrite decide_True. Qed.

Lemma getcol_next c c' v t : c' ≠ c → getcol c ((c', v) :: t) = getcol c t.
Proof. intros Hne. cbn. by rewrite decide_False. Qed.

(** One step of a run on a table whose labels are known. *)
Ltac py_step :=
  cbn -[getcol setcol];
  repeat (first [rewrite getcol_here | rewrite getcol_next by done
                | rewrite getcol_setcol_eq | rewrite getcol_setcol_ne by done];
          cbn -[getcol setcol]).

Lemma sum_by_group_at_run r t h yc y gc ec :
  h !! r = Some t → sum_by_group_at r yc y gc ec h = (sum_by_group t yc y gc ec, h).
Proof.
  intros Hr. unfold sum_by_group_at, sum_by_group. py_unfold. rewrite Hr. cbn.
  destruct (getcol yc t) as [years|]; [|reflexivity]. cbn. rewrite Hr. cbn.
  destruct (getcol gc _) as [g|]; [|reflexivity]. cbn.
  destruct (getcol ec _) as [e|]; reflexivity.
Qed.

Lemma add_reduction_percent_actual_exec t by_ cy gc yc ec oc :
  exec (λ df, add_reduction_percent_actual df by_ cy gc yc ec oc) t =
    match sum_by_group t yc by_ gc ec with
    | Raise e => Raise e
    | Ok base =>
        match sum_by_group t yc cy gc ec with
        | Raise e => Raise e
        | Ok curr =>
            let idx := union_index base curr in
            let b := (λ k, VFloat (iseries_at base k)) <$> idx in
            let c := (λ k, VFloat (iseries_at curr k)) <$> idx in
            match series_zip cell_sub c b with
            | Raise e => Raise e
            | Ok d =>
                match series_zip cell_truediv d b with
                | Raise e => Raise e
                | Ok q => merge_left_on_index t gc idx [(oc, series_mul_float 100 q)]
                end
            end
        end
    end.
Proof.
  unfold add_reduction_percent_actual.
  unfold exec, df_copy, mbind, Py_bind, df_read, df_new. cbn -[getcol setcol].
  rewrite (sum_by_group_at_run 1%nat t) by done.
  destruct (sum_by_group t yc by_ gc ec) as [base|e]; [|reflexivity].
  rewrite (sum_by_group_at_run 1%nat t) by done.
  destruct (sum_by_group t yc cy gc ec) as [curr|e]; [|reflexivity].
  unfold concat_axis1. py_unfold. py_step.
  destruct (series_zip cell_sub _ _) as [d|e]; [|reflexivity]. py_step.
  destruct (series_zip cell_truediv _ _) as [q|e]; [|reflexivity]. py_step.
  destruct (merge_left_on_index _ _ _ _) as [m|e]; reflexivity.
Qed.

Lemma add_target_2030_and_gap_exec t pct by_ gc yc ec otc ogc cy :
  otc ≠ "compare" → otc ≠ ogc →
  exec (λ df, add_target_2030_and_gap df pct by_ gc yc ec otc ogc cy) t =
    match sum_by_group t yc by_ gc ec with
    | Raise e => Raise e
    | Ok base =>
        match sum_by_group t yc cy gc ec with
        | Raise e => Raise e
        | Ok comp =>
            let idx := union_index base comp in
            let b := (λ k, VFloat (iseries_at base k)) <$> idx in
            let c := (λ k, VFloat (iseries_at comp k)) <$> idx in
            let tg := series_mul_float (PrimFloat.add 1 (PrimFloat.div pct 100)) b in
            match series_zip cell_sub tg c with
            | Raise e => Raise e
            | Ok g => merge_left_on_index t gc idx [(otc, tg); (ogc, g)]
            end
        end
    end.
Proof.
  intros Hc Hne. unfold add_target_2030_and_gap.
  unfold exec, df_copy, mbind, Py_bind, df_read, df_new. cbn -[getcol setcol].
  rewrite (sum_by_group_at_run 1%nat t) by done.
  destruct (sum_by_group t yc by_ gc ec) as [base|e]; [|reflexivity].
  rewrite (sum_by_group_at_run 1%nat t) by done.
  destruct (sum_by_group t yc cy gc ec) as [comp|e]; [|reflexivity].
  unfold concat_axis1. py_unfold. py_step.
  destruct (series_zip cell_sub _ _) as [g|e]; [|reflexivity]. py_step.
  destruct (merge_left_on_index _ _ _ _) as [m|e]; reflexivity.
Qed.

(** ** Group keys

    On keys that are strings or missing the comparison of pandas is plain
    equality, and a missing key equals nothing. *)

Lemma eqb_nan_r x y : PrimFloat.is_nan y = true → PrimFloat.eqb x y = false.
Proof.
  intros Hy%is_nan_Prim2SF. rewrite FloatAxioms.eqb_spec, Hy. by destruct (Prim2SF x).
Qed.

Lemma eqb_nan_l x y : PrimFloat.is_nan x = true → PrimFloat.eqb x y = false.
Proof. intros Hx%is_nan_Prim2SF. by rewrite FloatAxioms.eqb_spec, Hx. Qed.

Lemma is_nan_eq x : PrimFloat.is_nan x = true → x = PrimFloat.nan.
Proof.
  intros Hx%is_nan_Prim2SF. by rewrite <-(SF2Prim_Prim2SF x), Hx.
Qed.

Lemma key_eqb_eq_r k' k : str_or_missing k = true → key_eqb k' k = true → k' = k.
Proof.
  destruct k as [s|x|n|], k' as [s'|x'|n'|]; cbn; try done; intros Hk E.
  - apply bool_decide_eq_true_1 in E. by subst.
  - by rewrite eqb_nan_r in E.
  - by rewrite eqb_nan_r in E.
Qed.

Lemma key_eqb_eq_l k k' : str_or_missing k = true → key_eqb k k' = true → k' = k.
Proof.
  destruct k as [s|x|n|], k' as [s'|x'|n'|]; cbn; try done; intros Hk E.
  - apply bool_decide_eq_true_1 in E. by subst.
  - by rewrite eqb_nan_l in E.
  - by rewrite eqb_nan_l in E.
Qed.

Lemma key_eqb_sym k k' : str_or_missing k = true → key_eqb k' k = key_eqb k k'.
Proof.
  intros Hk. destruct (key_eqb k' k) eqn:E1.
  - apply key_eqb_eq_r in E1 as Heq; [|done]. by rewrite Heq in *.
  - destruct (key_eqb k k') eqn:E2; [|done].
    apply key_eqb_eq_l in E2 as Heq; [|done]. rewrite Heq in *. congruence.
Qed.

Lemma existsb_group_keys k g :
  str_or_missing k = true → existsb (key_eqb k) (group_keys g) = existsb (key_eqb k) g.
Proof.
  intros Hk. induction g as [|k0 g IH]; [done|]. cbn.
  destruct (notna k0 && negb (existsb (key_eqb k0) (group_keys g))) eqn:E; cbn.
  - by rewrite IH.
  - rewrite IH. destruct (key_eqb k k0) eqn:Ek; [|done]. cbn.
    apply key_eqb_eq_l in Ek as Heq; [|done]. subst k0.
    apply andb_false_iff in E as [E|E].
    + destruct k as [s|x|n|]; cbn in *; try done.
      apply negb_false_iff in E. by rewrite eqb_nan_l in Ek.
    + apply negb_false_iff in E. by rewrite <-IH.
Qed.

Lemma iseries_at_absent (a : ISeries) k :
  str_or_missing k = true → existsb (key_eqb k) a.*1 = false →
  iseries_at a k = PrimFloat.nan.
Proof.
  intros Hk. induction a as [|[k' x] a IH]; [done|]. cbn.
  intros [Hk' Ha]%orb_false_iff. by rewrite key_eqb_sym, Hk', IH.
Qed.

Lemma iseries_at_fmap (G : cell → float) ks k :
  str_or_missing k = true →
  iseries_at ((λ k', (k', G k')) <$> ks) k
  = if existsb (key_eqb k) ks then G k else PrimFloat.nan.
Proof.
  intros Hk. induction ks as [|k' ks IH]; [done|]. cbn.
  rewrite (key_eqb_sym k k') by done. destruct (key_eqb k k') eqn:E; cbn; [|done].
  by apply key_eqb_eq_l in E as ->.
Qed.

Lemma existsb_union_index (a b : ISeries) k :
  str_or_missing k = true →
  existsb (key_eqb k) (union_index a b)
  = existsb (key_eqb k) a.*1 || existsb (key_eqb k) b.*1.
Proof.
  intros Hk. unfold union_index. rewrite existsb_app.
  destruct (existsb (key_eqb k) a.*1) eqn:Ea; [done|]. cbn.
  induction (b.*1) as [|k' l IH]; [done|]. cbn [existsb].
  destruct (key_eqb k k') eqn:E.
  - apply key_eqb_eq_l in E as Heq; [|done]. subst k'.
    rewrite filter_cons_True by (by rewrite Ea). cbn [existsb]. by rewrite E.
  - rewrite orb_false_l. destruct (decide (negb (existsb (key_eqb k') a.*1))) as [Hf|Hf].
    + rewrite filter_cons_True by done. cbn [existsb]. by rewrite E.
    + by rewrite filter_cons_False.
Qed.

Lemma pick_fmap (F : cell → float) idx k :
  str_or_missing k = true →
  pick idx ((λ k', VFloat (F k')) <$> idx) k
  = if existsb (key_eqb k) idx then VFloat (F k) else VFloat PrimFloat.nan.
Proof.
  intros Hk. unfold pick.
  assert (∀ (pre : Series),
    match index_of idx k with
    | Some j => default (VFloat PrimFloat.nan)
                  ((pre ++ ((λ k', VFloat (F k')) <$> idx)) !! (length pre + j)%nat)
    | None => VFloat PrimFloat.nan
    end = if existsb (key_eqb k) idx then VFloat (F k) else VFloat PrimFloat.nan) as Hgen.
  { induction idx as [|k' idx IH]; intros pre; [done|]. cbn.
    rewrite (key_eqb_sym k k') by done. destruct (key_eqb k k') eqn:E; cbn.
    - apply key_eqb_eq_l in E as ->; [|done].
      by rewrite Nat.add_0_r, list_lookup_middle.
    - specialize (IH (pre ++ [VFloat (F k')])). rewrite <-IH.
      destruct (index_of idx k) as [j|]; cbn; [|done].
      rewrite <-app_assoc, length_app. cbn. do 2 f_equal. lia. }
  apply (Hgen []).
Qed.

(** The left join with a frame of new labels appends its columns. *)
Lemma merge_left_on_index_fresh t c idx right keys :
  getcol c t = Some keys → (∀ l, l ∈ labels right → l ∉ labels t) →
  merge_left_on_index t c idx right
  = Ok (t ++ (prod_map id (λ v, pick idx v <$> keys) <$> right)).
Proof.
  intros Hc Hfresh. unfold merge_left_on_index. rewrite Hc.
  assert (filter (λ l, l ∈ labels right) (labels t) = []) as ->.
  { apply elem_of_nil_inv. intros l [Hr Hl]%list_elem_of_filter. by apply (Hfresh l). }
  f_equal. f_equal. clear.
  induction t as [|[l v] t IH]; [done|]. cbn. by f_equal.
Qed.

(** ** The sums per country and year *)

Lemma floats_of_numeric e : forallb is_numeric e = true → floats_of e = Ok (floats e).
Proof.
  induction e as [|v e IH]; [done|]. intros [Hv He]%andb_prop. cbn.
  rewrite IH by done. by destruct v.
Qed.

Lemma floats_take_mask m e : floats (take_mask m e) = take_mask m (floats e).
Proof.
  revert e. induction m as [|b m IH]; intros [|v e]; try done.
  cbn. destruct b; cbn; by rewrite IH.
Qed.

Lemma sum_by_group_ok t yc y gc ec years g e :
  getcol yc t = Some years → getcol gc t = Some g → getcol ec t = Some e →
  forallb is_numeric e = true →
  ∃ a, sum_by_group t yc y gc ec = Ok a ∧
       ∀ k, str_or_missing k = true → iseries_at a k = sum_at years g e y k.
Proof.
  intros Hy Hg He Hnum. unfold sum_by_group.
  rewrite Hy, !getcol_df_mask, Hg, He. cbn. unfold groupby_sum.
  rewrite floats_of_numeric by (by apply forallb_take_mask).
  eexists. split; [done|]. intros k Hk.
  rewrite (iseries_at_fmap (λ k', group_sum (take_mask (key_eqb k' <$> _) _))) by done.
  rewrite existsb_group_keys by done. unfold sum_at. by rewrite floats_take_mask.
Qed.

Lemma series_zip_fmap {A} op (fo f1 f2 : A → float) (l : list A) :
  (∀ k, op (VFloat (f1 k)) (VFloat (f2 k)) = Ok (VFloat (fo k))) →
  series_zip op ((λ k, VFloat (f1 k)) <$> l) ((λ k, VFloat (f2 k)) <$> l)
  = Ok ((λ k, VFloat (fo k)) <$> l).
Proof.
  intros Hop. induction l as [|k l IH]; [done|]. cbn. by rewrite Hop, IH.
Qed.

Lemma series_mul_float_fmap {A} x (f : A → float) (l : list A) :
  series_mul_float x ((λ k, VFloat (f k)) <$> l) = (λ k, VFloat (PrimFloat.mul (f k) x)) <$> l.
Proof. unfold series_mul_float. by rewrite <-list_fmap_compose. Qed.

(** The indicator of a row of key [k], for an indicator that is [nan] on
    two absent sums. *)
Lemma pick_indicator (F : float → float → float) (a b : ISeries) k :
  F PrimFloat.nan PrimFloat.nan = PrimFloat.nan → str_or_missing k = true →
  pick (union_index a b)
       ((λ k', VFloat (F (iseries_at a k') (iseries_at b k'))) <$> union_index a b) k
  = VFloat (F (iseries_at a k) (iseries_at b k)).
Proof.
  intros Hnan Hk.
  rewrite (pick_fmap (λ k', F (iseries_at a k') (iseries_at b k'))) by done.
  rewrite existsb_union_index by done.
  destruct (existsb (key_eqb k) a.*1) eqn:Ea; [done|].
  destruct (existsb (key_eqb k) b.*1) eqn:Eb; [done|]. cbn.
  by rewrite !iseries_at_absent, Hnan.
Qed.

(** What [add_reduction_percent_actual] returns: the table with one more
    column, the percent change of the row's country. *)
Lemma add_reduction_percent_actual_table t by_ cy gc yc ec oc years g e :
  getcol yc t = Some years → getcol gc t = Some g → getcol ec t = Some e →
  forallb is_numeric e = true → forallb str_or_missing g = true → oc ∉ labels t →
  exec (λ df, add_reduction_percent_actual df by_ cy gc yc ec oc) t
  = Ok (t ++ [(oc, (λ k, VFloat (percent_change (sum_at years g e by_ k)
                                                (sum_at years g e cy k))) <$> g)]).
Proof.
  intros Hy Hg He Hnum Hkeys Hoc. rewrite add_reduction_percent_actual_exec.
  destruct (sum_by_group_ok t yc by_ gc ec years g e) as (base & -> & Hbase); try done.
  destruct (sum_by_group_ok t yc cy gc ec years g e) as (curr & -> & Hcurr); try done.
  cbv zeta.
  rewrite (series_zip_fmap cell_sub
             (λ k, PrimFloat.sub (iseries_at curr k) (iseries_at base k))) by done.
  rewrite (series_zip_fmap cell_truediv
             (λ k, PrimFloat.div (PrimFloat.sub (iseries_at curr k) (iseries_at base k))
                                 (iseries_at base k))) by done.
  rewrite series_mul_float_fmap.
  rewrite (merge_left_on_index_fresh _ _ _ _ g) by
    (try done; by intros l ->%list_elem_of_singleton).
  cbn [fmap list_fmap prod_map fst snd id]. do 4 f_equal.
  apply list_fmap_ext. intros i k Hik.
  assert (str_or_missing k = true) as Hk.
  { apply (forallb_elem _ g); [done|]. by apply list_elem_of_lookup_2 with i. }
  rewrite (pick_indicator percent_change) by done.
  by rewrite Hbase, Hcurr.
Qed.

(** What [add_target_2030_and_gap] returns: the table with two more
    columns, the target level and the gap of the row's country. *)
Lemma add_target_2030_and_gap_table t pct by_ gc yc ec otc ogc cy years g e :
  getcol yc t = Some years → getcol gc t = Some g → getcol ec t = Some e →
  forallb is_numeric e = true → forallb str_or_missing g = true →
  otc ∉ labels t → ogc ∉ labels t → otc ≠ "compare" → otc ≠ ogc →
  exec (λ df, add_target_2030_and_gap df pct by_ gc yc ec otc ogc cy) t
  = Ok (t ++ [(otc, (λ k, VFloat (target_level pct (sum_at years g e by_ k))) <$> g);
              (ogc, (λ k, VFloat (target_gap pct (sum_at years g e by_ k)
                                             (sum_at years g e cy k))) <$> g)]).
Proof.
  intros Hy Hg He Hnum Hkeys Hotc Hogc Hcmp Hne.
  rewrite add_target_2030_and_gap_exec by done.
  destruct (sum_by_group_ok t yc by_ gc ec years g e) as (base & -> & Hbase); try done.
  destruct (sum_by_group_ok t yc cy gc ec years g e) as (comp & -> & Hcomp); try done.
  cbv zeta. rewrite series_mul_float_fmap.
  rewrite (series_zip_fmap cell_sub
             (λ k, target_gap pct (iseries_at base k) (iseries_at comp k))) by done.
  rewrite (merge_left_on_index_fresh _ _ _ _ g).
  2: done.
  2:{ intros l [->|[->|?%elem_of_nil]%elem_of_cons]%elem_of_cons; done. }
  cbn [fmap list_fmap prod_map fst snd id]. do 3 f_equal; [|do 2 f_equal].
  - f_equal. apply list_fmap_ext. intros i k Hik.
    assert (str_or_missing k = true) as Hk.
    { apply (forallb_elem _ g); [done|]. by apply list_elem_of_lookup_2 with i. }
    rewrite <-Hbase by done.
    apply (pick_indicator (λ b _, target_level pct b) base comp k); [|done].
    unfold target_level. apply is_nan_eq, nan_mul_l. reflexivity.
  - apply list_fmap_ext. intros i k Hik.
    assert (str_or_missing k = true) as Hk.
    { apply (forallb_elem _ g); [done|]. by apply list_elem_of_lookup_2 with i. }
    rewrite <-Hbase, <-Hcomp by done.
    apply (pick_indicator (target_gap pct) base comp k); [|done].
    unfold target_gap. apply is_nan_eq, nan_sub_r. reflexivity.
Qed.

Lemma float_column_numeric e : forallb is_float_cell e = true → forallb is_numeric e = true.
Proof.
  induction e as [|v e IH]; [done|]. cbn. intros [Hv He]%andb_prop.
  rewrite IH by done. by destruct v.
Qed.

Lemma getcol_app_l c t r v : getcol c t = Some v → getcol c (t ++ r) = Some v.
Proof.
  induction t as [|[c' v'] t IH]; [done|]. cbn.
  destruct (decide (c' = c)); [done|apply IH].
Qed.

Lemma sum_at_no_rows years g e y k : no_rows_at years g y k → sum_at years g e y k = PrimFloat.nan.
Proof. unfold no_rows_at, sum_at. by intros ->. Qed.

Lemma percent_change_nan_base c : percent_change PrimFloat.nan c = PrimFloat.nan.
Proof. unfold percent_change. by apply is_nan_eq, nan_mul_l, nan_div_r. Qed.

Lemma percent_change_nan_current b : percent_change b PrimFloat.nan = PrimFloat.nan.
Proof. unfold percent_change. by apply is_nan_eq, nan_mul_l, nan_div_l, nan_sub_l. Qed.

Lemma target_level_nan p : target_level p PrimFloat.nan = PrimFloat.nan.
Proof. unfold target_level. by apply is_nan_eq, nan_mul_l. Qed.

Lemma target_gap_nan_compare p b : target_gap p b PrimFloat.nan = PrimFloat.nan.
Proof. unfold target_gap. by apply is_nan_eq, nan_sub_r. Qed.

Lemma target_gap_nan_base p c : target_gap p PrimFloat.nan c = PrimFloat.nan.
Proof. unfold target_gap. rewrite target_level_nan. by apply is_nan_eq, nan_sub_l. Qed.

(** C1, counterexample: on [xland] the three indicators are
    -55.00000000000001, 89.99999999999999 and -1.42e-14, each one rounding
    error away from the -55.0, 90 and 0 of exact arithmetic. *)
Lemma xland_indicators_inexact :
  exec (λ df, add_reduction_percent_actual df 1990 2023 "country" "year" "emissions"
                "redução_%_atual") xland
    = Ok (xland ++ [("redução_%_atual", [VFloat (percent_change 200 90);
                                         VFloat (percent_change 200 90)])]) ∧
  exec (λ df, add_target_2030_and_gap df (-55) 1990 "country" "year" "emissions"
                "meta_2030" "gap_2030" 2023) xland
    = Ok (xland ++ [("meta_2030", [VFloat (target_level (-55) 200);
                                   VFloat (target_level (-55) 200)]);
                    ("gap_2030", [VFloat (target_gap (-55) 200 90);
                                  VFloat (target_gap (-55) 200 90)])]) ∧
  PrimFloat.ltb (percent_change 200 90) (-55) = true ∧
  PrimFloat.ltb (target_level (-55) 200) 90 = true ∧
  PrimFloat.ltb (target_gap (-55) 200 90) 0 = true.
Proof. repeat split; vm_compute; reflexivity. Qed.

(** C1, amended.  On a table with a float64 emissions column and a country
    column of strings (or missing), [add_reduction_percent_actual] appends
    the column [(current - base) / base * 100] and
    [add_target_2030_and_gap] the columns [base * (1 + pct / 100)] and
    [target - compare], evaluated in float64 on the sums of the row's
    country at the given years.  For sums 200 and 90 and [pct = -55.0] the
    float64 results are -55.00000000000001, 89.99999999999999 and
    -1.42e-14: within 2^-43 of -55, 90 and 0, and equal to -55.0, 90.0 and
    -0.0 once [apply_rounding] has rounded them. *)
Theorem indicators_per_country (t : DataFrame) (pct : float) (by_ cy : Z)
    (gc yc ec oc otc ogc : string) (years g e : Series) :
  getcol yc t = Some years → getcol gc t = Some g → getcol ec t = Some e →
  forallb is_float_cell e = true → forallb str_or_missing g = true →
  oc ∉ labels t → otc ∉ labels t → ogc ∉ labels t → otc ≠ "compare" → otc ≠ ogc →
  exec (λ df, add_reduction_percent_actual df by_ cy gc yc ec oc) t
    = Ok (t ++ [(oc, (λ k, VFloat (PrimFloat.mul
                        (PrimFloat.div (PrimFloat.sub (sum_at years g e cy k)
                                                      (sum_at years g e by_ k))
                                       (sum_at years g e by_ k)) 100)) <$> g)]) ∧
  exec (λ df, add_target_2030_and_gap df pct by_ gc yc ec otc ogc cy) t
    = Ok (t ++ [(otc, (λ k, VFloat (PrimFloat.mul (sum_at years g e by_ k)
                         (PrimFloat.add 1 (PrimFloat.div pct 100)))) <$> g);
                (ogc, (λ k, VFloat (PrimFloat.sub
                         (PrimFloat.mul (sum_at years g e by_ k)
                            (PrimFloat.add 1 (PrimFloat.div pct 100)))
                         (sum_at years g e cy k))) <$> g)]) ∧
  PrimFloat.ltb (PrimFloat.abs (PrimFloat.sub (percent_change 200 90) (-55))) 0x1p-43 = true ∧
  PrimFloat.ltb (PrimFloat.abs (PrimFloat.sub (target_level (-55) 200) 90)) 0x1p-43 = true ∧
  PrimFloat.ltb (PrimFloat.abs (target_gap (-55) 200 90)) 0x1p-43 = true ∧
  round_cell 0 (VFloat (percent_change 200 90)) = VFloat (-55) ∧
  round_cell 5 (VFloat (target_level (-55) 200)) = VFloat 90 ∧
  round_cell 5 (VFloat (target_gap (-55) 200 90)) = VFloat (-0).
Proof.
  intros Hy Hg He Hfl Hkeys Hoc Hotc Hogc Hcmp Hne.
  split; [|split; [|by vm_compute]].
  - by apply add_reduction_percent_actual_table; [..|apply float_column_numeric| |].
  - by apply add_target_2030_and_gap_table; [..|apply float_column_numeric| | | | |].
Qed.

(** The amended C1 statement at [xland]. *)
Lemma indicators_per_country_witness :
  exec (λ df, add_reduction_percent_actual df 1990 2023 "country" "year" "emissions"
                "redução_%_atual") xland
    = Ok (xland ++ [("redução_%_atual", [VFloat (percent_change 200 90);
                                         VFloat (percent_change 200 90)])]).
Proof.
  apply (indicators_per_country xland (-55) 1990 2023 "country" "year" "emissions"
           "redução_%_atual" "meta_2030" "gap_2030"
           [VInt 1990; VInt 2023] [VStr "Xland"; VStr "Xland"] [VFloat 200; VFloat 90]);
    try reflexivity; try discriminate; vm_compute;
    intros Hin; repeat (apply elem_of_cons in Hin as [Hin|Hin]; [discriminate|]);
    by apply elem_of_nil in Hin.
Defined.

(** C7, counterexample: Yland has a row at the base year and none at the
    compare year; its target is computed (4.5), only its gap is missing. *)
Lemma yland_target_not_missing :
  exec (λ df, add_target_2030_and_gap df (-55) 1990 "country" "year" "emissions"
                "meta_2030" "gap_2030" 2023) yland
    = Ok (yland ++ [("meta_2030", [VFloat 4.5]); ("gap_2030", [VFloat PrimFloat.nan])]) ∧
  isna (VFloat 4.5) = false ∧
  no_rows_at [VInt 1990] [VStr "Yland"] 2023 (VStr "Yland").
Proof. repeat split; vm_compute; reflexivity. Qed.

(** C7, amended.  Neither function raises, and none substitutes zero for
    an absent group sum.  A country with no row at the base year has the
    three indicators missing in all its rows; a country with no row at the
    current year has the percent change missing; a country with no row at
    the compare year has the gap missing, while its target is still the
    base-year sum times [1 + pct/100]. *)
Theorem indicators_of_absent_years (t : DataFrame) (pct : float) (by_ cy : Z)
    (gc yc ec oc otc ogc : string) (years g e : Series) :
  getcol yc t = Some years → getcol gc t = Some g → getcol ec t = Some e →
  forallb is_float_cell e = true → forallb str_or_missing g = true →
  oc ∉ labels t → otc ∉ labels t → ogc ∉ labels t → otc ≠ "compare" → otc ≠ ogc →
  ∃ pcol tcol gcol,
    exec (λ df, add_reduction_percent_actual df by_ cy gc yc ec oc) t
      = Ok (t ++ [(oc, pcol)]) ∧
    exec (λ df, add_target_2030_and_gap df pct by_ gc yc ec otc ogc cy) t
      = Ok (t ++ [(otc, tcol); (ogc, gcol)]) ∧
    ∀ i k, g !! i = Some k →
      (no_rows_at years g by_ k →
         pcol !! i = Some (VFloat PrimFloat.nan) ∧
         tcol !! i = Some (VFloat PrimFloat.nan) ∧
         gcol !! i = Some (VFloat PrimFloat.nan)) ∧
      (no_rows_at years g cy k →
         pcol !! i = Some (VFloat PrimFloat.nan) ∧
         gcol !! i = Some (VFloat PrimFloat.nan) ∧
         tcol !! i = Some (VFloat (target_level pct (sum_at years g e by_ k)))).
Proof.
  intros Hy Hg He Hfl Hkeys Hoc Hotc Hogc Hcmp Hne.
  eexists _, _, _. split; [|split].
  - by apply add_reduction_percent_actual_table; [..|apply float_column_numeric| |].
  - by apply add_target_2030_and_gap_table; [..|apply float_column_numeric| | | | |].
  - intros i k Hk. unfold Series in *. rewrite !list_lookup_fmap, Hk.
    cbn [fmap option_fmap option_map]. split.
    + intros Hno. rewrite (sum_at_no_rows _ _ _ by_) by done.
      by rewrite percent_change_nan_base, target_level_nan, target_gap_nan_base.
    + intros Hno. rewrite (sum_at_no_rows _ _ _ cy) by done.
      by rewrite percent_change_nan_current, target_gap_nan_compare.
Qed.

(** The amended C7 statement at [yland]. *)
Lemma indicators_of_absent_years_witness :
  ∃ pcol tcol gcol,
    exec (λ df, add_reduction_percent_actual df 1990 2023 "country" "year" "emissions"
                  "redução_%_atual") yland
      = Ok (yland ++ [("redução_%_atual", pcol)]) ∧
    exec (λ df, add_target_2030_and_gap df (-55) 1990 "country" "year" "emissions"
                  "meta_2030" "gap_2030" 2023) yland
      = Ok (yland ++ [("meta_2030", tcol); ("gap_2030", gcol)]) ∧
    pcol !! 0%nat = Some (VFloat PrimFloat.nan) ∧
    gcol !! 0%nat = Some (VFloat PrimFloat.nan).
Proof.
  destruct (indicators_of_absent_years yland (-55) 1990 2023 "country" "year" "emissions"
              "redução_%_atual" "meta_2030" "gap_2030"
              [VInt 1990] [VStr "Yland"] [VFloat 10])
    as (pcol & tcol & gcol & Hp & Ht & Hrows);
    try reflexivity; try discriminate;
    try (vm_compute; intros Hin;
         repeat (apply elem_of_cons in Hin as [Hin|Hin]; [discriminate|]);
         by apply elem_of_nil in Hin).
  exists pcol, tcol, gcol. split; [exact Hp|]. split; [exact Ht|].
  destruct (Hrows 0%nat (VStr "Yland") eq_refl) as [_ Hcy].
  destruct Hcy as (Hpc & Hgc & _); [reflexivity|]. by split.
Defined.

(** C8.  On a table with a float64 emissions column and a country column
    of strings (or missing), after [add_reduction_percent_actual] and then
    [add_target_2030_and_gap] the table has three more columns, and two
    rows of the same country hold the same value in each of them,
    whatever the years of the two rows. *)
Theorem indicators_constant_within_country (t : DataFrame) (pct : float) (by_ cy : Z)
    (gc yc ec oc otc ogc : string) (years g e : Series) :
  getcol yc t = Some years → getcol gc t = Some g → getcol ec t = Some e →
  forallb is_float_cell e = true → forallb str_or_missing g = true →
  oc ∉ labels t → otc ∉ labels t → ogc ∉ labels t →
  otc ≠ oc → ogc ≠ oc → otc ≠ "compare" → otc ≠ ogc →
  ∃ pcol tcol gcol,
    exec (λ df, add_reduction_percent_actual df by_ cy gc yc ec oc) t
      = Ok (t ++ [(oc, pcol)]) ∧
    exec (λ df, add_target_2030_and_gap df pct by_ gc yc ec otc ogc cy) (t ++ [(oc, pcol)])
      = Ok ((t ++ [(oc, pcol)]) ++ [(otc, tcol); (ogc, gcol)]) ∧
    length pcol = length g ∧ length tcol = length g ∧ length gcol = length g ∧
    ∀ i j k, g !! i = Some k → g !! j = Some k →
      pcol !! i = pcol !! j ∧ tcol !! i = tcol !! j ∧ gcol !! i = gcol !! j.
Proof.
  intros Hy Hg He Hfl Hkeys Hoc Hotc Hogc Hne1 Hne2 Hcmp Hne.
  eexists _, _, _. split; [|split].
  - by apply add_reduction_percent_actual_table; [..|apply float_column_numeric| |].
  - apply (add_target_2030_and_gap_table _ _ _ _ _ _ _ _ _ years g e);
      try (by apply getcol_app_l); try done.
    + by apply float_column_numeric.
    + unfold labels in *. rewrite fmap_app, not_elem_of_app. split; [done|].
      cbn. by intros ->%list_elem_of_singleton.
    + unfold labels in *. rewrite fmap_app, not_elem_of_app. split; [done|].
      cbn. by intros ->%list_elem_of_singleton.
  - rewrite !length_fmap. split; [done|]. split; [done|]. split; [done|].
    intros i j k Hi Hj. unfold Series in *. by rewrite !list_lookup_fmap, Hi, Hj.
Qed.

(** The C8 statement at [xland], whose two rows are of the same country. *)
Lemma indicators_constant_within_country_witness :
  ∃ pcol tcol gcol,
    exec (λ df, add_reduction_percent_actual df 1990 2023 "country" "year" "emissions"
                  "redução_%_atual") xland
      = Ok (xland ++ [("redução_%_atual", pcol)]) ∧
    exec (λ df, add_target_2030_and_gap df (-55) 1990 "country" "year" "emissions"
                  "meta_2030" "gap_2030" 2023) (xland ++ [("redução_%_atual", pcol)])
      = Ok ((xland ++ [("redução_%_atual", pcol)])
              ++ [("meta_2030", tcol); ("gap_2030", gcol)]) ∧
    pcol !! 0%nat = pcol !! 1%nat ∧ tcol !! 0%nat = tcol !! 1%nat ∧
    gcol !! 0%nat = gcol !! 1%nat.
Proof.
  destruct (indicators_constant_within_country xland (-55) 1990 2023 "country" "year"
              "emissions" "redução_%_atual" "meta_2030" "gap_2030"
              [VInt 1990; VInt 2023] [VStr "Xland"; VStr "Xland"] [VFloat 200; VFloat 90])
    as (pcol & tcol & gcol & Hp & Ht & _ & _ & _ & Hrows);
    try reflexivity; try discriminate;
    try (vm_compute; intros Hin;
         repeat (apply elem_of_cons in Hin as [Hin|Hin]; [discriminate|]);
         by apply elem_of_nil in Hin).
  exists pcol, tcol, gcol. split; [exact Hp|]. split; [exact Ht|].
  exact (Hrows 0%nat 1%nat (VStr "Xland") eq_refl eq_refl).
Defined.

(** ** No stage writes to a table it was given *)

Section frame.
Context {A B : Type} (n : nat).
Implicit Types (h : heap) (Q : A → heap → Prop).

Lemma run_ret h a Q : Q a h → run_ok n h (mret a) Q.
Proof. intros HQ _. split; [done|]. split; [done|]. by intros ? [= <-]. Qed.

Lemma run_raise h e Q : run_ok n h (raise e) Q.
Proof. intros _. split; [done|]. split; done. Qed.

Lemma run_lift h (r : outcome A) Q : (∀ a, Q a h) → run_ok n h (lift r) Q.
Proof. intros HQ _. split; [done|]. split; [done|]. intros a _. apply HQ. Qed.

Lemma run_bind h (m : Py A) (k : A → Py B) (Q : B → heap → Prop) :
  run_ok n h m (λ a h1, (length h ≤ length h1)%nat → run_ok n h1 (k a) Q) →
  run_ok n h (m ≫= k) Q.
Proof.
  intros Hm Hn. destruct (Hm Hn) as (Ht & Hl & Hk).
  unfold mbind, Py_bind. destruct (m h) as [[a|e] h1]; cbn in *; [|done].
  destruct (Hk a eq_refl Hl) as (Ht' & Hl' & HQ); [lia|].
  split; [congruence|]. split; [lia|done].
Qed.

Lemma run_conseq h (m : Py A) (P Q : A → heap → Prop) :
  run_ok n h m P → (∀ a h1, (length h ≤ length h1)%nat → P a h1 → Q a h1) →
  run_ok n h m Q.
Proof.
  intros Hm HPQ Hn. destruct (Hm Hn) as (Ht & Hl & HP).
  split; [done|]. split; [done|]. intros a Ha. by apply HPQ, HP.
Qed.

End frame.

Section primitives.
Context (n : nat).

Lemma run_read h r (Q : DataFrame → heap → Prop) :
  (∀ t, Q t h) → run_ok n h (df_read r) Q.
Proof.
  intros HQ _. unfold df_read.
  destruct (h !! r); cbn; (split; [done|]); (split; [done|]); [|done].
  by intros ? [= <-].
Qed.

Lemma run_new h t (Q : ref → heap → Prop) :
  (∀ h1, (length h < length h1)%nat → Q (length h) h1) → run_ok n h (df_new t) Q.
Proof.
  intros HQ Hn. unfold df_new. cbn. rewrite length_app. cbn.
  split; [by rewrite take_app_le|]. split; [lia|].
  intros ? [= <-]. apply HQ. rewrite length_app. cbn. lia.
Qed.

Lemma run_write h r t (Q : () → heap → Prop) :
  (n ≤ r)%nat → (∀ h1, length h1 = length h → Q () h1) → run_ok n h (df_write r t) Q.
Proof.
  intros Hr HQ Hn. unfold df_write, heap, ref in *. cbn. rewrite length_insert.
  split; [by rewrite take_insert_ge|]. split; [done|].
  intros [] _. apply HQ. by rewrite length_insert.
Qed.

Lemma run_copy h r (Q : ref → heap → Prop) :
  (∀ h1, (length h < length h1)%nat → Q (length h) h1) → run_ok n h (df_copy r) Q.
Proof.
  intros HQ. apply run_bind, run_read. intros t _. by apply run_new.
Qed.

Lemma run_columns h r (Q : list string → heap → Prop) :
  (∀ l, Q l h) → run_ok n h (df_columns r) Q.
Proof. intros HQ. apply run_bind, run_read. intros t _. by apply run_ret. Qed.

Lemma run_getitem h r c (Q : Series → heap → Prop) :
  (∀ v, Q v h) → run_ok n h (df_getitem r c) Q.
Proof.
  intros HQ. apply run_bind, run_read. intros t _.
  destruct (getcol c t); [by apply run_ret|apply run_raise].
Qed.

Lemma run_getitem_series h r c e (Q : Series → heap → Prop) :
  (∀ v, Q v h) → run_ok n h (df_getitem_series r c e) Q.
Proof.
  intros HQ. apply run_bind, run_columns. intros cols _.
  destruct (decide _); [apply run_raise|by apply run_getitem].
Qed.

Lemma run_setitem h r c v (Q : () → heap → Prop) :
  (n ≤ r)%nat → (∀ h1, length h1 = length h → Q () h1) → run_ok n h (df_setitem r c v) Q.
Proof. intros Hr HQ. apply run_bind, run_read. intros t _. by apply run_write. Qed.

Lemma run_set_columns h r names (Q : () → heap → Prop) :
  (n ≤ r)%nat → (∀ h1, length h1 = length h → Q () h1) →
  run_ok n h (df_set_columns r names) Q.
Proof.
  intros Hr HQ. apply run_bind, run_read. intros t _.
  destruct (decide _); [by apply run_write|apply run_raise].
Qed.

Lemma run_for_each {X} h (xs : list X) (body : X → Py ()) (Q : () → heap → Prop) :
  (∀ x h1, (length h ≤ length h1)%nat → run_ok n h1 (body x) (λ _ _, True)) →
  (∀ h1, (length h ≤ length h1)%nat → Q () h1) →
  run_ok n h (for_each xs body) Q.
Proof.
  revert h. induction xs as [|x xs IH]; intros h Hbody HQ; cbn.
  - apply run_ret, HQ. done.
  - apply run_bind. eapply run_conseq; [by apply Hbody|].
    intros [] h1 Hl _ _. apply IH.
    + intros x' h2 Hl2. apply Hbody. lia.
    + intros h2 Hl2. apply HQ. lia.
Qed.

Lemma run_for_rebind {X V} h (xs : list X) (v : V) (body : V → X → Py V)
    (I Q : V → heap → Prop) :
  I v h →
  (∀ v h1 h2, I v h1 → (length h1 ≤ length h2)%nat → I v h2) →
  (∀ v x h1, (length h ≤ length h1)%nat → I v h1 → run_ok n h1 (body v x) I) →
  (∀ v h1, (length h ≤ length h1)%nat → I v h1 → Q v h1) →
  run_ok n h (for_rebind xs v body) Q.
Proof.
  intros Hv Hmono. revert h v Hv. induction xs as [|x xs IH]; intros h v Hv Hbody HQ; cbn.
  - apply run_ret, HQ; done.
  - apply run_bind. eapply run_conseq; [by apply Hbody|].
    intros v' h1 Hl Hv' _. apply IH; [done|..].
    + intros v2 x' h2 Hl2. apply Hbody. lia.
    + intros v2 h2 Hl2. apply HQ. lia.
Qed.

Lemma run_sum_by_group_at h r yc y gc ec (Q : ISeries → heap → Prop) :
  (∀ a, Q a h) → run_ok n h (sum_by_group_at r yc y gc ec) Q.
Proof.
  intros HQ. unfold sum_by_group_at.
  apply run_bind, run_getitem. intros years _.
  apply run_bind, run_read. intros t _.
  apply run_bind, run_lift. intros g _.
  apply run_bind, run_lift. intros e _.
  by apply run_lift.
Qed.

End primitives.

(** One step of a run: the rule of the operation at the head. *)
Ltac run_step :=
  cbv beta;
  lazymatch goal with
  | |- run_ok _ _ (mbind _ _) _ => apply run_bind
  | |- run_ok _ _ (mret _) _ => apply run_ret
  | |- run_ok _ _ (raise _) _ => apply run_raise
  | |- run_ok _ _ (lift _) _ => apply run_lift
  | |- run_ok _ _ (df_copy _) _ => apply run_copy
  | |- run_ok _ _ (df_read _) _ => apply run_read
  | |- run_ok _ _ (df_new _) _ => apply run_new
  | |- run_ok _ _ (df_columns _) _ => apply run_columns
  | |- run_ok _ _ (df_getitem _ _) _ => apply run_getitem
  | |- run_ok _ _ (df_getitem_series _ _ _) _ => apply run_getitem_series
  | |- run_ok _ _ (df_setitem _ _ _) _ => apply run_setitem; [lia|]
  | |- run_ok _ _ (df_set_columns _ _) _ => apply run_set_columns; [lia|]
  | |- run_ok _ _ (sum_by_group_at _ _ _ _ _) _ => apply run_sum_by_group_at
  | |- run_ok _ _ (for_each _ _) _ => apply run_for_each
  | |- run_ok (length ?h0) _ (for_rebind _ _ _) _ =>
      apply (run_for_rebind (length h0) _ _ _ _ (fresh h0))
  | |- run_ok _ _ (if ?b then _ else _) _ => destruct b
  | |- run_ok _ _ (match ?x with _ => _ end) _ => destruct x
  | |- ∀ _, _ => intros
  | |- _ → _ => intros
  | |- True => exact I
  | |- fresh _ _ _ => unfold fresh in *; lia
  end.

Ltac run_steps := repeat run_step.

Section stages.
Context `{Pandas}.

Lemma add_sector_main_frame h df sc oc :
  run_ok (length h) h (add_sector_main df sc oc) (fresh h).
Proof. unfold add_sector_main. run_steps. Qed.

Lemma add_emissions_per_capita_frame h df ec pc oc :
  run_ok (length h) h (add_emissions_per_capita df ec pc oc) (fresh h).
Proof. unfold add_emissions_per_capita. run_steps. Qed.

Lemma add_difference_between_years_frame h df ya yb oc :
  run_ok (length h) h (add_difference_between_years df ya yb oc) (fresh h).
Proof. unfold add_difference_between_years. run_steps. Qed.

Lemma wide_to_long_years_frame h df ids ys ye vn xn :
  run_ok (length h) h (wide_to_long_years df ids ys ye vn xn) (fresh h).
Proof. unfold wide_to_long_years. run_steps. Qed.

Lemma population_wide_to_long_frame h df cc ys ye occ oyc ovc :
  run_ok (length h) h (population_wide_to_long df cc ys ye occ oyc ovc) (fresh h).
Proof. unfold population_wide_to_long. run_steps. Qed.

Lemma merge_emissions_population_long_frame h em pop how cc yc :
  run_ok (length h) h (merge_emissions_population_long em pop how cc yc) (fresh h).
Proof. unfold merge_emissions_population_long. run_steps. Qed.

Lemma add_reduction_percent_actual_frame h df by_ cy gc yc ec oc :
  run_ok (length h) h (add_reduction_percent_actual df by_ cy gc yc ec oc) (fresh h).
Proof. unfold add_reduction_percent_actual. run_steps. Qed.

Lemma add_target_2030_and_gap_frame h df pct by_ gc yc ec otc ogc cy :
  run_ok (length h) h (add_target_2030_and_gap df pct by_ gc yc ec otc ogc cy) (fresh h).
Proof. unfold add_target_2030_and_gap. run_steps. Qed.

Lemma add_total_emissions_frame h df ys ye oc :
  run_ok (length h) h (add_total_emissions df ys ye oc) (fresh h).
Proof. unfold add_total_emissions. run_steps. Qed.

Lemma apply_rounding_frame h df r5 pc :
  run_ok (length h) h (apply_rounding df r5 pc) (fresh h).
Proof. unfold apply_rounding. run_steps. Qed.

Lemma clean_emissions_raw_frame h df cm drop :
  run_ok (length h) h (clean_emissions_raw df cm drop) (fresh h).
Proof. unfold clean_emissions_raw. run_steps. Qed.

Lemma clean_population_raw_frame h df eu :
  run_ok (length h) h (clean_population_raw df eu) (fresh h).
Proof. unfold clean_population_raw. run_steps. Qed.

End stages.

Lemma run_ok_unchanged (m : Py ref) (h : heap) :
  run_ok (length h) h m (fresh h) →
  (∀ i t, h !! i = Some t → (m h).2 !! i = Some t) ∧
  (∀ out, (m h).1 = Ok out → h !! out = None ∧ is_Some ((m h).2 !! out)).
Proof.
  intros Hm. destruct (Hm (le_n _)) as (Ht & Hl & Hfresh). unfold heap in *.
  rewrite firstn_all in Ht. split.
  - intros i t Hi. apply lookup_lt_Some in Hi as Hlt.
    by rewrite <-(lookup_take_lt _ (length h)), Ht.
  - intros out Hout. destruct (Hfresh out Hout) as [Hge Hlt].
    split; [by apply lookup_ge_None_2|by apply lookup_lt_is_Some_2].
Qed.

(** C9.  Whatever the heap and the arguments, a pipeline function leaves
    every table that existed before the call as it was, the table passed
    as its argument among them, and when it returns, it returns a table
    that did not exist before the call. *)
Theorem stages_leave_their_inputs_unchanged `{Pandas} (s : stage) (h : heap) :
  (∀ i t, h !! i = Some t → (run_stage s h).2 !! i = Some t) ∧
  (∀ out, (run_stage s h).1 = Ok out →
     h !! out = None ∧ is_Some ((run_stage s h).2 !! out)).
Proof.
  apply run_ok_unchanged. destruct s; cbn [run_stage].
  - apply clean_emissions_raw_frame.
  - apply clean_population_raw_frame.
  - apply add_total_emissions_frame.
  - apply add_difference_between_years_frame.
  - apply wide_to_long_years_frame.
  - apply add_sector_main_frame.
  - apply population_wide_to_long_frame.
  - apply merge_emissions_population_long_frame.
  - apply add_emissions_per_capita_frame.
  - apply add_reduction_percent_actual_frame.
  - apply add_target_2030_and_gap_frame.
  - apply apply_rounding_frame.
Qed.

(** The C9 statement at [apply_rounding] run in place of the pipeline's
    last step on [xland]: the table is still at its place, and the result
    is the second object of the heap. *)
Lemma stages_leave_their_inputs_unchanged_witness :
  (run_stage (H := example_pandas) (ApplyRounding 0%nat (Some ["emissions"]) None)
     [xland]).2 !! 0%nat = Some xland ∧
  [xland] !! 1%nat = None.
Proof.
  destruct (stages_leave_their_inputs_unchanged (H := example_pandas)
              (ApplyRounding 0%nat (Some ["emissions"]) None) [xland]) as [Hold Hnew].
  split; [exact (Hold 0%nat xland eq_refl)|].
  exact (proj1 (Hnew 1%nat eq_refl)).
Defined.

(** * Further properties of the stages *)

(** ** Columns that are not there (feature_engineering.py, calculations.py) *)

Lemma add_emissions_per_capita_run t ec pc oc :
  exec (λ df, add_emissions_per_capita df ec pc oc) t =
    match getcol ec t with
    | None => Raise (KeyError ec)
    | Some e =>
        match getcol pc t with
        | None => Raise (KeyError pc)
        | Some p =>
            match series_zip cell_truediv e p with
            | Raise err => Raise err
            | Ok q => Ok (setcol oc q t)
            end
        end
    end.
Proof.
  unfold add_emissions_per_capita. py_unfold. cbn.
  destruct (getcol ec t) as [e|]; [|reflexivity]. cbn.
  destruct (getcol pc t) as [p|]; [|reflexivity]. cbn.
  destruct (series_zip _ _ _) as [q|err]; reflexivity.
Qed.

Lemma series_zip_raise op a b i x y err :
  a !! i = Some x → b !! i = Some y → op x y = Raise err →
  ∃ err', series_zip op a b = Raise err'.
Proof.
  revert b i. induction a as [|x0 a IH]; intros [|y0 b] i Ha Hb Hop; try done.
  cbn. destruct (op x0 y0) as [v|e0] eqn:E; [|by eexists].
  destruct i as [|i]; cbn in *; [congruence|].
  destruct (IH b i Ha Hb Hop) as [err' ->]. by eexists.
Qed.

Lemma series_zip_raise_inv op a b err (P : exn → Prop) :
  (∀ x y e, op x y = Raise e → P e) → series_zip op a b = Raise err → P err.
Proof.
  intros Hop. revert b. induction a as [|x a IH]; intros [|y b]; try done.
  cbn. destruct (op x y) as [v|e0] eqn:E.
  - destruct (series_zip op a b) as [r|e1] eqn:E1; [done|].
    intros [= <-]. by apply (IH b).
  - intros [= <-]. by apply (Hop x y).
Qed.

Lemma cell_arith_raise io fo a b e :
  cell_arith io fo a b = Raise e → e = TypeError "unsupported operand type(s)".
Proof. destruct a, b, io; cbn; try done; by intros [= <-]. Qed.

Lemma cell_arith_text io fo a b :
  is_numeric a = false ∨ is_numeric b = false →
  cell_arith io fo a b = Raise (TypeError "unsupported operand type(s)").
Proof. intros [Ha|Hb]; destruct a, b; try done. Qed.

(** [add_emissions_per_capita] checks nothing itself: an absent emissions
    column is a KeyError naming it, an absent population column (the
    emissions being there) a KeyError naming that one.  On columns that
    were read as text and not converted (every row has a text cell and
    no missing one) it raises a TypeError; on numeric columns it
    returns. *)
Theorem add_emissions_per_capita_errors (t : DataFrame) (ec pc oc : string) :
  (ec ∉ labels t →
     exec (λ df, add_emissions_per_capita df ec pc oc) t = Raise (KeyError ec)) ∧
  (ec ∈ labels t → pc ∉ labels t →
     exec (λ df, add_emissions_per_capita df ec pc oc) t = Raise (KeyError pc)) ∧
  (∀ e p, getcol ec t = Some e → getcol pc t = Some p → e ≠ [] →
     Forall2 (λ a b, (is_numeric a = false ∨ is_numeric b = false) ∧
                     notna a = true ∧ notna b = true) e p →
     ∃ msg, exec (λ df, add_emissions_per_capita df ec pc oc) t = Raise (TypeError msg)) ∧
  (∀ e p, getcol ec t = Some e → getcol pc t = Some p →
     forallb is_numeric e = true → forallb is_numeric p = true →
     ∃ out, exec (λ df, add_emissions_per_capita df ec pc oc) t = Ok out).
Proof.
  rewrite add_emissions_per_capita_run. split; [|split; [|split]].
  - intros Hn. apply getcol_None_notin in Hn. by rewrite Hn.
  - intros [e He]%elem_labels_getcol Hn. apply getcol_None_notin in Hn.
    by rewrite He, Hn.
  - intros e p He Hp Hne Hrows. rewrite He, Hp.
    destruct Hrows as [|a b e' p' (Htext & _ & _) _]; [done|].
    destruct (series_zip_raise cell_truediv (a :: e') (b :: p') 0 a b _ eq_refl eq_refl
                (cell_arith_text _ _ a b Htext)) as [err Herr].
    rewrite Herr.
    apply (series_zip_raise_inv _ _ _ _ (λ e, ∃ msg, e = TypeError msg)) in Herr
      as [msg ->]; [by exists msg|].
    intros x y e0 He0%cell_arith_raise. by eexists.
  - intros e p He Hp Hne Hnp. rewrite He, Hp.
    destruct (series_zip_total cell_truediv e p) as [q ->]; [|by eexists].
    intros x y Hx Hy. unfold cell_truediv.
    apply cell_arith_numeric; [by apply (forallb_elem _ e)|by apply (forallb_elem _ p)].
Qed.

Lemma sum_by_group_absent t yc y gc ec :
  (yc ∉ labels t → sum_by_group t yc y gc ec = Raise (KeyError yc)) ∧
  (yc ∈ labels t → gc ∉ labels t → sum_by_group t yc y gc ec = Raise (KeyError gc)) ∧
  (yc ∈ labels t → gc ∈ labels t → ec ∉ labels t →
     sum_by_group t yc y gc ec = Raise (KeyError ec)).
Proof.
  unfold sum_by_group. split; [|split].
  - intros Hn. apply getcol_None_notin in Hn. by rewrite Hn.
  - intros [ys ->]%elem_labels_getcol Hn. apply getcol_None_notin in Hn.
    by rewrite getcol_df_mask, Hn.
  - intros [ys ->]%elem_labels_getcol [g Hg]%elem_labels_getcol Hn.
    apply getcol_None_notin in Hn. by rewrite !getcol_df_mask, Hg, Hn.
Qed.

(** The two indicator functions take the presence of their columns for
    granted: when the year, the group or the emissions column is absent,
    both raise a KeyError.  The year column is looked up first and the
    group column second: the error names the year column when that one is
    absent, and otherwise the group column when that one is. *)
Theorem indicators_absent_column (t : DataFrame) (pct : float) (by_ cy : Z)
    (gc yc ec oc otc ogc : string) :
  otc ≠ "compare" → otc ≠ ogc →
  (yc ∉ labels t) ∨ (gc ∉ labels t) ∨ (ec ∉ labels t) →
  ∃ msg,
    exec (λ df, add_reduction_percent_actual df by_ cy gc yc ec oc) t
      = Raise (KeyError msg) ∧
    exec (λ df, add_target_2030_and_gap df pct by_ gc yc ec otc ogc cy) t
      = Raise (KeyError msg) ∧
    (yc ∉ labels t → msg = yc) ∧
    (yc ∈ labels t → gc ∉ labels t → msg = gc).
Proof.
  intros Hcmp Hne Habs.
  rewrite add_reduction_percent_actual_exec, add_target_2030_and_gap_exec by done.
  destruct (sum_by_group_absent t yc by_ gc ec) as (H1 & H2 & H3).
  destruct (decide (yc ∈ labels t)) as [Hy|Hy].
  - destruct (decide (gc ∈ labels t)) as [Hg|Hg].
    + assert (ec ∉ labels t) as He by (by destruct Habs as [?|[?|?]]).
      exists ec. rewrite (H3 Hy Hg He). by repeat split.
    + exists gc. rewrite (H2 Hy Hg). by repeat split.
  - exists yc. rewrite (H1 Hy). by repeat split.
Qed.

(** The statement at [xland] with the emissions under another label. *)
Lemma indicators_absent_column_witness :
  ∃ msg,
    exec (λ df, add_reduction_percent_actual df 1990 2023 "country" "year" "co2"
                  "redução_%_atual") xland
    = Raise (KeyError msg).
Proof.
  destruct (indicators_absent_column xland (-55) 1990 2023 "country" "year" "co2"
              "redução_%_atual" "meta_2030" "gap_2030") as (msg & Hmsg & _);
    [discriminate|discriminate| |by exists msg].
  right. right. vm_compute. intros Hin.
  repeat (apply elem_of_cons in Hin as [Hin|Hin]; [discriminate|]).
  by apply elem_of_nil in Hin.
Defined.

(** ** The sector column (feature_engineering.py) *)

(** Membership in a list that is written out. *)
Ltac elem_of_list :=
  solve [repeat first [apply list_elem_of_here | apply list_elem_of_further]].

(** [add_sector_main] writes nothing but the eight category names, one
    per row of the source column, and a missing source column is a
    ValueError naming it. *)
Theorem add_sector_main_categories (t : DataFrame) (src_col out_col : string) :
  match getcol src_col t with
  | None =>
      exec (λ df, add_sector_main df src_col out_col) t
        = Raise (ValueError ("Expected column '" +:+ src_col +:+ "'."))
  | Some v =>
      ∃ out w, exec (λ df, add_sector_main df src_col out_col) t = Ok out ∧
        getcol out_col out = Some w ∧ length w = length v ∧
        (∀ c, c ≠ out_col → getcol c out = getcol c t) ∧
        ∀ x, x ∈ w → ∃ s, x = VStr s ∧
          s ∈ ["Energia"; "Processos Industriais"; "Agricultura";
               "Uso do Solo e Florestas (LULUCF)"; "Resíduos"; "Outros"; "Memo"; "Outro"]
  end.
Proof.
  assert (exec (λ df, add_sector_main df src_col out_col) t =
          match getcol src_col t with
          | Some v => Ok (setcol out_col ((λ c, VStr (map_sector_main c)) <$> v) t)
          | None => Raise (ValueError ("Expected column '" +:+ src_col +:+ "'."))
          end) as ->.
  { unfold add_sector_main. py_unfold. cbn.
    destruct (getcol src_col t) as [v|] eqn:Hg.
    - rewrite decide_False; [|intros Hn; by apply Hn, (getcol_Some_elem _ _ v)].
      cbn. by rewrite Hg.
    - rewrite decide_True; [reflexivity|]. by apply getcol_None_notin. }
  destruct (getcol src_col t) as [v|]; [|done].
  eexists _, _. split; [done|]. split; [apply getcol_setcol_eq|].
  split; [by rewrite length_fmap|]. split.
  - intros c Hc. by apply getcol_setcol_ne.
  - intros x (c & -> & _)%list_elem_of_fmap. eexists. split; [done|].
    destruct c as [s| | |]; cbn; [|elem_of_list..].
    repeat (match goal with |- context [String.prefix ?p s] =>
              destruct (String.prefix p s); [elem_of_list|] end).
    elem_of_list.
Qed.

(** ** Totals and differences: what the result holds (feature_engineering.py) *)

Lemma length_to_numeric `{Pandas} s : length (to_numeric s) = length s.
Proof. unfold to_numeric. destruct (forallb _ _); by rewrite !length_fmap. Qed.

Lemma nrows_setcol c v v' t :
  getcol c t = Some v → length v' = length v → nrows (setcol c v' t) = nrows t.
Proof.
  destruct t as [|[c0 v0] t]; [done|]. cbn.
  destruct (decide (c0 = c)); [|done]. by intros [= ->].
Qed.

Lemma year_labels_NoDup ys ye : NoDup (year_labels ys ye).
Proof. unfold year_labels. apply (NoDup_fmap_2 _), NoDup_seqZ. Qed.

Lemma length_sum_axis1 `{Pandas} n cols : length (sum_axis1 n cols) = n.
Proof.
  unfold sum_axis1, rows_of. destruct (forallb _ _); by rewrite !length_fmap, length_seq.
Qed.

Section results.
Context `{Pandas}.

Lemma to_numeric_cols_other cs t t' c :
  c ∉ cs → to_numeric_cols cs t = Ok t' → getcol c t' = getcol c t.
Proof.
  revert t. induction cs as [|c0 cs IH]; intros t Hc; cbn; [by intros [= ->]|].
  apply not_elem_of_cons in Hc as [Hne Hc].
  destruct (getcol c0 t) as [v|]; [|done]. intros Ht'.
  rewrite (IH _ Hc Ht'). by apply getcol_setcol_ne.
Qed.

Lemma to_numeric_cols_converted cs t t' c v :
  NoDup cs → c ∈ cs → getcol c t = Some v → to_numeric_cols cs t = Ok t' →
  getcol c t' = Some (to_numeric v).
Proof.
  revert t. induction cs as [|c0 cs IH]; intros t Hnd Hc Hv; [by apply elem_of_nil in Hc|].
  apply NoDup_cons in Hnd as [Hc0 Hnd]. cbn.
  destruct (getcol c0 t) as [v0|] eqn:Hv0; [|done]. intros Ht'.
  destruct (decide (c0 = c)) as [->|Hne].
  - rewrite (to_numeric_cols_other cs _ t' c Hc0 Ht'), getcol_setcol_eq. congruence.
  - apply elem_of_cons in Hc as [?|Hc]; [congruence|].
    apply (IH (setcol c0 (to_numeric v0) t) Hnd Hc); [|done].
    by rewrite getcol_setcol_ne.
Qed.

Lemma to_numeric_cols_nrows cs t t' :
  to_numeric_cols cs t = Ok t' → nrows t' = nrows t.
Proof.
  revert t. induction cs as [|c0 cs IH]; intros t; cbn; [by intros [= ->]|].
  destruct (getcol c0 t) as [v|] eqn:Hv; [|done]. intros Ht'.
  rewrite (IH _ Ht'). apply (nrows_setcol _ v); [done|apply length_to_numeric].
Qed.

(** [add_total_emissions] raises its ValueError exactly when the table has
    none of the year columns of the range; otherwise it returns the table
    with the total of each row in [out_col], the year columns it found
    converted by [pd.to_numeric], and every other column as it was. *)
Theorem add_total_emissions_result (t : DataFrame) (ys ye : Z) (oc : string) :
  (present (year_labels ys ye) t = [] →
     exec (λ df, add_total_emissions df ys ye oc) t
       = Raise (ValueError "No year columns found to compute total emissions.")) ∧
  (present (year_labels ys ye) t ≠ [] →
     ∃ out tot, exec (λ df, add_total_emissions df ys ye oc) t = Ok out ∧
       getcol oc out = Some tot ∧ length tot = nrows t ∧
       (∀ c, c ∉ present (year_labels ys ye) t → c ≠ oc → getcol c out = getcol c t) ∧
       (∀ c v, c ∈ present (year_labels ys ye) t → c ≠ oc → getcol c t = Some v →
          getcol c out = Some (to_numeric v))).
Proof.
  rewrite add_total_emissions_exec. cbv zeta. split.
  - intros ->. reflexivity.
  - intros Hne. rewrite decide_False by done.
    destruct (to_numeric_cols_total (present (year_labels ys ye) t) t)
      as (t' & Ht' & Hl); [apply present_labels|].
    destruct (df_select_total (present (year_labels ys ye) t) t') as (sel & Hsel & _).
    { intros c Hc. rewrite Hl. by apply present_labels in Hc. }
    rewrite Ht', Hsel. eexists _, _. split; [done|].
    split; [apply getcol_setcol_eq|].
    split; [by rewrite length_sum_axis1, (to_numeric_cols_nrows _ t _ Ht')|]. split.
    + intros c Hc Hoc. rewrite getcol_setcol_ne by done.
      by apply (to_numeric_cols_other (present (year_labels ys ye) t)).
    + intros c v Hc Hoc Hv. rewrite getcol_setcol_ne by done.
      apply (to_numeric_cols_converted (present (year_labels ys ye) t) t); try done.
      apply NoDup_filter, year_labels_NoDup.
Qed.

Lemma take_mask_fmap_seq {A} (f : nat → bool) (P : A → bool) n k (col : list A) :
  (∀ i x, col !! i = Some x → f (k + i)%nat = true → P x = true) →
  forallb P (take_mask (f <$> seq k n) col) = true.
Proof.
  revert k col. induction n as [|n IH]; intros k [|x col] Hcol; try done. cbn.
  assert (forallb P (take_mask (f <$> seq (S k) n) col) = true) as Hrest.
  { apply IH. intros i y Hi Hf. apply (Hcol (S i)); [done|].
    by replace (k + S i)%nat with (S k + i)%nat by lia. }
  destruct (f k) eqn:Hfk; [|done]. cbn. rewrite Hrest, andb_true_r.
  apply (Hcol 0%nat); [done|]. by rewrite Nat.add_0_r.
Qed.

Lemma dropna_mask_keeps n (cols : list Series) col :
  col ∈ cols → forallb notna (take_mask (dropna_mask n cols) col) = true.
Proof.
  intros Hin. unfold dropna_mask, rows_of. rewrite <-list_fmap_compose.
  apply take_mask_fmap_seq. intros i x Hx Hall. cbn in Hall.
  apply (forallb_elem _ _ _ Hall), list_elem_of_omap. by exists col.
Qed.

(** [add_difference_between_years] raises its ValueError exactly when one
    of the two year columns is absent; otherwise it returns, and no cell
    of the two year columns of the result is missing. *)
Theorem add_difference_between_years_result (t : DataFrame) (ya yb : Z) (oc : string) :
  ((pretty ya ∉ labels t) ∨ (pretty yb ∉ labels t) →
     exec (λ df, add_difference_between_years df ya yb oc) t
       = Raise (ValueError ("Expected year columns " +:+ pretty ya +:+ " and "
                            +:+ pretty yb +:+ "."))) ∧
  (pretty ya ∈ labels t → pretty yb ∈ labels t →
     ∃ out d, exec (λ df, add_difference_between_years df ya yb oc) t = Ok out ∧
       getcol oc out = Some d ∧
       ∀ c w, c = pretty ya ∨ c = pretty yb → c ≠ oc → getcol c out = Some w →
         forallb notna w = true).
Proof.
  rewrite add_difference_between_years_exec. cbv zeta. split.
  - intros Hn. by rewrite decide_True.
  - intros Ha Hb. rewrite decide_False by tauto.
    destruct (to_numeric_cols_total [pretty ya; pretty yb] t) as (t2 & Ht2 & Hl).
    { intros c [->|[->|?%elem_of_nil]%elem_of_cons]%elem_of_cons; done. }
    rewrite Ht2.
    destruct (elem_labels_getcol (pretty ya) t2) as [ca Hca]; [by rewrite Hl|].
    destruct (elem_labels_getcol (pretty yb) t2) as [cb Hcb]; [by rewrite Hl|].
    cbn [df_select]. rewrite Hca, Hcb. cbn [fmap list_fmap snd].
    rewrite !getcol_df_mask, Hca, Hcb. cbn [fmap option_fmap option_map].
    assert (forallb is_numeric ca = true ∧ forallb is_numeric cb = true) as [Hna Hnb].
    { revert Ht2 Hca Hcb. cbn.
      destruct (getcol (pretty ya) t) as [va|]; [|done].
      destruct (getcol (pretty yb) _) as [vb|] eqn:Hvb; [|done].
      intros [= <-]. rewrite getcol_setcol_eq. intros Hca [= <-].
      split; [|apply to_numeric_numeric].
      destruct (decide (pretty yb = pretty ya)) as [Heq|Hne].
      - rewrite Heq, getcol_setcol_eq in Hca. injection Hca as <-.
        apply to_numeric_numeric.
      - rewrite getcol_setcol_ne, getcol_setcol_eq in Hca by done.
        injection Hca as <-. apply to_numeric_numeric. }
    destruct (series_zip_total cell_sub
                (take_mask (dropna_mask (nrows t2) [ca; cb]) cb)
                (take_mask (dropna_mask (nrows t2) [ca; cb]) ca)) as [d Hd].
    { intros x y Hx Hy. apply cell_arith_numeric.
      - apply (forallb_elem _ (take_mask (dropna_mask (nrows t2) [ca; cb]) cb));
          [by apply forallb_take_mask|done].
      - apply (forallb_elem _ (take_mask (dropna_mask (nrows t2) [ca; cb]) ca));
          [by apply forallb_take_mask|done]. }
    rewrite Hd. exists (setcol oc d (df_mask (dropna_mask (nrows t2) [ca; cb]) t2)), d.
    split; [done|]. split; [apply getcol_setcol_eq|].
    intros c w Hc Hoc. rewrite getcol_setcol_ne, getcol_df_mask by done.
    destruct Hc as [->| ->].
    + rewrite Hca. intros [= <-]. apply dropna_mask_keeps. elem_of_list.
    + rewrite Hcb. intros [= <-]. apply dropna_mask_keeps. elem_of_list.
Qed.

End results.

(** ** From wide to long (feature_engineering.py, merge_data.py) *)






Lemma df_select_raise cs t e :
  df_select cs t = Raise e → ∃ c, c ∈ cs ∧ (c ∉ labels t) ∧ e = KeyError c.
Proof.
  induction cs as [|c0 cs IH]; cbn; [done|].
  destruct (getcol c0 t) as [v0|] eqn:Hv0.
  - destruct (df_select cs t) as [r|e']; [done|]. intros [= <-].
    destruct IH as (c & Hc & Hn & ->); [done|]. exists c.
    split; [by apply list_elem_of_further|done].
  - intros [= <-]. exists c0. split; [apply list_elem_of_here|].
    split; [by apply getcol_None_notin|done].
Qed.






Section long.
Context `{Pandas}.







End long.


(** ** The rows and the countries of the cleaned emissions (data_cleaning.py) *)

Lemma take_mask_fmap {A B} (f : A → B) mask (l : list A) :
  take_mask mask (f <$> l) = f <$> take_mask mask l.
Proof.
  revert l. induction mask as [|b mask IH]; intros [|x l]; try done.
  cbn. destruct b; cbn; by rewrite IH.
Qed.

Lemma take_mask_own {A} (p : A → bool) (l : list A) :
  forallb p (take_mask (p <$> l) l) = true.
Proof.
  induction l as [|x l IH]; [done|]. cbn. destruct (p x) eqn:E; [|done].
  cbn. by rewrite E, IH.
Qed.

Lemma labels_df_mask mask t : labels (df_mask mask t) = labels t.
Proof.
  unfold labels, df_mask. rewrite <-list_fmap_compose. by apply list_fmap_ext; intros ? [].
Qed.

Lemma labels_setcol c v t : ∀ l, l ∈ labels (setcol c v t) ↔ l = c ∨ l ∈ labels t.
Proof.
  intros l. unfold labels. induction t as [|[c' v'] t IH]; cbn.
  - rewrite list_elem_of_singleton. split; [auto|]. by intros [?|?%elem_of_nil].
  - destruct (decide (c' = c)) as [->|Hne]; cbn; rewrite !elem_of_cons; [tauto|].
    rewrite IH. tauto.
Qed.

Section rows.
Context `{Pandas}.

(** What [clean_emissions_raw] returns, when it returns: the key column is
    gone, the country of a row is the entry of its geo code in the country
    map ([nan] for a code the map does not hold), and with
    [drop_eu_total] no row of the code EU27_2020 is left. *)
Theorem clean_emissions_raw_rows (t : DataFrame) (cm : list (string * string))
    (drop : bool) (out : DataFrame) :
  exec (λ df, clean_emissions_raw df cm drop) t = Ok out →
  (key_col ∉ labels out) ∧
  ∃ geo, getcol "geo" out = Some geo ∧
    getcol "country" out = Some (map_dict cm <$> geo) ∧
    (drop = true → ∀ x, x ∈ geo → x ≠ VStr "EU27_2020").
Proof.
  rewrite clean_emissions_raw_exec. cbv zeta.
  destruct (decide (key_col ∉ labels t)); [done|].
  destruct (decide (1 < occurrences key_col _)%nat); [done|].
  destruct (getcol key_col _) as [k|]; [|done].
  destruct (decide (length split_names = _)) as [Hw|]; [|done].
  set (t2 := df_drop [key_col] _ ++ zip split_names _).
  destruct (decide (1 < occurrences "geo" _)%nat); [done|].
  assert (key_col ∉ labels t2) as Hk2.
  { unfold t2, labels. rewrite fmap_app, not_elem_of_app. split.
    - intros (p & Hp & [Hin _]%list_elem_of_filter)%list_elem_of_fmap.
      apply Hin. rewrite <-Hp. apply list_elem_of_here.
    - rewrite fst_zip by (rewrite length_fmap; lia). unfold split_names. intros Hin.
      repeat (apply elem_of_cons in Hin as [Hin|Hin]; [discriminate|]).
      by apply elem_of_nil in Hin. }
  destruct (getcol "geo" t2) as [geo|] eqn:Hgeo; [|done].
  assert (key_col ∉ labels (setcol "country" (map_dict cm <$> geo) t2)) as Hk3.
  { rewrite labels_setcol. by intros [?|?]. }
  destruct drop.
  - rewrite getcol_setcol_ne, Hgeo by done. intros [= <-].
    split; [by rewrite labels_df_mask|].
    exists (take_mask (cell_ne_str "EU27_2020" <$> geo) geo).
    rewrite !getcol_df_mask, getcol_setcol_ne, getcol_setcol_eq, Hgeo by done. cbn.
    split; [done|]. split; [by rewrite take_mask_fmap|].
    intros _ x Hx ->.
    by pose proof (forallb_elem _ _ _ (take_mask_own (cell_ne_str "EU27_2020") geo) Hx).
  - intros [= <-]. split; [done|]. exists geo.
    rewrite getcol_setcol_ne, getcol_setcol_eq by done. by repeat split.
Qed.

End rows.

(** The statement at [mixed_keys]. *)
Lemma clean_emissions_raw_rows_witness :
  ∃ out geo,
    exec (λ df, clean_emissions_raw (H := example_pandas) df DEFAULT_COUNTRY_MAP true)
         mixed_keys = Ok out ∧
    getcol "geo" out = Some geo ∧
    getcol "country" out = Some (map_dict DEFAULT_COUNTRY_MAP <$> geo).
Proof.
  eexists.
  destruct (clean_emissions_raw_rows (H := example_pandas) mixed_keys DEFAULT_COUNTRY_MAP
              true _ eq_refl) as (_ & geo & Hgeo & Hcountry & _).
  exists geo. split; [reflexivity|]. by split.
Defined.

Lemma dict_get_elem d k v : dict_get d k = Some v → (k, v) ∈ d.
Proof.
  induction d as [|[k' v'] d IH]; [done|]. cbn.
  destruct (decide (k' = k)) as [->|Hne].
  - intros [= ->]. apply list_elem_of_here.
  - intros Hd. by apply list_elem_of_further, IH.
Qed.

(** The country names the emissions get from [DEFAULT_COUNTRY_MAP] and the
    names [clean_population_raw] keeps by default are the same 29: every
    code but EU27_2020 maps to a name of [DEFAULT_EU_COUNTRIES], and every
    name of that list is the image of a code. *)
Theorem default_country_names_agree :
  (∀ code name, dict_get DEFAULT_COUNTRY_MAP code = Some name →
     code = "EU27_2020" ∨ name ∈ DEFAULT_EU_COUNTRIES) ∧
  (∀ name, name ∈ DEFAULT_EU_COUNTRIES →
     ∃ code, code ≠ "EU27_2020" ∧ dict_get DEFAULT_COUNTRY_MAP code = Some name) ∧
  length DEFAULT_EU_COUNTRIES = 29%nat ∧ NoDup DEFAULT_EU_COUNTRIES.
Proof.
  split; [|split; [|split]].
  - intros code name Hd%dict_get_elem.
    assert (forallb (λ p, bool_decide (p.1 = "EU27_2020")
                          || bool_decide (p.2 ∈ DEFAULT_EU_COUNTRIES))
                    DEFAULT_COUNTRY_MAP = true) as Hall by (vm_compute; reflexivity).
    pose proof (forallb_elem _ _ _ Hall Hd) as Hp. cbn in Hp.
    apply orb_prop in Hp as [Hp|Hp]; apply bool_decide_eq_true_1 in Hp; auto.
  - intros name Hn.
    assert (forallb (λ n, existsb (λ p, bool_decide (p.1 ≠ "EU27_2020")
                             && bool_decide (dict_get DEFAULT_COUNTRY_MAP p.1 = Some n))
                            DEFAULT_COUNTRY_MAP)
                    DEFAULT_EU_COUNTRIES = true) as Hall by (vm_compute; reflexivity).
    pose proof (forallb_elem _ _ _ Hall Hn) as Hp. cbn beta in Hp.
    apply existsb_exists in Hp as ([code n'] & _ & [H1 H2]%andb_prop).
    exists code. split; by apply bool_decide_eq_true_1 in H1, H2.
  - reflexivity.
  - apply (bool_decide_unpack _). vm_compute. exact I.
Qed.

(** ** Missing emissions under the group sums (calculations.py) *)

Lemma group_sum_all_missing xs : forallb PrimFloat.is_nan xs = true → group_sum xs = 0%float.
Proof.
  intros Hall. unfold group_sum.
  replace (filter (λ x, negb (PrimFloat.is_nan x)) xs) with (@nil float); [done|].
  symmetry. apply elem_of_nil_inv. intros x [Hx Hin]%list_elem_of_filter.
  apply list_elem_of_In in Hin. rewrite forallb_forall in Hall.
  by rewrite (Hall x Hin) in Hx.
Qed.

(** Missing emissions are left out of the sums, so that a country that has
    rows at the base year, all without a value, has the base sum 0.0 (not
    a missing one), and its percent change is computed from it: infinite
    for a current sum of 90. *)
Theorem indicators_of_missing_emissions (t : DataFrame) (by_ cy : Z)
    (gc yc ec oc : string) (years g e : Series) (i : nat) (k : cell) :
  getcol yc t = Some years → getcol gc t = Some g → getcol ec t = Some e →
  forallb is_float_cell e = true → forallb str_or_missing g = true → oc ∉ labels t →
  g !! i = Some k →
  existsb (key_eqb k) (take_mask (cell_eq_int by_ <$> years) g) = true →
  forallb PrimFloat.is_nan
    (take_mask (key_eqb k <$> take_mask (cell_eq_int by_ <$> years) g)
               (take_mask (cell_eq_int by_ <$> years) (floats e))) = true →
  sum_at years g e by_ k = 0%float ∧
  ∃ pcol, exec (λ df, add_reduction_percent_actual df by_ cy gc yc ec oc) t
            = Ok (t ++ [(oc, pcol)]) ∧
          pcol !! i = Some (VFloat (percent_change 0 (sum_at years g e cy k))) ∧
          percent_change 0 90 = PrimFloat.infinity.
Proof.
  intros Hy Hg He Hfl Hkeys Hoc Hk Hrows Hnan.
  assert (sum_at years g e by_ k = 0%float) as Hsum.
  { unfold sum_at. cbv zeta. rewrite Hrows. by apply group_sum_all_missing. }
  split; [done|]. eexists. split.
  - by apply add_reduction_percent_actual_table; [..|apply float_column_numeric| |].
  - unfold Series in *. rewrite list_lookup_fmap, Hk. cbn [fmap option_fmap option_map].
    by rewrite Hsum.
Qed.

(** The statement at [zland]. *)
Lemma indicators_of_missing_emissions_witness :
  exec (λ df, add_reduction_percent_actual df 1990 2023 "country" "year" "emissions"
                "redução_%_atual") zland
  = Ok (zland ++ [("redução_%_atual", [VFloat PrimFloat.infinity;
                                       VFloat PrimFloat.infinity])]).
Proof.
  destruct (indicators_of_missing_emissions zland 1990 2023 "country" "year" "emissions"
              "redução_%_atual" [VInt 1990; VInt 2023] [VStr "Zland"; VStr "Zland"]
              [VFloat PrimFloat.nan; VFloat 90] 0%nat (VStr "Zland"))
    as (_ & pcol & Hex & _); try reflexivity.
  vm_compute. intros Hin.
  repeat (apply elem_of_cons in Hin as [Hin|Hin]; [discriminate|]).
  by apply elem_of_nil in Hin.
Defined.

(** ** Rounding (feature_engineering.py) *)

Lemma rint_nan x : PrimFloat.is_nan x = true → rint x = x.
Proof.
  intros Hx. unfold rint.
  assert (PrimFloat.ltb (PrimFloat.abs x) 4503599627370496 = false) as ->; [|done].
  apply is_nan_Prim2SF in Hx. by rewrite ltb_spec, abs_spec, Hx.
Qed.

Lemma np_round_nan d : np_round d PrimFloat.nan = PrimFloat.nan.
Proof.
  unfold np_round. destruct (d =? 0); [by apply rint_nan|].
  apply is_nan_eq, nan_div_l. rewrite rint_nan; by apply nan_mul_l.
Qed.

Section rounding.
Context `{Pandas}.

Lemma for_each_round d cs t0 t1 :
  for_each cs (λ c, cols ← df_columns 1%nat;
                    if decide (c ∈ cols) then
                      v ← df_getitem 1%nat c;
                      df_setitem 1%nat c (round_cell d <$> to_numeric v)
                    else mret ()) [t0; t1]
  = (Ok (), [t0; round_cols d cs t1]).
Proof.
  revert t1. induction cs as [|c cs IH]; intros t1; [reflexivity|].
  unfold round_cols in *. cbn [for_each foldl].
  destruct (getcol c t1) as [v|] eqn:Hv.
  - specialize (IH (setcol c (round_column d v) t1)). unfold round_column in *.
    revert IH. py_unfold. cbn.
    rewrite decide_True by (by apply (getcol_Some_elem _ _ v)). cbn. rewrite Hv. cbn.
    by intros ->.
  - specialize (IH t1). revert IH. py_unfold. cbn.
    rewrite decide_False by (by apply getcol_None_notin). cbn. by intros ->.
Qed.

Lemma apply_rounding_exec t r5 pc :
  exec (λ df, apply_rounding df r5 pc) t
  = Ok (round_cols 0 (truthy pc) (round_cols 5 (truthy r5) t)).
Proof.
  unfold apply_rounding, exec, df_copy, mbind, Py_bind, df_read, df_new. cbn.
  rewrite (for_each_round 5). rewrite (for_each_round 0). reflexivity.
Qed.

Lemma round_cols_labels d cs t : labels (round_cols d cs t) = labels t.
Proof.
  revert t. induction cs as [|c cs IH]; intros t; [done|]. cbn.
  destruct (getcol c t) as [v|] eqn:Hv; [|apply IH].
  unfold round_cols in IH. rewrite IH.
  by apply labels_setcol_elem, (getcol_Some_elem _ _ v).
Qed.

Lemma round_cols_column d cs t c v :
  getcol c t = Some v →
  getcol c (round_cols d cs t) = Some (Nat.iter (occurrences c cs) (round_column d) v).
Proof.
  revert t v. induction cs as [|c0 cs IH]; intros t v Hv; [done|].
  unfold occurrences, round_cols in *. cbn [foldl].
  destruct (decide (c0 = c)) as [->|Hne].
  - rewrite filter_cons_True by done. rewrite Hv.
    rewrite (IH _ (round_column d v)) by apply getcol_setcol_eq.
    cbn [length]. by rewrite Nat.iter_succ_r.
  - rewrite filter_cons_False by done.
    destruct (getcol c0 t) as [v0|]; [|by apply IH].
    apply IH. by rewrite getcol_setcol_ne.
Qed.

(** [apply_rounding] never raises.  It returns a table with the labels of
    its argument in which a column is rounded once for each time it is
    listed (to 5 decimals, then to 0) and is otherwise as it was: so a
    call without lists returns the table unchanged, and a listed label
    the table does not have is passed over.  A rounded column has its
    length, and a cell of it that was missing, or text that is no number,
    is missing. *)
Theorem apply_rounding_result (t : DataFrame) (r5 pc : option (list string)) :
  ∃ out, exec (λ df, apply_rounding df r5 pc) t = Ok out ∧
    labels out = labels t ∧
    (truthy r5 = [] → truthy pc = [] → out = t) ∧
    (∀ c v, getcol c t = Some v →
       getcol c out = Some (Nat.iter (occurrences c (truthy pc)) (round_column 0)
                              (Nat.iter (occurrences c (truthy r5)) (round_column 5) v))) ∧
    (∀ d (s : Series), length (round_column d s) = length s) ∧
    (∀ d (s : Series) i x, s !! i = Some x →
       isna x = true ∨ (∃ k, x = VStr k ∧ parse_number k = None) →
       ∃ x', round_column d s !! i = Some x' ∧ isna x' = true).
Proof.
  rewrite apply_rounding_exec. eexists. split; [done|].
  split; [by rewrite !round_cols_labels|].
  split; [by intros -> ->|]. split; [|split].
  - intros c v Hv. apply round_cols_column. by apply round_cols_column.
  - intros d s. unfold round_column. by rewrite length_fmap, length_to_numeric.
  - intros d s i x Hi Hx. unfold round_column.
    pose proof (to_numeric_missing s i x Hi (coerce_cell_missing x Hx)) as Hm.
    rewrite (list_lookup_fmap (round_cell d) (to_numeric s) i).
    unfold Series in *. rewrite Hm.
    cbn. rewrite np_round_nan by done. by eexists.
Qed.

End rounding.

(** ** The script (run_pipeline.py) *)

Lemma run_ok_stage (n : nat) (h : heap) (m : Py ref) :
  (n ≤ length h)%nat → run_ok (length h) h m (fresh h) →
  run_ok n h m (λ out h', (n ≤ out < length h')%nat).
Proof.
  intros Hn Hm _. destruct (Hm (le_n _)) as (Ht & Hl & Hfresh). unfold heap in *.
  split; [|split; [done|]].
  - rewrite <-(Nat.min_l n (length h)) by done. by rewrite <-!take_take, Ht.
  - intros out Hout. specialize (Hfresh out Hout). unfold fresh in Hfresh. lia.
Qed.

Section script.
Context `{Pandas}.

(** One stage of the script, and what is left of it. *)
Ltac script_step :=
  apply run_bind; eapply run_conseq;
  [ apply run_ok_stage; [lia|];
    first [ apply clean_emissions_raw_frame | apply clean_population_raw_frame
          | apply add_total_emissions_frame | apply add_difference_between_years_frame
          | apply wide_to_long_years_frame | apply add_sector_main_frame
          | apply population_wide_to_long_frame
          | apply merge_emissions_population_long_frame
          | apply add_emissions_per_capita_frame
          | apply add_reduction_percent_actual_frame
          | apply add_target_2030_and_gap_frame ]
  | cbv beta; intros ].

Lemma run_pipeline_frame h em_raw pop_raw :
  run_ok (length h) h (run_pipeline em_raw pop_raw) (fresh h).
Proof.
  unfold run_pipeline. do 11 script_step.
  eapply run_conseq; [apply run_ok_stage; [lia|apply apply_rounding_frame]|].
  cbv beta. intros. unfold fresh. lia.
Qed.

(** The script as a whole writes to no table that existed before it ran,
    the two raw tables among them, whatever they hold and whether it
    returns or raises; the table it returns did not exist before. *)
Theorem run_pipeline_leaves_raw_tables (h : heap) (em_raw pop_raw : ref) :
  (∀ i t, h !! i = Some t → (run_pipeline em_raw pop_raw h).2 !! i = Some t) ∧
  (∀ out, (run_pipeline em_raw pop_raw h).1 = Ok out →
     h !! out = None ∧ is_Some ((run_pipeline em_raw pop_raw h).2 !! out)).
Proof. apply run_ok_unchanged, run_pipeline_frame. Qed.

(** The emissions are cleaned first: when the emissions table lacks the
    composite key column, the script stops with the ValueError of
    [clean_emissions_raw], whatever the population table holds. *)
Theorem run_pipeline_checks_emissions_first (e p : DataFrame) :
  key_col ∉ labels e →
  (run_pipeline 0%nat 1%nat [e; p]).1
  = Raise (ValueError ("Expected column '" +:+ key_col
                       +:+ "' in emissions raw dataframe.")).
Proof.
  intros Hk. unfold run_pipeline, clean_emissions_raw. py_unfold. cbn.
  by rewrite decide_True.
Qed.

End script.

(** The statement at two tables that both lack their required column. *)
Lemma run_pipeline_checks_emissions_first_witness :
  (run_pipeline (H := example_pandas) 0%nat 1%nat
     [[("geo", [VStr "AT"])]; [("Country", [VStr "Austria"])]]).1
  = Raise (ValueError ("Expected column '" +:+ key_col
                       +:+ "' in emissions raw dataframe.")).
Proof.
  apply (run_pipeline_checks_emissions_first (H := example_pandas)).
  intros Hin. apply list_elem_of_singleton in Hin. discriminate.
Defined.

(** ** The cleaned population (data_cleaning.py) *)






Section population.
Context `{Pandas}.








End population.


(** ** The long population table (merge_data.py) *)

Section long_population.
Context `{Pandas}.


End long_population.


(** ** The conversions at their edges *)

(** [str.strip] removes the whitespace of Unicode, not only blanks. *)
Example strip_unicode_whitespace :
  strip padded_country_name = "Country Name" ∧
  ∃ out, exec (λ df, clean_population_raw (H := example_pandas) df DEFAULT_EU_COUNTRIES)
              [(padded_country_name, [VStr "Austria"]); ("1990", [VInt 5])] = Ok out.
Proof. split; [|eexists]; vm_compute; reflexivity. Qed.

(** The cast to [Int64] raises an OverflowError on an infinity and refuses
    an integer that is no int64; a missing value becomes [pd.NA]. *)
Example cast_of_infinity_and_of_1e20 :
  astype_Int64 [VFloat PrimFloat.infinity]
    = Raise (OverflowError "cannot convert float infinity to integer") ∧
  astype_Int64 [VFloat 1e20] = Raise (TypeError (cast_refused "float64")) ∧
  astype_Int64 [VFloat 3; VFloat PrimFloat.nan] = Ok [VInt 3; VNA].
Proof. repeat split; vm_compute; reflexivity. Qed.

(** The total and the difference of int64 columns wrap around. *)
Example int64_total_wraps :
  exec (λ df, add_total_emissions (H := example_pandas) df 1990 1991 "total_emissoes")
       int64_overflow
  = Ok [("1990", [VInt 9223372036854775807]); ("1991", [VInt 1]);
        ("total_emissoes", [VInt (-9223372036854775808)])] ∧
  exec (λ df, add_difference_between_years (H := example_pandas) df 1991 1990 "d")
       [("1990", [VInt 9223372036854775807]); ("1991", [VInt (-2)])]
  = Ok [("1990", [VInt 9223372036854775807]); ("1991", [VInt (-2)]);
        ("d", [VInt (-9223372036854775807)])].
Proof. split; vm_compute; reflexivity. Qed.

(** On a table that has a column geo already, [clean_emissions_raw] holds
    two columns of that label after the split, and raises. *)
Example geo_twice_raises :
  ∃ e, exec (λ df, clean_emissions_raw (H := example_pandas) df DEFAULT_COUNTRY_MAP true)
            geo_twice = Raise e.
Proof. eexists. vm_compute. reflexivity. Qed.
